(** * Evenlyf backend: reservation lifecycle, credit ledger, groups, invitations

    Shallow embedding of [backend/users/models.py] and of the views of
    [backend/users/views.py] (and the batch action of [backend/users/admin.py])
    that drive reservations, tickets, subscriptions, event groups and friend
    invitations, followed by the properties proved about them.

    Conventions of the embedding.
    - A [datetime.date] is its proleptic Gregorian ordinal (Python's
      [date.toordinal()]), so that [weekday] is [(ordinal + 6) mod 7] as in
      CPython.
    - An aware [datetime] is the number of microseconds of its wall-clock
      reading in the project's time zone ([TIME_ZONE = 'Europe/Paris']),
      counted from midnight of ordinal 0; [timezone.now()] is an argument
      [now] of every operation, read the same way.  Daylight-saving jumps are
      not represented.
    - A database table is the list of its rows in insertion order; a
      [DecimalField] with two decimal places is an integer number of
      hundredths; [updated_at] columns are left out. *)

From Stdlib Require Import ZArith List String Bool Lia DecimalString.
Import ListNotations.
Local Open Scope string_scope.
Local Open Scope list_scope.
Local Open Scope Z_scope.

(** ** Dates and times *)

Module Calendar.

Definition date := Z.
Definition datetime := Z.

(** [date.min.toordinal()] and [date.max.toordinal()]. *)
Definition min_ordinal : Z := 1.
Definition max_ordinal : Z := 3652059.

Definition is_leap (year : Z) : bool :=
  (year mod 4 =? 0) && (negb (year mod 100 =? 0) || (year mod 400 =? 0)).

Definition days_before_year (year : Z) : Z :=
  let y := year - 1 in y * 365 + y / 4 - y / 100 + y / 400.

Definition days_in_month (year month : Z) : Z :=
  if month =? 2 then (if is_leap year then 29 else 28)
  else if (month =? 4) || (month =? 6) || (month =? 9) || (month =? 11) then 30
  else 31.

Fixpoint days_before_month_aux (year : Z) (months : nat) : Z :=
  match months with
  | O => 0
  | S k => days_before_month_aux year k + days_in_month year (Z.of_nat (S k))
  end.

Definition days_before_month (year month : Z) : Z :=
  days_before_month_aux year (Z.to_nat (month - 1)).

(** [date(year, month, day).toordinal()]. *)
Definition ymd (year month day : Z) : date :=
  days_before_year year + days_before_month year month + day.

(** [date.weekday()]: Monday is 0, Sunday is 6. *)
Definition weekday (d : date) : Z := (d + 6) mod 7.

(** [d - timedelta(days=k)]; [None] stands for the [OverflowError] raised
    when the result leaves [date.min .. date.max]. *)
Definition minus_days (d : date) (k : Z) : option date :=
  let r := d - k in
  if (min_ordinal <=? r) && (r <=? max_ordinal) then Some r else None.

Definition microsecond : Z := 1.
Definition second : Z := 1000000.
Definition minute : Z := 60 * second.
Definition hour : Z := 60 * minute.
Definition day : Z := 24 * hour.

(** [timezone.make_aware(datetime.combine(d, time(h, m, s)))]. *)
Definition combine (d : date) (h m s : Z) : datetime :=
  d * day + h * hour + m * minute + s * second.

(** [timedelta(minutes=k)] and [timedelta(days=k)] added to a datetime. *)
Definition plus_minutes (t : datetime) (k : Z) : datetime := t + k * minute.
Definition plus_days (t : datetime) (k : Z) : datetime := t + k * day.

End Calendar.
Import Calendar.

(** ** Python values *)

(** Truthiness of an optional string ([None] and [''] are falsy). *)
Definition truthy (o : option string) : bool :=
  match o with
  | Some s => negb (String.eqb s "")
  | None => false
  end.

(** [str(n)] of an integer, as the f-strings of the views format it. *)
Definition str (n : Z) : string := NilZero.string_of_int (Z.to_int n).

(** [s.startswith(p)]. *)
Definition startswith (s p : string) : bool := String.prefix p s.

(** Outcome of [Model.objects.get(...)]. *)
Inductive GetResult (A : Type) : Type :=
| Found (row : A)
| DoesNotExist
| MultipleObjectsReturned.
Arguments Found {A} row.
Arguments DoesNotExist {A}.
Arguments MultipleObjectsReturned {A}.

Definition objects_get {A : Type} (p : A -> bool) (table : list A) : GetResult A :=
  match filter p table with
  | [] => DoesNotExist
  | [row] => Found row
  | _ => MultipleObjectsReturned
  end.

(** [queryset.order_by('-key').first()]: the row with the greatest key; among
    equal keys the row inserted last is taken. *)
Fixpoint newest_by {A : Type} (key : A -> Z) (rows : list A) : option A :=
  match rows with
  | [] => None
  | r :: rest =>
      match newest_by key rest with
      | Some r' => if key r <? key r' then Some r' else
                     if key r =? key r' then Some r' else Some r
      | None => Some r
      end
  end.

(** Next value of an auto-increment primary key. *)
Definition fresh_id (ids : list Z) : Z := 1 + fold_right Z.max 0 ids.

(** [row.save()] of a row that is already in its table. *)
Definition update_row {A : Type} (pk : A -> Z) (row : A) (table : list A) : list A :=
  map (fun r => if pk r =? pk row then row else r) table.

(** ** Data model ([users/models.py]) *)

Inductive ReservationStatus := PENDING | CONFIRMED | CANCELLED | COMPLETED.

Definition ReservationStatus_eqb (a b : ReservationStatus) : bool :=
  match a, b with
  | PENDING, PENDING | CONFIRMED, CONFIRMED
  | CANCELLED, CANCELLED | COMPLETED, COMPLETED => true
  | _, _ => false
  end.

Module Reservation.

Record t := mk {
  id : Z;
  user : Z;
  activity_name : string;
  activity_description : string;
  reservation_date : date;
  reservation_time : Z;
  venue_name : string;
  venue_address : string;
  price_plan : string;
  price_amount : Z;
  currency : string;
  status : ReservationStatus;
  stripe_payment_intent_id : string;
  paid_at : option datetime;
  participants_count : Z;
  special_requests : string;
  created_at : datetime;
  cancellation_deadline : option datetime
}.

Definition with_status (r : t) (s : ReservationStatus) : t :=
  mk (id r) (user r) (activity_name r) (activity_description r)
     (reservation_date r) (reservation_time r) (venue_name r) (venue_address r)
     (price_plan r) (price_amount r) (currency r) s
     (stripe_payment_intent_id r) (paid_at r) (participants_count r)
     (special_requests r) (created_at r) (cancellation_deadline r).

Definition with_payment (r : t) (s : ReservationStatus) (ref : string)
    (paid : option datetime) : t :=
  mk (id r) (user r) (activity_name r) (activity_description r)
     (reservation_date r) (reservation_time r) (venue_name r) (venue_address r)
     (price_plan r) (price_amount r) (currency r) s
     ref paid (participants_count r)
     (special_requests r) (created_at r) (cancellation_deadline r).

Definition with_cancellation_deadline (r : t) (d : option datetime) : t :=
  mk (id r) (user r) (activity_name r) (activity_description r)
     (reservation_date r) (reservation_time r) (venue_name r) (venue_address r)
     (price_plan r) (price_amount r) (currency r) (status r)
     (stripe_payment_intent_id r) (paid_at r) (participants_count r)
     (special_requests r) (created_at r) d.

(** [is_modifiable] *)
Definition is_modifiable (r : t) (now : datetime) : bool :=
  match cancellation_deadline r with
  | None => false
  | Some deadline => now <? deadline
  end.

(** The Tuesday picked by [set_cancellation_deadline]; [None] when a date
    subtraction overflows. *)
Definition tuesday_before (event_date : date) : option date :=
  let days_before_tuesday := (weekday event_date - 1) mod 7 in
  match minus_days event_date days_before_tuesday with
  | None => None
  | Some tuesday =>
      if days_before_tuesday =? 0 then minus_days event_date 7
      else Some tuesday
  end.

(** [set_cancellation_deadline]; [None] when it raises. *)
Definition set_cancellation_deadline (r : t) : option t :=
  match tuesday_before (reservation_date r) with
  | None => None
  | Some tuesday =>
      Some (with_cancellation_deadline r (Some (combine tuesday 23 59 0)))
  end.

(** The part of [save] that runs before the row is written. *)
Definition save (r : t) : option t :=
  match cancellation_deadline r with
  | None => set_cancellation_deadline r
  | Some _ => Some r
  end.

End Reservation.

Inductive TicketStatus := TICKET_ACTIVE | TICKET_USED | TICKET_EXPIRED.
Inductive TicketSource := CANCELLATION | REFUND | PROMOTIONAL | GIFT.

Module UserTicket.

Record t := mk {
  id : Z;
  user : Z;
  amount : Z;
  status : TicketStatus;
  source : TicketSource;
  original_reservation : option Z;
  used_for_reservation : option Z;
  created_at : datetime;
  expires_at : option datetime;
  used_at : option datetime;
  notes : string
}.

(** [is_valid] *)
Definition is_valid (k : t) (now : datetime) : bool :=
  match status k with
  | TICKET_ACTIVE =>
      match expires_at k with
      | Some e => if now >? e then false else true
      | None => true
      end
  | _ => false
  end.

(** [use_ticket]; [None] stands for the [ValueError]. *)
Definition use_ticket (k : t) (reservation : Z) (now : datetime) : option t :=
  if negb (is_valid k now) then None
  else Some (mk (id k) (user k) (amount k) TICKET_USED (source k)
                (original_reservation k) (Some reservation) (created_at k)
                (expires_at k) (Some now) (notes k)).

(** [expire_ticket] *)
Definition expire_ticket (k : t) : t :=
  mk (id k) (user k) (amount k) TICKET_EXPIRED (source k)
     (original_reservation k) (used_for_reservation k) (created_at k)
     (expires_at k) (used_at k) (notes k).

End UserTicket.

Inductive SubscriptionType := MONTHLY | QUARTERLY | SEMESTRIAL.
Inductive SubscriptionStatus := SUB_ACTIVE | SUB_EXPIRED | SUB_CANCELLED.

Module UserSubscription.

Record t := mk {
  id : Z;
  user : Z;
  subscription_type : SubscriptionType;
  status : SubscriptionStatus;
  start_date : datetime;
  end_date : datetime;
  price_paid : Z;
  reservations_used : Z;
  current_reservation : option Z;
  created_at : datetime;
  is_test_mode : bool
}.

Definition with_usage (s : t) (used : Z) (current : option Z) : t :=
  mk (id s) (user s) (subscription_type s) (status s) (start_date s)
     (end_date s) (price_paid s) used current (created_at s) (is_test_mode s).

(** [is_active] *)
Definition is_active (s : t) (now : datetime) : bool :=
  match status s with
  | SUB_ACTIVE => now <=? end_date s
  | _ => false
  end.

(** [can_make_reservation]; the status of [current_reservation] is read
    through the foreign key, [None] when the referenced row is absent. *)
Definition can_make_reservation (s : t) (reservations : list Reservation.t)
    (now : datetime) : option bool :=
  if negb (is_active s now) then Some false
  else
    match current_reservation s with
    | None => Some true
    | Some rid =>
        match find (fun r => Reservation.id r =? rid) reservations with
        | None => None
        | Some r =>
            Some (match Reservation.status r with
                  | CANCELLED | COMPLETED => true
                  | _ => false
                  end)
        end
    end.

(** [use_for_reservation] *)
Definition use_for_reservation (s : t) (reservation : Z) : t :=
  with_usage s (reservations_used s + 1) (Some reservation).

(** [release_reservation]: the updated row and the returned flag. *)
Definition release_reservation (s : t) : t * bool :=
  match current_reservation s with
  | Some _ => (with_usage s (Z.max 0 (reservations_used s - 1)) None, true)
  | None => (s, false)
  end.

(** [get_active_subscription]; the model's default ordering is
    [-created_at]. *)
Definition get_active_subscription (table : list t) (u : Z) (now : datetime)
    : option t :=
  newest_by created_at
    (filter (fun s => (user s =? u)
                      && (match status s with SUB_ACTIVE => true | _ => false end)
                      && (end_date s >? now)) table).

End UserSubscription.

Inductive InvitationStatus := INV_PENDING | INV_ACCEPTED | INV_EXPIRED | INV_USED.

(** Exceptions that the modelled methods let escape. *)
Inductive PyException := ValueError | OverflowError | IntegrityError.

Inductive Raises (A : Type) : Type :=
| Returns (value : A)
| Raise (e : PyException).
Arguments Returns {A} value.
Arguments Raise {A} e.

Module FriendInvitation.

Record t := mk {
  id : Z;
  inviter : Z;
  invited_email : string;
  invited_user : option Z;
  invitation_token : string;
  reservation : Z;
  status : InvitationStatus;
  message : string;
  created_at : datetime;
  expires_at : datetime;
  accepted_at : option datetime;
  used_at : option datetime
}.

(** [is_valid] *)
Definition is_valid (i : t) (now : datetime) : bool :=
  match status i with
  | INV_PENDING => now <? expires_at i
  | _ => false
  end.

(** [can_be_used] *)
Definition can_be_used (i : t) : bool :=
  match status i, invited_user i with
  | INV_ACCEPTED, Some _ => true
  | _, _ => false
  end.

(** [mark_as_accepted] *)
Definition mark_as_accepted (i : t) (u : Z) (now : datetime) : t :=
  mk (id i) (inviter i) (invited_email i) (Some u) (invitation_token i)
     (reservation i) INV_ACCEPTED (message i) (created_at i) (expires_at i)
     (Some now) (used_at i).

(** [mark_as_used] *)
Definition mark_as_used (i : t) (now : datetime) : t :=
  mk (id i) (inviter i) (invited_email i) (invited_user i) (invitation_token i)
     (reservation i) INV_USED (message i) (created_at i) (expires_at i)
     (accepted_at i) (Some now).

(** The database constraints checked by [objects.create]: the token is
    unique, and so is the triple (inviter, invited_email, reservation). *)
Definition violates_unique (table : list t) (inv : Z) (email : string)
    (res : Z) (token : string) : bool :=
  existsb (fun i => String.eqb (invitation_token i) token
                    || ((inviter i =? inv) && String.eqb (invited_email i) email
                        && (reservation i =? res))) table.

(** [create_invitation]; [token] is the 32 hexadecimal characters drawn
    from [uuid.uuid4()].  Returns the new row and the table with it. *)
Definition create_invitation (table : list t) (inv : Z) (email : string)
    (res : Reservation.t) (msg : string) (token : string) (now : datetime)
    : Raises (t * list t) :=
  match minus_days (Reservation.reservation_date res) 1 with
  | None => Raise OverflowError
  | Some tuesday =>
      let wednesday_deadline := combine tuesday 23 59 59 in
      if now >? wednesday_deadline then Raise ValueError
      else
        let expires := plus_minutes (combine tuesday 23 59 59) 1 in
        if violates_unique table inv email (Reservation.id res) token
        then Raise IntegrityError
        else
          let i := mk (fresh_id (map id table)) inv email None token
                      (Reservation.id res) INV_PENDING msg now expires
                      None None in
          Returns (i, table ++ [i])
  end.

End FriendInvitation.

Module EventGroup.

Record t := mk {
  id : Z;
  name : string;
  event_date : date;
  activity_name : string;
  meeting_point_name : string;
  meeting_point_address : string;
  meeting_time : Z;
  location_reveal_time : option datetime;
  max_participants : Z;
  is_confirmed : bool;
  created_at : datetime
}.

End EventGroup.

Module GroupMembership.

Record t := mk {
  id : Z;
  reservation : Z;
  group : Z;
  joined_at : datetime
}.

End GroupMembership.

Module User.

Record t := mk {
  id : Z;
  email : string;
  username : string;  (* unique, as in [AbstractUser] *)
  password : string;
  first_name : string;
  last_name : string;
  email_verified : bool;
  is_premium : bool;
  premium_until : option datetime;
  is_invited_user : bool;
  invitation_used : option Z;
  last_login_at : option datetime
}.

Definition with_invitation (u : t) (flag : bool) (inv : option Z) : t :=
  mk (id u) (email u) (username u) (password u) (first_name u) (last_name u)
     (email_verified u) (is_premium u) (premium_until u) flag inv
     (last_login_at u).

Definition with_last_login (u : t) (at_ : option datetime) : t :=
  mk (id u) (email u) (username u) (password u) (first_name u) (last_name u)
     (email_verified u) (is_premium u) (premium_until u) (is_invited_user u)
     (invitation_used u) at_.

End User.

(** ** The database *)

Record State := mkState {
  users : list User.t;
  reservations : list Reservation.t;
  tickets : list UserTicket.t;
  subscriptions : list UserSubscription.t;
  invitations : list FriendInvitation.t;
  groups : list EventGroup.t;
  memberships : list GroupMembership.t
}.

Definition with_reservations (st : State) (rs : list Reservation.t) : State :=
  mkState (users st) rs (tickets st) (subscriptions st) (invitations st)
          (groups st) (memberships st).
Definition with_tickets (st : State) (ts : list UserTicket.t) : State :=
  mkState (users st) (reservations st) ts (subscriptions st) (invitations st)
          (groups st) (memberships st).
Definition with_subscriptions (st : State) (ss : list UserSubscription.t) : State :=
  mkState (users st) (reservations st) (tickets st) ss (invitations st)
          (groups st) (memberships st).
Definition with_invitations (st : State) (invs : list FriendInvitation.t) : State :=
  mkState (users st) (reservations st) (tickets st) (subscriptions st) invs
          (groups st) (memberships st).
Definition with_users (st : State) (us : list User.t) : State :=
  mkState us (reservations st) (tickets st) (subscriptions st) (invitations st)
          (groups st) (memberships st).
Definition with_groups (st : State) (gs : list EventGroup.t) : State :=
  mkState (users st) (reservations st) (tickets st) (subscriptions st)
          (invitations st) gs (memberships st).
Definition with_memberships (st : State) (ms : list GroupMembership.t) : State :=
  mkState (users st) (reservations st) (tickets st) (subscriptions st)
          (invitations st) (groups st) ms.

Definition empty_state : State := mkState [] [] [] [] [] [] [].

(** [EventGroup.participants_count]:
    [self.memberships.filter(reservation__status='CONFIRMED').count()]. *)
Definition group_memberships (st : State) (g : EventGroup.t) : list GroupMembership.t :=
  filter (fun m => GroupMembership.group m =? EventGroup.id g) (memberships st).

Definition reservation_confirmed (st : State) (rid : Z) : bool :=
  existsb (fun r => (Reservation.id r =? rid)
                    && ReservationStatus_eqb (Reservation.status r) CONFIRMED)
          (reservations st).

Definition participants_count (st : State) (g : EventGroup.t) : Z :=
  Z.of_nat (List.length (filter (fun m => reservation_confirmed st (GroupMembership.reservation m))
                           (group_memberships st g))).

(** [EventGroup.is_full] *)
Definition is_full (st : State) (g : EventGroup.t) : bool :=
  participants_count st g >=? EventGroup.max_participants g.

(** [Reservation.has_group] *)
Definition has_group (st : State) (r : Reservation.t) : bool :=
  existsb (fun m => GroupMembership.reservation m =? Reservation.id r) (memberships st).

(** [Reservation.objects.create(...)]: the primary key and [created_at] are
    filled in, [save] sets the deadline, the row is appended.  [None] when
    [save] raises. *)
Definition Reservation_objects_create (st : State) (now : datetime)
    (fields : Reservation.t) : option (Reservation.t * State) :=
  let r := Reservation.mk (fresh_id (map Reservation.id (reservations st)))
             (Reservation.user fields) (Reservation.activity_name fields)
             (Reservation.activity_description fields)
             (Reservation.reservation_date fields)
             (Reservation.reservation_time fields)
             (Reservation.venue_name fields) (Reservation.venue_address fields)
             (Reservation.price_plan fields) (Reservation.price_amount fields)
             (Reservation.currency fields) (Reservation.status fields)
             (Reservation.stripe_payment_intent_id fields)
             (Reservation.paid_at fields) (Reservation.participants_count fields)
             (Reservation.special_requests fields) now
             (Reservation.cancellation_deadline fields) in
  match Reservation.save r with
  | None => None
  | Some r' => Some (r', with_reservations st (reservations st ++ [r']))
  end.

(** [reservation.save()] of a row already stored. *)
Definition Reservation_save (st : State) (r : Reservation.t) : option State :=
  match Reservation.save r with
  | None => None
  | Some r' => Some (with_reservations st (update_row Reservation.id r' (reservations st)))
  end.

(** [UserTicket.objects.create(...)] *)
Definition UserTicket_objects_create (st : State) (now : datetime) (u : Z)
    (amount : Z) (source : TicketSource) (original : option Z)
    (expires : option datetime) (notes : string) : UserTicket.t * State :=
  let k := UserTicket.mk (fresh_id (map UserTicket.id (tickets st))) u amount
             TICKET_ACTIVE source original None now expires None notes in
  (k, with_tickets st (tickets st ++ [k])).

(** ** Requests and responses ([users/views.py]) *)

(** What a view answers when it does not succeed; the HTTP status travels
    with it. *)
Inductive ErrorKind :=
| internal_error            (* the view's final [except Exception] *)
| deadline_passed           (* cancel: 'La periode d'annulation est expiree' *)
| reservation_not_found
| payment_intent_required
| date_missing
| date_invalid
| no_pending_reservation
| stripe_error
| payment_not_confirmed
| group_name_required
| meeting_point_required
| no_reservation_selected
| no_confirmed_reservation
| dates_differ
| invitation_not_found
| invitation_expired
| fields_required
| email_mismatch
| wrong_password
| no_accepted_invitation
| invitation_unusable
| no_active_subscription
| subscription_slot_taken
| date_required.

Inductive Response (A : Type) : Type :=
| Ok (body : A)
| Error (http_status : Z) (kind : ErrorKind).
Arguments Ok {A} body.
Arguments Error {A} http_status kind.

(** A date string of a request after [datetime.strptime(s, '%Y-%m-%d')]. *)
Inductive DateInput := DateAbsent | DateMalformed | DateParsed (d : date).

(** A time of day of a request: left out, not of the form [%H:%M], or the
    minutes after midnight it denotes. *)
Inductive TimeInput := TimeAbsent | TimeMalformed | TimeParsed (minutes : Z).

Definition get_default {A : Type} (o : option A) (default : A) : A :=
  match o with
  | Some v => v
  | None => default
  end.

(** ['20:00'], the default of the time fields. *)
Definition eight_pm : Z := 20 * 60.

(** The [reservation_data] dictionary of a request. *)
Record ReservationData := mkReservationData {
  rd_activity_name : option string;
  rd_activity_description : option string;
  rd_reservation_date : DateInput;
  rd_reservation_time : TimeInput;
  rd_venue_name : option string;
  rd_venue_address : option string;
  rd_price_plan : option string;
  rd_price_amount : option Z;
  rd_currency : option string;
  rd_participants_count : option Z;
  rd_special_requests : option string
}.

(** *** ReservationCancelView *)

Record CancelBody := mkCancelBody {
  ticket_created : bool;
  ticket_amount : option Z
}.

(** The deadline that the view computes for itself. *)
Definition cancel_view_deadline (reservation : Reservation.t) : option datetime :=
  match minus_days (Reservation.reservation_date reservation) 2 with
  | None => None
  | Some tuesday_before => Some (combine tuesday_before 23 59 0)
  end.

(** The subscription that the view releases:
    [UserSubscription.objects.filter(user=..., current_reservation=reservation).first()]. *)
Definition subscription_holding (st : State) (request_user : Z)
    (reservation : Reservation.t) : option UserSubscription.t :=
  newest_by UserSubscription.created_at
    (filter (fun s => (UserSubscription.user s =? request_user)
                      && (match UserSubscription.current_reservation s with
                          | Some rid => rid =? Reservation.id reservation
                          | None => false
                          end))
            (subscriptions st)).

Definition was_paid_with_ticket (reservation : Reservation.t) : bool :=
  negb (String.eqb (Reservation.stripe_payment_intent_id reservation) "")
  && startswith (Reservation.stripe_payment_intent_id reservation) "ticket_".

Definition was_paid_with_subscription (reservation : Reservation.t) : bool :=
  negb (String.eqb (Reservation.stripe_payment_intent_id reservation) "")
  && startswith (Reservation.stripe_payment_intent_id reservation) "subscription_".

Definition is_ticket_plan (reservation : Reservation.t) : bool :=
  String.eqb (Reservation.price_plan reservation) "TICKET".

Definition should_create_ticket (reservation : Reservation.t) : bool :=
  is_ticket_plan reservation
  && negb (was_paid_with_ticket reservation)
  && negb (was_paid_with_subscription reservation).

(** The body of [if reservation.paid_at:]: release of the subscription slot
    and issue of the replacement ticket. *)
Definition cancel_settlement (st : State) (request_user : Z)
    (reservation : Reservation.t) (now : datetime) : CancelBody * State :=
  match Reservation.paid_at reservation with
  | None => (mkCancelBody false None, st)
  | Some _ =>
      let st1 :=
        if was_paid_with_subscription reservation then
          match subscription_holding st request_user reservation with
          | Some subscription =>
              with_subscriptions st
                (update_row UserSubscription.id
                   (fst (UserSubscription.release_reservation subscription))
                   (subscriptions st))
          | None => st
          end
        else st in
      if should_create_ticket reservation then
        let '(_, st2) :=
          UserTicket_objects_create st1 now request_user
            (Reservation.price_amount reservation) CANCELLATION
            (Some (Reservation.id reservation)) (Some (plus_days now 180)) "" in
        (mkCancelBody true (Some (Reservation.price_amount reservation)), st2)
      else (mkCancelBody false None, st1)
  end.

(** [ReservationCancelView.post] *)
Definition ReservationCancelView_post (st : State) (request_user : Z)
    (reservation_id : Z) (now : datetime) : Response CancelBody * State :=
  match objects_get (fun r => (Reservation.id r =? reservation_id)
                              && (Reservation.user r =? request_user))
                    (reservations st) with
  | DoesNotExist => (Error 404 reservation_not_found, st)
  | MultipleObjectsReturned => (Error 500 internal_error, st)
  | Found reservation =>
      match cancel_view_deadline reservation with
      | None => (Error 500 internal_error, st)
      | Some deadline =>
          if now >? deadline then (Error 400 deadline_passed, st)
          else
            let '(body, st1) := cancel_settlement st request_user reservation now in
            match Reservation_save st1 (Reservation.with_status reservation CANCELLED) with
            | None => (Error 500 internal_error, st1)
            | Some st2 => (Ok body, st2)
            end
      end
  end.

(** The row that [cancel_settlement] hands to [UserTicket.objects.create]
    when it issues a ticket. *)
Definition replacement_ticket (st : State) (u : Z) (r : Reservation.t)
    (now : datetime) : UserTicket.t :=
  UserTicket.mk (fresh_id (map UserTicket.id (tickets st))) u
    (Reservation.price_amount r) TICKET_ACTIVE CANCELLATION
    (Some (Reservation.id r)) None now (Some (plus_days now 180)) None "".

(** *** Account status ([User] in [users/models.py]) *)

Definition with_premium (u : User.t) (flag : bool) (until : option datetime)
    : User.t :=
  User.mk (User.id u) (User.email u) (User.username u) (User.password u)
    (User.first_name u) (User.last_name u) (User.email_verified u) flag until
    (User.is_invited_user u) (User.invitation_used u) (User.last_login_at u).

(** [user.save()] of a row already stored. *)
Definition User_save (st : State) (u : User.t) : State :=
  with_users st (update_row User.id u (users st)).

(** [User.is_premium_active] *)
Definition is_premium_active (u : User.t) (now : datetime) : bool :=
  if User.is_premium u then
    match User.premium_until u with
    | Some premium_until => premium_until >? now
    | None => false
    end
  else false.

(** [User.available_tickets]:
    [self.tickets.filter(status='ACTIVE', expires_at__gt=timezone.now())];
    a row without [expires_at] does not pass [expires_at__gt].  The rows are
    given in storage order. *)
Definition available_tickets (st : State) (u : Z) (now : datetime)
    : list UserTicket.t :=
  filter (fun k => (UserTicket.user k =? u)
                   && (match UserTicket.status k with
                       | TICKET_ACTIVE => true
                       | _ => false
                       end)
                   && (match UserTicket.expires_at k with
                       | Some e => e >? now
                       | None => false
                       end))
         (tickets st).

(** [User.has_available_tickets]: [self.available_tickets.exists()]. *)
Definition has_available_tickets (st : State) (u : Z) (now : datetime) : bool :=
  match available_tickets st u now with
  | [] => false
  | _ :: _ => true
  end.

Inductive AccountType := ACCOUNT_FREE | ACCOUNT_TICKET | ACCOUNT_SUBSCRIPTION.

(** The user row as [update_subscription_status] saves it, with the two
    columns [has_active_subscription] and [account_type] that [User.t] does
    not carry. *)
Record AccountStatus := mkAccountStatus {
  account_user : User.t;
  has_active_subscription : bool;
  account_type : AccountType
}.

(** [User.update_subscription_status]; the method returns [account_type]. *)
Definition update_subscription_status (st : State) (u : User.t) (now : datetime)
    : AccountStatus :=
  match UserSubscription.get_active_subscription (subscriptions st) (User.id u) now with
  | Some active_sub =>
      mkAccountStatus
        (with_premium u true (Some (UserSubscription.end_date active_sub)))
        true ACCOUNT_SUBSCRIPTION
  | None =>
      mkAccountStatus (with_premium u false None) false
        (if has_available_tickets st (User.id u) now then ACCOUNT_TICKET
         else ACCOUNT_FREE)
  end.

(** [request.user.update_subscription_status()] in a view that names the
    authenticated user by primary key: [request.user] holds the stored row of
    that user. *)
Definition request_user_update_subscription_status (st : State) (request_user : Z)
    (now : datetime) : State :=
  match find (fun u => User.id u =? request_user) (users st) with
  | Some u => User_save st (account_user (update_subscription_status st u now))
  | None => st
  end.

(** *** ConfirmPaymentView *)

(** What a request holds under [reservation_data], as the test
    [if reservation_data:] sees it.  [DataDict d] is a dictionary with at
    least one key, of which [d] keeps the keys that the view reads (it may
    have none of them); [DataFalsy] is a value that the test takes as false:
    no key, [null] or the empty dictionary [{}]. *)
Inductive DataInput :=
| DataDict (d : ReservationData)
| DataFalsy.

Record ConfirmRequest := mkConfirmRequest {
  payment_intent_id : option string;
  status_payment : option string;
  reservation_data : DataInput
}.

(** What [stripe.PaymentIntent.retrieve] hands back. *)
Record PaymentIntent := mkPaymentIntent {
  intent_status : string;
  intent_amount : Z;
  intent_currency : string;
  meta_activity_name : option string;
  meta_reservation_date : DateInput;
  meta_price_plan : option string
}.

(** [str.upper()] on the ASCII letters. *)
Definition upper_ascii (c : Ascii.ascii) : Ascii.ascii :=
  let n := Ascii.nat_of_ascii c in
  if (Nat.leb 97 n && Nat.leb n 122)%bool then Ascii.ascii_of_nat (n - 32) else c.
Definition lower_ascii (c : Ascii.ascii) : Ascii.ascii :=
  let n := Ascii.nat_of_ascii c in
  if (Nat.leb 65 n && Nat.leb n 90)%bool then Ascii.ascii_of_nat (n + 32) else c.
Fixpoint string_map (f : Ascii.ascii -> Ascii.ascii) (s : string) : string :=
  match s with
  | EmptyString => EmptyString
  | String c rest => String (f c) (string_map f rest)
  end.
Definition upper : string -> string := string_map upper_ascii.
Definition lower : string -> string := string_map lower_ascii.

(** The reservation row built from a [reservation_data] dictionary, before
    it is handed to [objects.create]; [None] for the [KeyError] of a missing
    mandatory key or the [ValueError] of a malformed time. *)
Definition reservation_of_data (request_user : Z) (d : ReservationData)
    (reservation_date : date) (ref : string) (now : datetime)
    : option Reservation.t :=
  match rd_reservation_time d, rd_activity_name d, rd_price_plan d, rd_price_amount d with
  | TimeMalformed, _, _, _ => None
  | t, Some activity, Some plan, Some amount =>
      Some (Reservation.mk 0 request_user activity
              (get_default (rd_activity_description d) "")
              reservation_date
              (match t with TimeParsed m => m | _ => eight_pm end)
              (get_default (rd_venue_name d) "Paris")
              (get_default (rd_venue_address d) "")
              plan amount
              (get_default (rd_currency d) "EUR")
              CONFIRMED ref (Some now)
              (get_default (rd_participants_count d) 1)
              (get_default (rd_special_requests d) "")
              now None)
  | _, _, _, _ => None
  end.

Definition is_pending_of (request_user : Z) (r : Reservation.t) : bool :=
  (Reservation.user r =? request_user)
  && ReservationStatus_eqb (Reservation.status r) PENDING.

(** [payment_intent_id == 'pi_test_local_dev' and status_payment == 'succeeded'],
    the test that selects the local development flow. *)
Definition dev_mode (req : ConfirmRequest) : bool :=
  String.eqb (get_default (payment_intent_id req) "") "pi_test_local_dev"
  && match status_payment req with
     | Some s => String.eqb s "succeeded"
     | None => false
     end.

(** The flow of the view that confirms a stored PENDING reservation: local
    development with a [reservation_data] that [if reservation_data:] takes
    as false, the empty dictionary included. *)
Definition legacy_flow (req : ConfirmRequest) : bool :=
  dev_mode req
  && match reservation_data req with
     | DataFalsy => true
     | DataDict _ => false
     end.

(** The flow of the view that also issues a ticket: local development with
    [reservation_data] of price plan ['ticket']. *)
Definition issues_ticket (req : ConfirmRequest) : bool :=
  dev_mode req
  && match reservation_data req with
     | DataDict d => match rd_price_plan d with
                     | Some plan => String.eqb plan "ticket"
                     | None => false
                     end
     | DataFalsy => false
     end.

(** [ConfirmPaymentView.post].  [stripe] answers
    [stripe.PaymentIntent.retrieve]; [None] is a [StripeError].  In the local
    development flow the test [if reservation_data:] chooses between the
    creation of a reservation and the confirmation of a stored PENDING one.
    After the ticket of the plan ['ticket'] the view calls
    [request.user.update_subscription_status()], which rewrites [is_premium]
    and [premium_until] of the user row.  [final_payment_intent_id] is
    computed by the view but never stored, so it is left out; the amount
    [intent.amount / 100] of the Stripe flow is [intent.amount] hundredths. *)
Definition ConfirmPaymentView_post (stripe : string -> option PaymentIntent)
    (st : State) (request_user : Z) (req : ConfirmRequest) (now : datetime)
    : Response Reservation.t * State :=
  if negb (truthy (payment_intent_id req)) then (Error 400 payment_intent_required, st)
  else
    let pid := get_default (payment_intent_id req) "" in
    if dev_mode req then
      match reservation_data req with
      | DataDict d =>
          match rd_reservation_date d with
          | DateAbsent => (Error 400 date_missing, st)
          | DateMalformed => (Error 400 date_invalid, st)
          | DateParsed reservation_date =>
              match reservation_of_data request_user d reservation_date pid now with
              | None => (Error 500 internal_error, st)
              | Some fields =>
                  match Reservation_objects_create st now fields with
                  | None => (Error 500 internal_error, st)
                  | Some (reservation, st1) =>
                      if match rd_price_plan d with
                         | Some plan => String.eqb plan "ticket"
                         | None => false
                         end
                      then
                        let '(_, st2) :=
                          UserTicket_objects_create st1 now request_user
                            (Reservation.price_amount fields) REFUND None
                            (Some (plus_days now 365))
                            (String.append
                               "Ticket créé suite au paiement de la réservation "
                               (str (Reservation.id reservation))) in
                        (Ok reservation,
                         request_user_update_subscription_status st2 request_user now)
                      else (Ok reservation, st1)
                  end
              end
          end
      | DataFalsy =>
          let pending :=
            match objects_get (is_pending_of request_user) (reservations st) with
            | Found r => Some r
            | DoesNotExist => None
            | MultipleObjectsReturned =>
                newest_by Reservation.created_at
                  (filter (is_pending_of request_user) (reservations st))
            end in
          match pending with
          | None => (Error 404 no_pending_reservation, st)
          | Some r =>
              let reservation := Reservation.with_payment r CONFIRMED pid (Some now) in
              match Reservation_save st reservation with
              | None => (Error 500 internal_error, st)
              | Some st1 => (Ok reservation, st1)
              end
          end
      end
    else
      match stripe pid with
      | None => (Error 400 stripe_error, st)
      | Some intent =>
          if negb (String.eqb (intent_status intent) "succeeded")
          then (Error 400 payment_not_confirmed, st)
          else
            match meta_reservation_date intent with
            | DateAbsent | DateMalformed => (Error 500 internal_error, st)
            | DateParsed reservation_date =>
                let fields :=
                  Reservation.mk 0 request_user
                    (get_default (meta_activity_name intent) "") ""
                    reservation_date eight_pm "Paris" ""
                    (get_default (meta_price_plan intent) "")
                    (intent_amount intent)
                    (upper (intent_currency intent))
                    CONFIRMED pid (Some now) 1 "" now None in
                match Reservation_objects_create st now fields with
                | None => (Error 500 internal_error, st)
                | Some (reservation, st1) => (Ok reservation, st1)
                end
            end
      end.

(** *** ReservationView.post *)

Record ReservationRequest := mkReservationRequest {
  rq_data : ReservationData;
  rq_payment_intent_id : option string
}.

(** [ReservationView.post]: the reservation is stored CONFIRMED, and stamped
    paid when a payment reference comes with it. *)
Definition ReservationView_post (st : State) (request_user : Z)
    (req : ReservationRequest) (now : datetime) : Response Reservation.t * State :=
  let d := rq_data req in
  match rd_reservation_date d, rd_reservation_time d with
  | DateParsed reservation_date, (TimeAbsent | TimeParsed _) =>
      let fields :=
        Reservation.mk 0 request_user
          (get_default (rd_activity_name d) "")
          (get_default (rd_activity_description d) "")
          reservation_date
          (match rd_reservation_time d with TimeParsed m => m | _ => eight_pm end)
          (get_default (rd_venue_name d) "Paris")
          (get_default (rd_venue_address d) "")
          (get_default (rd_price_plan d) "")
          (get_default (rd_price_amount d) 0)
          (get_default (rd_currency d) "EUR")
          CONFIRMED
          (get_default (rq_payment_intent_id req) "")
          None
          (get_default (rd_participants_count d) 1)
          (get_default (rd_special_requests d) "")
          now None in
      match Reservation_objects_create st now fields with
      | None => (Error 500 internal_error, st)
      | Some (reservation, st1) =>
          if truthy (rq_payment_intent_id req) then
            let paid := Reservation.with_payment reservation CONFIRMED
                          (Reservation.stripe_payment_intent_id reservation)
                          (Some now) in
            match Reservation_save st1 paid with
            | None => (Error 500 internal_error, st1)
            | Some st2 => (Ok paid, st2)
            end
          else (Ok reservation, st1)
      end
  | _, _ => (Error 500 internal_error, st)
  end.

(** *** UseTicketView *)

Inductive TicketError :=
| ticket_id_required
| reservation_data_required
| ticket_not_found
| ticket_no_longer_valid
| ticket_date_missing
| ticket_date_invalid
| ticket_internal_error.

(** [UseTicketView.post]; the answer is the HTTP status with the reason, or
    the reservation paid with the ticket. *)
Definition UseTicketView_post (st : State) (request_user : Z)
    (ticket_id : option Z) (data : option ReservationData) (now : datetime)
    : (Z * TicketError + Reservation.t) * State :=
  match ticket_id, data with
  | None, _ => (inl (400, ticket_id_required), st)
  | Some _, None => (inl (400, reservation_data_required), st)
  | Some tid, Some d =>
      match objects_get (fun k => (UserTicket.id k =? tid)
                                  && (UserTicket.user k =? request_user))
                        (tickets st) with
      | DoesNotExist => (inl (404, ticket_not_found), st)
      | MultipleObjectsReturned => (inl (500, ticket_internal_error), st)
      | Found ticket =>
          if negb (UserTicket.is_valid ticket now)
          then (inl (400, ticket_no_longer_valid), st)
          else
            match rd_reservation_date d with
            | DateAbsent => (inl (400, ticket_date_missing), st)
            | DateMalformed => (inl (400, ticket_date_invalid), st)
            | DateParsed reservation_date =>
                match reservation_of_data request_user d reservation_date
                        (String.append "ticket_" (str (UserTicket.id ticket))) now with
                | None => (inl (500, ticket_internal_error), st)
                | Some fields =>
                    match Reservation_objects_create st now fields with
                    | None => (inl (500, ticket_internal_error), st)
                    | Some (reservation, st1) =>
                        match UserTicket.use_ticket ticket (Reservation.id reservation) now with
                        | None => (inl (500, ticket_internal_error), st1)
                        | Some used =>
                            (inr reservation,
                             with_tickets st1 (update_row UserTicket.id used (tickets st1)))
                        end
                    end
                end
            end
      end
  end.

(** *** AcceptInvitationView *)

Record AcceptRequest := mkAcceptRequest {
  ar_email : option string;
  ar_password : option string;
  ar_first_name : option string;
  ar_last_name : option string
}.

(** [AcceptInvitationView.post].  Passwords are kept as given, so that
    [check_password] is equality with the stored one.  [get_or_create] looks
    the user up by the address and creates it with ['username': email]; the
    column [username] is unique, so that the creation raises
    [IntegrityError] when a stored user has the address as username, and the
    view answers 500 without a write.  The answer carries the primary key of
    the user who now holds the invitation. *)
Definition AcceptInvitationView_post (st : State) (invitation_token : string)
    (req : AcceptRequest) (now : datetime) : Response Z * State :=
  match objects_get (fun i => String.eqb (FriendInvitation.invitation_token i) invitation_token)
                    (invitations st) with
  | DoesNotExist => (Error 404 invitation_not_found, st)
  | MultipleObjectsReturned => (Error 500 internal_error, st)
  | Found invitation =>
      if negb (FriendInvitation.is_valid invitation now)
      then (Error 400 invitation_expired, st)
      else if negb (truthy (ar_email req) && truthy (ar_password req)
                    && truthy (ar_first_name req) && truthy (ar_last_name req))
      then (Error 400 fields_required, st)
      else
        let email := get_default (ar_email req) "" in
        let password := get_default (ar_password req) "" in
        if negb (String.eqb (lower email) (lower (FriendInvitation.invited_email invitation)))
        then (Error 400 email_mismatch, st)
        else
          let bind (user : User.t) (st1 : State) : Response Z * State :=
            let st2 := with_invitations st1
                         (update_row FriendInvitation.id
                            (FriendInvitation.mark_as_accepted invitation (User.id user) now)
                            (invitations st1)) in
            (Ok (User.id user),
             with_users st2 (update_row User.id (User.with_last_login user (Some now))
                                        (users st2))) in
          match objects_get (fun u => String.eqb (User.email u) email) (users st) with
          | MultipleObjectsReturned => (Error 500 internal_error, st)
          | DoesNotExist =>
              if existsb (fun u => String.eqb (User.username u) email) (users st)
              then (Error 500 internal_error, st)
              else
                let user := User.mk (fresh_id (map User.id (users st))) email email
                              password
                              (get_default (ar_first_name req) "")
                              (get_default (ar_last_name req) "")
                              true false None true
                              (Some (FriendInvitation.id invitation)) None in
                bind user (with_users st (users st ++ [user]))
          | Found user =>
              if negb (String.eqb (User.password user) password)
              then (Error 400 wrong_password, st)
              else if negb (User.is_invited_user user) then
                let user' := User.with_invitation user true
                               (Some (FriendInvitation.id invitation)) in
                bind user' (with_users st (update_row User.id user' (users st)))
              else bind user st
          end
  end.

(** *** ProcessInvitedUserView *)

(** The filter of [FriendInvitation.objects.get(invited_user=u, status='ACCEPTED')]. *)
Definition accepted_for (u : Z) (i : FriendInvitation.t) : bool :=
  (match FriendInvitation.invited_user i with
   | Some v => v =? u
   | None => false
   end)
  && (match FriendInvitation.status i with
      | INV_ACCEPTED => true
      | _ => false
      end).

(** [ProcessInvitedUserView.post]: the reservation of the invited user is
    copied from the reservation of the inviter. *)
Definition ProcessInvitedUserView_post (st : State) (request_user : Z)
    (now : datetime) : Response Reservation.t * State :=
  match objects_get (accepted_for request_user) (invitations st) with
  | DoesNotExist => (Error 404 no_accepted_invitation, st)
  | MultipleObjectsReturned => (Error 500 internal_error, st)
  | Found invitation =>
      if negb (FriendInvitation.can_be_used invitation)
      then (Error 400 invitation_unusable, st)
      else
        match find (fun r => Reservation.id r =? FriendInvitation.reservation invitation)
                   (reservations st) with
        | None => (Error 500 internal_error, st)
        | Some original_reservation =>
            let fields :=
              Reservation.mk 0 request_user
                (Reservation.activity_name original_reservation)
                (Reservation.activity_description original_reservation)
                (Reservation.reservation_date original_reservation)
                (Reservation.reservation_time original_reservation)
                (Reservation.venue_name original_reservation)
                (Reservation.venue_address original_reservation)
                (Reservation.price_plan original_reservation)
                (Reservation.price_amount original_reservation)
                (Reservation.currency original_reservation)
                PENDING "" None 1 "" now None in
            match Reservation_objects_create st now fields with
            | None => (Error 500 internal_error, st)
            | Some (invited_reservation, st1) =>
                (Ok invited_reservation,
                 with_invitations st1
                   (update_row FriendInvitation.id
                      (FriendInvitation.mark_as_used invitation now)
                      (invitations st1)))
            end
        end
  end.

(** *** CreateReservationWithSubscriptionView *)

(** [CreateReservationWithSubscriptionView.post] *)
Definition CreateReservationWithSubscriptionView_post (st : State)
    (request_user : Z) (d : ReservationData) (now : datetime)
    : Response Reservation.t * State :=
  match UserSubscription.get_active_subscription (subscriptions st) request_user now with
  | None => (Error 402 no_active_subscription, st)
  | Some active_subscription =>
      match UserSubscription.can_make_reservation active_subscription (reservations st) now with
      | None => (Error 500 internal_error, st)
      | Some false => (Error 400 subscription_slot_taken, st)
      | Some true =>
          match rd_reservation_date d, rd_reservation_time d with
          | DateAbsent, _ => (Error 400 date_required, st)
          | DateMalformed, _ => (Error 500 internal_error, st)
          | DateParsed _, TimeMalformed => (Error 500 internal_error, st)
          | DateParsed reservation_date, t =>
              let fields :=
                Reservation.mk 0 request_user
                  (get_default (rd_activity_name d) "")
                  (get_default (rd_activity_description d) "")
                  reservation_date
                  (match t with TimeParsed m => m | _ => eight_pm end)
                  (get_default (rd_venue_name d) "Paris")
                  (get_default (rd_venue_address d) "")
                  "SUBSCRIPTION" 0 "EUR" CONFIRMED
                  (String.append "subscription_"
                     (str (UserSubscription.id active_subscription)))
                  (Some now)
                  (get_default (rd_participants_count d) 1)
                  (get_default (rd_special_requests d) "")
                  now None in
              match Reservation_objects_create st now fields with
              | None => (Error 500 internal_error, st)
              | Some (created, st1) =>
                  match minus_days reservation_date 2 with
                  | None => (Error 500 internal_error, st1)
                  | Some tuesday_before =>
                      let deadline := combine tuesday_before 23 59 0 in
                      let reservation :=
                        Reservation.with_cancellation_deadline created (Some deadline) in
                      match Reservation_save st1 reservation with
                      | None => (Error 500 internal_error, st1)
                      | Some st2 =>
                          (Ok reservation,
                           with_subscriptions st2
                             (update_row UserSubscription.id
                                (UserSubscription.use_for_reservation active_subscription
                                   (Reservation.id reservation))
                                (subscriptions st2)))
                      end
                  end
              end
          end
      end
  end.

(** *** CreateGroupView *)

Record GroupRequest := mkGroupRequest {
  gr_name : option string;
  gr_meeting_point_name : option string;
  gr_meeting_point_address : option string;
  gr_meeting_time : TimeInput;
  gr_selected_reservations : list Z
}.

(** The default ordering of [Reservation]:
    [ordering = ['reservation_date', 'reservation_time']]; rows with equal
    keys keep their insertion order. *)
Definition reservation_before (a b : Reservation.t) : bool :=
  (Reservation.reservation_date a <? Reservation.reservation_date b)
  || ((Reservation.reservation_date a =? Reservation.reservation_date b)
      && (Reservation.reservation_time a <=? Reservation.reservation_time b)).

Fixpoint insert_ordered (r : Reservation.t) (rows : list Reservation.t)
    : list Reservation.t :=
  match rows with
  | [] => [r]
  | x :: rest => if reservation_before r x then r :: rows
                 else x :: insert_ordered r rest
  end.

Definition default_ordering (rows : list Reservation.t) : list Reservation.t :=
  fold_right insert_ordered [] rows.

(** [Reservation.objects.filter(id__in=ids, status='CONFIRMED')] *)
Definition confirmed_among (st : State) (ids : list Z) : list Reservation.t :=
  default_ordering
    (filter (fun r => existsb (Z.eqb (Reservation.id r)) ids
                      && ReservationStatus_eqb (Reservation.status r) CONFIRMED)
            (reservations st)).

(** [EventGroup.objects.create(...)] *)
Definition EventGroup_objects_create (st : State) (now : datetime)
    (name : string) (activity : string) (event_date : date)
    (point : string) (address : string) (meeting_time : Z)
    (max_participants : Z) : EventGroup.t * State :=
  let g := EventGroup.mk (fresh_id (map EventGroup.id (groups st))) name
             event_date activity point address meeting_time None
             max_participants true now in
  (g, with_groups st (groups st ++ [g])).

(** The loop [for reservation in reservations: GroupMembership.objects.create(...)].
    The one-to-one constraint on [reservation] makes the creation raise
    [IntegrityError] for a reservation that already has a membership; the
    rows written before stay.  The flag tells whether the loop finished. *)
Fixpoint create_memberships (st : State) (group : Z) (now : datetime)
    (rows : list Reservation.t) : State * bool :=
  match rows with
  | [] => (st, true)
  | reservation :: rest =>
      if has_group st reservation then (st, false)
      else
        let m := GroupMembership.mk (fresh_id (map GroupMembership.id (memberships st)))
                   (Reservation.id reservation) group now in
        create_memberships (with_memberships st (memberships st ++ [m])) group now rest
  end.

(** [CreateGroupView.post].  [meeting_point_address] is a column without
    [null=True]: a request that leaves it out makes [objects.create] raise. *)
Definition CreateGroupView_post (st : State) (req : GroupRequest) (now : datetime)
    : Response EventGroup.t * State :=
  if negb (truthy (gr_name req)) then (Error 400 group_name_required, st)
  else if negb (truthy (gr_meeting_point_name req))
  then (Error 400 meeting_point_required, st)
  else
    match gr_selected_reservations req with
    | [] => (Error 400 no_reservation_selected, st)
    | selected_reservation_ids =>
        match confirmed_among st selected_reservation_ids with
        | [] => (Error 400 no_confirmed_reservation, st)
        | (first_reservation :: _) as found =>
            if negb (forallb (fun r => Reservation.reservation_date r
                                       =? Reservation.reservation_date first_reservation)
                             found)
            then (Error 400 dates_differ, st)
            else
              match gr_meeting_time req, gr_meeting_point_address req with
              | TimeMalformed, _ => (Error 500 internal_error, st)
              | _, None => (Error 500 internal_error, st)
              | t, Some address =>
                  let '(group, st1) :=
                    EventGroup_objects_create st now
                      (get_default (gr_name req) "")
                      (Reservation.activity_name first_reservation)
                      (Reservation.reservation_date first_reservation)
                      (get_default (gr_meeting_point_name req) "")
                      address
                      (match t with TimeParsed m => m | _ => eight_pm end)
                      (Z.of_nat (List.length selected_reservation_ids)) in
                  match create_memberships st1 (EventGroup.id group) now found with
                  | (st2, true) => (Ok group, st2)
                  | (st2, false) => (Error 500 internal_error, st2)
                  end
              end
        end
    end.

(** *** Admin actions ([users/admin.py]) *)

(** The dictionary [grouped_reservations]: reservations keyed by
    (date, activity), keys and values in order of first appearance. *)
Definition same_key (key : date * string) (r : Reservation.t) : bool :=
  (fst key =? Reservation.reservation_date r)
  && String.eqb (snd key) (Reservation.activity_name r).

Fixpoint add_grouped (r : Reservation.t)
    (grouped : list ((date * string) * list Reservation.t))
    : list ((date * string) * list Reservation.t) :=
  match grouped with
  | [] => [((Reservation.reservation_date r, Reservation.activity_name r), [r])]
  | (key, rows) :: rest =>
      if same_key key r then (key, rows ++ [r]) :: rest
      else (key, rows) :: add_grouped r rest
  end.

(** [reservations[i:i+6] for i in range(0, len(reservations), 6)] *)
Definition chunks_of_six (rows : list Reservation.t) : list (Z * list Reservation.t) :=
  map (fun k => (Z.of_nat k, firstn 6 (skipn (6 * k) rows)))
      (seq 0 ((List.length rows + 5) / 6)).

(** One group of the action with its memberships; the flag is false when a
    membership could not be written, which ends the action. *)
Definition create_chunk_group (group_name : date -> string -> Z -> string)
    (now : datetime) (key : date * string) (acc : State * bool)
    (chunk : Z * list Reservation.t) : State * bool :=
  let '(st, running) := acc in
  if negb running then acc
  else
    let '(group, st1) :=
      EventGroup_objects_create st now
        (group_name (fst key) (snd key) (fst chunk + 1))
        (snd key) (fst key) "" "" eight_pm 6 in
    create_memberships st1 (EventGroup.id group) now (snd chunk).

(** [ReservationAdmin.create_groups_for_selected]; [queryset] holds the
    primary keys ticked in the admin list, [group_name] formats the name of
    the group from the date, the activity and the rank of the chunk. *)
Definition create_groups_for_selected (group_name : date -> string -> Z -> string)
    (st : State) (queryset : list Z) (now : datetime) : State :=
  let candidates :=
    filter (fun r => negb (has_group st r))
           (default_ordering
              (filter (fun r => existsb (Z.eqb (Reservation.id r)) queryset
                                && ReservationStatus_eqb (Reservation.status r) CONFIRMED)
                      (reservations st))) in
  let grouped_reservations := fold_left (fun g r => add_grouped r g) candidates [] in
  fst (fold_left
         (fun acc entry =>
            fold_left (create_chunk_group group_name now (fst entry)) 
                      (chunks_of_six (snd entry)) acc)
         grouped_reservations (st, true)).

(** [ReservationAdmin.confirm_reservations]:
    [queryset.update(status='CONFIRMED')]. *)
Definition confirm_reservations (st : State) (queryset : list Z) : State :=
  with_reservations st
    (map (fun r => if existsb (Z.eqb (Reservation.id r)) queryset
                   then Reservation.with_status r CONFIRMED else r)
         (reservations st)).

(** The change form of a group.  [EventGroupAdmin] lists [name],
    [event_date], [activity_name], [max_participants], [is_confirmed] and the
    meeting point in the fieldsets of its form and declares only
    [participants_count], [created_at] and [updated_at] read-only, so that
    saving the form of a stored group writes the submitted values of the
    other columns.  [max_participants] is a [PositiveIntegerField], for
    which the form refuses a negative number; nothing compares it with the
    memberships of the group.  [GroupMembershipInline] adds memberships on
    the same page, without any check of the capacity either. *)
Definition EventGroupAdmin_change (st : State) (form : EventGroup.t) : State :=
  match find (fun g => EventGroup.id g =? EventGroup.id form) (groups st) with
  | None => st
  | Some stored =>
      if EventGroup.max_participants form <? 0 then st
      else
        with_groups st
          (update_row EventGroup.id
             (EventGroup.mk (EventGroup.id stored) (EventGroup.name form)
                (EventGroup.event_date form) (EventGroup.activity_name form)
                (EventGroup.meeting_point_name form)
                (EventGroup.meeting_point_address form)
                (EventGroup.meeting_time form)
                (EventGroup.location_reveal_time form)
                (EventGroup.max_participants form) (EventGroup.is_confirmed form)
                (EventGroup.created_at stored))
             (groups st))
  end.

(** ** Reachable states *)

(** One request served by the application: the views and the admin actions
    modelled above, or any other one that writes neither a group nor a
    membership.  The change forms of the groups and of their memberships in
    the Django admin are not among them. *)
Inductive step (st : State) : State -> Prop :=
| step_reservation u req now :
    step st (snd (ReservationView_post st u req now))
| step_confirm_payment stripe u req now :
    step st (snd (ConfirmPaymentView_post stripe st u req now))
| step_cancel u rid now :
    step st (snd (ReservationCancelView_post st u rid now))
| step_use_ticket u tid d now :
    step st (snd (UseTicketView_post st u tid d now))
| step_accept_invitation token req now :
    step st (snd (AcceptInvitationView_post st token req now))
| step_process_invited u now :
    step st (snd (ProcessInvitedUserView_post st u now))
| step_subscription_reservation u d now :
    step st (snd (CreateReservationWithSubscriptionView_post st u d now))
| step_create_group req now :
    step st (snd (CreateGroupView_post st req now))
| step_admin_groups name q now :
    step st (create_groups_for_selected name st q now)
| step_admin_confirm q :
    step st (confirm_reservations st q)
| step_elsewhere st' keep :
    (* registration, profile and user deletion, subscription management,
       invitation creation, ticket expiry, the confirmation view of the
       payments app: none of them writes a group or a membership, a deletion
       takes memberships away by cascade *)
    groups st' = groups st ->
    memberships st' = filter keep (memberships st) ->
    step st st'.

Inductive reachable : State -> Prop :=
| reachable_empty : reachable empty_state
| reachable_step st st' : reachable st -> step st st' -> reachable st'.

(** ** Auxiliary notions *)

(** A stored reservation carries the deadline of [set_cancellation_deadline]:
    23:59:00 on the Tuesday that the method picks for its date. *)
Definition has_tuesday_deadline (r : Reservation.t) : Prop :=
  exists tuesday,
    Reservation.tuesday_before (Reservation.reservation_date r) = Some tuesday
    /\ Reservation.cancellation_deadline r = Some (combine tuesday 23 59 0).

(** ** Sample data

    Rows and requests on which the properties below are exercised.  The
    dates are those of June 2024: Thursday the 13th, Friday the 14th,
    Tuesday the 11th. *)

Definition at_time (year month day h m s : Z) : datetime :=
  combine (ymd year month day) h m s.

Definition booking (u : Z) (D : date) (plan : string) (amount : Z)
    (ref : string) : Reservation.t :=
  Reservation.mk 0 u "Bowling" "" D eight_pm "Paris" "" plan amount "EUR"
    CONFIRMED ref None 1 "" 0 None.

Definition booking_data (D : date) (plan : string) (amount : Z) : ReservationData :=
  mkReservationData (Some "Bowling") None (DateParsed D) TimeAbsent None None
    (Some plan) (Some amount) None None None.

(** User 1 books "Bowling" for the date [D], paying 15.00 with the
    reference [ref], on Monday 2024-06-03 at 09:00. *)
Definition after_booking (D : date) (plan ref : string) : State :=
  snd (ReservationView_post empty_state 1
         (mkReservationRequest (booking_data D plan 1500) (Some ref))
         (at_time 2024 6 3 9 0 0)).

(** A monthly subscription of user 1, bought on 2024-06-01. *)
Definition monthly_subscription : UserSubscription.t :=
  UserSubscription.mk 1 1 MONTHLY SUB_ACTIVE (at_time 2024 6 1 0 0 0)
    (at_time 2024 7 1 0 0 0) 1999 0 None (at_time 2024 6 1 0 0 0) false.

(** User 1 books the date [D] through that subscription. *)
Definition after_subscription_booking (D : date) : State :=
  snd (CreateReservationWithSubscriptionView_post
         (with_subscriptions empty_state [monthly_subscription]) 1
         (booking_data D "SUBSCRIPTION" 0) (at_time 2024 6 3 9 0 0)).

(** The booking of plan "TICKET", already cancelled once on Monday
    2024-06-10 at 09:00. *)
Definition cancelled_ticket_booking : State :=
  snd (ReservationCancelView_post
         (after_booking (ymd 2024 6 13) "TICKET" "pi_123") 1 1
         (at_time 2024 6 10 9 0 0)).

(** The same cancellation request served [n] times in a row. *)
Fixpoint cancel_repeatedly (n : nat) (st : State) (u rid : Z) (now : datetime)
    : list (Response CancelBody) * State :=
  match n with
  | O => ([], st)
  | S k =>
      let '(response, st1) := ReservationCancelView_post st u rid now in
      let '(responses, st2) := cancel_repeatedly k st1 u rid now in
      (response :: responses, st2)
  end.

(** The inviter, user 1. *)
Definition alice : User.t :=
  User.mk 1 "alice@example.com" "alice@example.com" "secret" "Alice" "A" true false
    None false None None.

Definition friend_token : string := "0123456789abcdef0123456789abcdef".

(** User 1 holds a paid booking for Thursday 2024-06-13 and invites
    friend@example.com on Monday 2024-06-10 at 10:00. *)
Definition after_invitation : State :=
  let st := with_users (after_booking (ymd 2024 6 13) "basic" "pi_123") [alice] in
  match reservations st with
  | r :: _ =>
      match FriendInvitation.create_invitation (invitations st) 1
              "friend@example.com" r "" friend_token (at_time 2024 6 10 10 0 0) with
      | Returns (_, table) => with_invitations st table
      | Raise _ => st
      end
  | [] => st
  end.

Definition friend_request : AcceptRequest :=
  mkAcceptRequest (Some "friend@example.com") (Some "hunter2") (Some "Fred") (Some "F").

(** The friend accepts on Monday 2024-06-10 at 11:00 and becomes user 2. *)
Definition after_acceptance : State :=
  snd (AcceptInvitationView_post after_invitation friend_token friend_request
         (at_time 2024 6 10 11 0 0)).

(** The rows that these steps leave: the booking of user 1 and the
    invitation once accepted. *)
Definition alice_booking : Reservation.t :=
  Reservation.mk 1 1 "Bowling" "" (ymd 2024 6 13) eight_pm "Paris" "" "basic"
    1500 "EUR" CONFIRMED "pi_123" (Some (at_time 2024 6 3 9 0 0)) 1 ""
    (at_time 2024 6 3 9 0 0) (Some (at_time 2024 6 11 23 59 0)).

Definition accepted_invitation : FriendInvitation.t :=
  FriendInvitation.mk 1 1 "friend@example.com" (Some 2) friend_token 1
    INV_ACCEPTED "" (at_time 2024 6 10 10 0 0) (at_time 2024 6 13 0 0 59)
    (Some (at_time 2024 6 10 11 0 0)) None.

(** A local development confirmation carrying the booking of Thursday
    2024-06-13 under the plan "ticket", and a Stripe that knows no intent. *)
Definition dev_request : ConfirmRequest :=
  mkConfirmRequest (Some "pi_test_local_dev") (Some "succeeded")
    (DataDict (booking_data (ymd 2024 6 13) "ticket" 1500)).

Definition no_stripe : string -> option PaymentIntent := fun _ => None.

(** The same confirmation without [reservation_data], and a state in which
    user 2 has one PENDING reservation (the one of the invited friend). *)
Definition legacy_request : ConfirmRequest :=
  mkConfirmRequest (Some "pi_test_local_dev") (Some "succeeded") DataFalsy.

Definition after_materialize : State :=
  snd (ProcessInvitedUserView_post after_acceptance 2 (at_time 2024 6 10 12 0 0)).

(** User 2 books "Karaoke" for the same Thursday, so that two CONFIRMED
    reservations of one date and two activities are stored. *)
Definition karaoke_data (D : date) : ReservationData :=
  mkReservationData (Some "Karaoke") None (DateParsed D) TimeAbsent None None
    (Some "basic") (Some 1500) None None None.

Definition two_bookings : State :=
  snd (ReservationView_post (after_booking (ymd 2024 6 13) "basic" "pi_123") 2
         (mkReservationRequest (karaoke_data (ymd 2024 6 13)) (Some "pi_456"))
         (at_time 2024 6 3 10 0 0)).

(** The request of an administrator who groups the reservations [ids]. *)
Definition group_request (ids : list Z) : GroupRequest :=
  mkGroupRequest (Some "Groupe 1") (Some "Bar du Marais") (Some "1 rue de Rivoli")
    TimeAbsent ids.

(** The invariant behind the capacity of groups: every membership points to
    a stored group, and no group has more memberships than
    [max_participants]. *)
Definition capacity_invariant (st : State) : Prop :=
  (forall m, In m (memberships st) ->
             In (GroupMembership.group m) (map EventGroup.id (groups st)))
  /\ (forall g, In g (groups st) ->
                Z.of_nat (List.length (group_memberships st g))
                <= EventGroup.max_participants g).

(** The two bookings grouped on Monday 2024-06-10 at 09:00 ... *)
Definition after_grouping : State :=
  snd (CreateGroupView_post two_bookings (group_request [1; 2])
         (at_time 2024 6 10 9 0 0)).

(** ... and the first of them cancelled at 10:00. *)
Definition grouped_then_cancelled : State :=
  snd (ReservationCancelView_post after_grouping 1 1 (at_time 2024 6 10 10 0 0)).

(** The change form of that group as an administrator submits it, with
    [max_participants] lowered from 2 to 1. *)
Definition smaller_group_form : EventGroup.t :=
  EventGroup.mk 1 "Groupe 1" (ymd 2024 6 13) "Bowling" "Bar du Marais"
    "1 rue de Rivoli" eight_pm None 1 true (at_time 2024 6 10 9 0 0).

(** ** Further views and model methods

    The rest of the code that reads and writes the same tables: the
    management of subscriptions, the creation of invitations and the
    administration of users.  A view answers with its body, or with the HTTP
    status and the reason of a refusal. *)

(** *** UserSubscriptionView *)

Definition subscription_with_status (s : UserSubscription.t)
    (status : SubscriptionStatus) : UserSubscription.t :=
  UserSubscription.mk (UserSubscription.id s) (UserSubscription.user s)
    (UserSubscription.subscription_type s) status
    (UserSubscription.start_date s) (UserSubscription.end_date s)
    (UserSubscription.price_paid s) (UserSubscription.reservations_used s)
    (UserSubscription.current_reservation s) (UserSubscription.created_at s)
    (UserSubscription.is_test_mode s).

Inductive SubscriptionError :=
| invalid_subscription_type
| already_subscribed (existing_subscription_id : Z)
| no_subscription_to_cancel.

(** The test [subscription_type not in ['MONTHLY', 'QUARTERLY', 'SEMESTRIAL']]. *)
Definition subscription_type_of (s : option string) : option SubscriptionType :=
  match s with
  | None => None
  | Some name =>
      if String.eqb name "MONTHLY" then Some MONTHLY
      else if String.eqb name "QUARTERLY" then Some QUARTERLY
      else if String.eqb name "SEMESTRIAL" then Some SEMESTRIAL
      else None
  end.

(** [UserSubscriptionView.post].  [request_user] is the row of the
    authenticated user.  The columns [stripe_subscription_id] and
    [cancelled_at] of a subscription, which no modelled code reads, are left
    out as [updated_at] is. *)
Definition UserSubscriptionView_post (st : State) (request_user : User.t)
    (subscription_type : option string) (is_test_mode : bool) (now : datetime)
    : (Z * SubscriptionError + UserSubscription.t) * State :=
  match subscription_type_of subscription_type with
  | None => (inl (400, invalid_subscription_type), st)
  | Some type =>
      match UserSubscription.get_active_subscription (subscriptions st)
              (User.id request_user) now with
      | Some existing_subscription =>
          (inl (400, already_subscribed (UserSubscription.id existing_subscription)), st)
      | None =>
          let start_date := now in
          let '(end_date, price) :=
            match type with
            | MONTHLY => (plus_days start_date 30, if is_test_mode then 1 else 1999)
            | QUARTERLY => (plus_days start_date 90, if is_test_mode then 1 else 4999)
            | SEMESTRIAL => (plus_days start_date 180, if is_test_mode then 1 else 8999)
            end in
          let subscription :=
            UserSubscription.mk (fresh_id (map UserSubscription.id (subscriptions st)))
              (User.id request_user) type SUB_ACTIVE start_date end_date price
              0 None now is_test_mode in
          let st1 := with_subscriptions st (subscriptions st ++ [subscription]) in
          (inr subscription,
           User_save st1 (account_user (update_subscription_status st1 request_user now)))
      end
  end.

(** [UserSubscriptionView.delete] *)
Definition UserSubscriptionView_delete (st : State) (request_user : User.t)
    (now : datetime) : (Z * SubscriptionError + unit) * State :=
  match UserSubscription.get_active_subscription (subscriptions st)
          (User.id request_user) now with
  | None => (inl (404, no_subscription_to_cancel), st)
  | Some subscription =>
      let st1 :=
        with_subscriptions st
          (update_row UserSubscription.id
             (subscription_with_status subscription SUB_CANCELLED)
             (subscriptions st)) in
      (inr tt,
       User_save st1 (account_user (update_subscription_status st1 request_user now)))
  end.

(** *** CreateFriendInvitationView *)

Record InvitationRequest := mkInvitationRequest {
  ir_invited_email : option string;
  ir_reservation_id : option Z;
  ir_message : option string
}.

Inductive InvitationError :=
| invited_email_required
| reservation_id_required
| already_registered
| invitation_reservation_not_found
| reservation_not_paid
| too_late_to_invite          (* the [ValueError] of [create_invitation] *)
| invitation_internal_error.  (* the view's final [except Exception] *)

Definition with_message (i : FriendInvitation.t) (msg : string)
    : FriendInvitation.t :=
  FriendInvitation.mk (FriendInvitation.id i) (FriendInvitation.inviter i)
    (FriendInvitation.invited_email i) (FriendInvitation.invited_user i)
    (FriendInvitation.invitation_token i) (FriendInvitation.reservation i)
    (FriendInvitation.status i) msg (FriendInvitation.created_at i)
    (FriendInvitation.expires_at i) (FriendInvitation.accepted_at i)
    (FriendInvitation.used_at i).

(** [invitation.delete()]: the row goes, and the users that hold it in
    [invitation_used], a foreign key with [on_delete=SET_NULL], lose the
    reference. *)
Definition FriendInvitation_delete (st : State) (i : FriendInvitation.t) : State :=
  with_users
    (with_invitations st
       (filter (fun j => negb (FriendInvitation.id j =? FriendInvitation.id i))
               (invitations st)))
    (map (fun u => match User.invitation_used u with
                   | Some k => if k =? FriendInvitation.id i
                               then User.with_invitation u (User.is_invited_user u) None
                               else u
                   | None => u
                   end)
         (users st)).

(** The invitation of [inviter] to [email] for [reservation], if one is
    stored: [FriendInvitation.objects.filter(...).first()]. *)
Definition existing_invitation (st : State) (inviter : Z) (email : string)
    (reservation : Reservation.t) : option FriendInvitation.t :=
  newest_by FriendInvitation.created_at
    (filter (fun i => (FriendInvitation.inviter i =? inviter)
                      && String.eqb (FriendInvitation.invited_email i) email
                      && (FriendInvitation.reservation i =? Reservation.id reservation))
            (invitations st)).

(** [CreateFriendInvitationView.post].  [token] is the draw of
    [uuid.uuid4()]; the answer carries the invitation that is mailed and the
    flag [is_resend].  Sending the mail writes nothing. *)
Definition CreateFriendInvitationView_post (st : State) (request_user : Z)
    (req : InvitationRequest) (token : string) (now : datetime)
    : (Z * InvitationError + FriendInvitation.t * bool) * State :=
  if negb (truthy (ir_invited_email req)) then (inl (400, invited_email_required), st)
  else
    match ir_reservation_id req with
    | None => (inl (400, reservation_id_required), st)
    | Some reservation_id =>
        if reservation_id =? 0 then (inl (400, reservation_id_required), st)
        else
          let invited_email := get_default (ir_invited_email req) "" in
          let message := get_default (ir_message req) "" in
          if existsb (fun u => String.eqb (User.email u) invited_email) (users st)
          then (inl (400, already_registered), st)
          else
            match objects_get (fun r => (Reservation.id r =? reservation_id)
                                        && (Reservation.user r =? request_user))
                              (reservations st) with
            | DoesNotExist => (inl (404, invitation_reservation_not_found), st)
            | MultipleObjectsReturned => (inl (500, invitation_internal_error), st)
            | Found reservation =>
                if negb (ReservationStatus_eqb (Reservation.status reservation) CONFIRMED)
                   || match Reservation.paid_at reservation with
                      | Some _ => false
                      | None => true
                      end
                then (inl (400, reservation_not_paid), st)
                else
                  let create (st0 : State) :=
                    match FriendInvitation.create_invitation (invitations st0)
                            request_user invited_email reservation message token now with
                    | Returns (invitation, table) =>
                        (inr (invitation, false), with_invitations st0 table)
                    | Raise ValueError => (inl (400, too_late_to_invite), st0)
                    | Raise _ => (inl (500, invitation_internal_error), st0)
                    end in
                  match existing_invitation st request_user invited_email reservation with
                  | Some existing =>
                      if FriendInvitation.is_valid existing now then
                        if negb (String.eqb message "")
                           && negb (String.eqb (FriendInvitation.message existing) message)
                        then
                          let updated := with_message existing message in
                          (inr (updated, true),
                           with_invitations st
                             (update_row FriendInvitation.id updated (invitations st)))
                        else (inr (existing, true), st)
                      else create (FriendInvitation_delete st existing)
                  | None => create st
                  end
            end
    end.

(** *** AdminUsersManagementView *)

Inductive AdminError :=
| action_and_user_required
| admin_user_not_found
| unknown_action
| admin_internal_error.

Inductive AdminDone :=
| premium_granted
| premium_revoked
| tickets_expired (expired_count : Z).

(** [AdminUsersManagementView.post] *)
Definition AdminUsersManagementView_post (st : State) (action : option string)
    (user_id : option Z) (now : datetime) : (Z * AdminError + AdminDone) * State :=
  if negb (truthy action)
     || match user_id with
        | Some i => i =? 0
        | None => true
        end
  then (inl (400, action_and_user_required), st)
  else
    let action := get_default action "" in
    let user_id := get_default user_id 0 in
    match objects_get (fun u => User.id u =? user_id) (users st) with
    | DoesNotExist => (inl (404, admin_user_not_found), st)
    | MultipleObjectsReturned => (inl (500, admin_internal_error), st)
    | Found target_user =>
        if String.eqb action "grant_premium" then
          (inr premium_granted,
           User_save st (with_premium target_user true (Some (plus_days now 30))))
        else if String.eqb action "revoke_premium" then
          (inr premium_revoked, User_save st (with_premium target_user false None))
        else if String.eqb action "expire_tickets" then
          let active (k : UserTicket.t) :=
            (UserTicket.user k =? User.id target_user)
            && match UserTicket.status k with
               | TICKET_ACTIVE => true
               | _ => false
               end in
          (inr (tickets_expired (Z.of_nat (List.length (filter active (tickets st))))),
           with_tickets st
             (map (fun k => if active k then UserTicket.expire_ticket k else k)
                  (tickets st)))
        else (inl (400, unknown_action), st)
    end.

(** *** Verification codes ([VerificationCode] in [users/models.py]) *)

Inductive CodeType := EMAIL_VERIFICATION | PASSWORD_RESET | PHONE_VERIFICATION.

Definition CodeType_eqb (a b : CodeType) : bool :=
  match a, b with
  | EMAIL_VERIFICATION, EMAIL_VERIFICATION | PASSWORD_RESET, PASSWORD_RESET
  | PHONE_VERIFICATION, PHONE_VERIFICATION => true
  | _, _ => false
  end.

Module VerificationCode.

Record t := mk {
  id : Z;
  user : Z;
  code : string;
  code_type : CodeType;
  created_at : datetime;
  expires_at : datetime;
  used_at : option datetime;
  is_used : bool
}.

Definition with_used (c : t) (at_ : option datetime) (flag : bool) : t :=
  mk (id c) (user c) (code c) (code_type c) (created_at c) (expires_at c) at_ flag.

(** [is_expired] *)
Definition is_expired (c : t) (now : datetime) : bool := now >? expires_at c.

(** [is_valid] *)
Definition is_valid (c : t) (now : datetime) : bool :=
  negb (is_used c) && negb (is_expired c now).

(** [mark_as_used] *)
Definition mark_as_used (c : t) (now : datetime) : t := with_used c (Some now) true.

(** [create_verification_code]; [code] is the draw of
    [generate_verification_code()].  Returns the new row and the table with
    it. *)
Definition create_verification_code (table : list t) (u : Z)
    (code_type_ : CodeType) (code : string) (duration_minutes : Z)
    (now : datetime) : t * list t :=
  let invalidated :=
    map (fun c => if (user c =? u) && CodeType_eqb (code_type c) code_type_
                     && negb (is_used c)
                  then with_used c (used_at c) true else c)
        table in
  let verification_code :=
    mk (fresh_id (map id table)) u code code_type_ now
       (plus_minutes now duration_minutes) None false in
  (verification_code, invalidated ++ [verification_code]).

End VerificationCode.

(** *** VerifyEmailView and ResendVerificationView *)

(** The fields of a verification request as [EmailVerificationSerializer]
    reads them: [vr_email] is [None] when the address is left out or is not
    accepted by [EmailField], [vr_code] is [None] when the code is left out;
    the code is a string of ASCII characters, taken after the trimming of
    white space that [CharField] does. *)
Record VerificationRequest := mkVerificationRequest {
  vr_email : option string;
  vr_code : option string
}.

Inductive VerificationError :=
| invalid_fields               (* a field of the serializer is refused *)
| verification_user_not_found
| code_invalid
| code_expired
| email_required
| verification_internal_error. (* [MultipleObjectsReturned] escapes the view *)

Definition with_email_verified (u : User.t) (now : datetime) : User.t :=
  User.mk (User.id u) (User.email u) (User.username u) (User.password u)
    (User.first_name u) (User.last_name u) true (User.is_premium u)
    (User.premium_until u)
    (User.is_invited_user u) (User.invitation_used u) (Some now).

(** The unused codes that [EmailVerificationSerializer.validate] looks
    through. *)
Definition unused_code_of (u : Z) (code : string) (c : VerificationCode.t) : bool :=
  (VerificationCode.user c =? u)
  && String.eqb (VerificationCode.code c) code
  && CodeType_eqb (VerificationCode.code_type c) EMAIL_VERIFICATION
  && negb (VerificationCode.is_used c).

(** [EmailVerificationSerializer]: the validation of the fields (no blank
    address, [CharField(max_length=6, min_length=6)] for the code), then
    [validate]. *)
Definition EmailVerificationSerializer_validate (st : State)
    (codes : list VerificationCode.t) (req : VerificationRequest) (now : datetime)
    : Z * VerificationError + User.t * VerificationCode.t :=
  match vr_email req, vr_code req with
  | Some email, Some code =>
      if String.eqb email "" || negb (Nat.eqb (String.length code) 6)
      then inl (400, invalid_fields)
      else
        match objects_get (fun u => String.eqb (User.email u) email) (users st) with
        | DoesNotExist => inl (400, verification_user_not_found)
        | MultipleObjectsReturned => inl (500, verification_internal_error)
        | Found user =>
            match newest_by VerificationCode.created_at
                    (filter (unused_code_of (User.id user) code) codes) with
            | None => inl (400, code_invalid)
            | Some verification_code =>
                if VerificationCode.is_expired verification_code now
                then inl (400, code_expired)
                else inr (user, verification_code)
            end
        end
  | _, _ => inl (400, invalid_fields)
  end.

(** [VerifyEmailView.post]; the answer carries the primary key of the user.
    The table of authentication tokens is left out. *)
Definition VerifyEmailView_post (st : State) (codes : list VerificationCode.t)
    (req : VerificationRequest) (now : datetime)
    : (Z * VerificationError + Z) * (State * list VerificationCode.t) :=
  match EmailVerificationSerializer_validate st codes req now with
  | inl refusal => (inl refusal, (st, codes))
  | inr (user, verification_code) =>
      (inr (User.id user),
       (User_save st (with_email_verified user now),
        update_row VerificationCode.id
          (VerificationCode.mark_as_used verification_code now) codes))
  end.

Inductive ResendDone :=
| already_verified
| code_sent (verification_code : VerificationCode.t).

(** [ResendVerificationView.post]; [code] is the draw of
    [generate_verification_code()]. *)
Definition ResendVerificationView_post (st : State)
    (codes : list VerificationCode.t) (email : option string) (code : string)
    (now : datetime)
    : (Z * VerificationError + ResendDone) * (State * list VerificationCode.t) :=
  if negb (truthy email) then (inl (400, email_required), (st, codes))
  else
    match objects_get (fun u => String.eqb (User.email u) (get_default email ""))
                      (users st) with
    | DoesNotExist => (inl (404, verification_user_not_found), (st, codes))
    | MultipleObjectsReturned => (inl (500, verification_internal_error), (st, codes))
    | Found user =>
        if User.email_verified user then (inr already_verified, (st, codes))
        else
          let '(verification_code, table) :=
            VerificationCode.create_verification_code codes (User.id user)
              EMAIL_VERIFICATION code 10 now in
          (inr (code_sent verification_code), (st, table))
    end.

(** *** Personality test ([PersonalityTestSubmissionSerializer]) *)

Record PersonalityScores := mkPersonalityScores {
  extraversion_score : Z;
  intuition_score : Z;
  thinking_score : Z;
  judging_score : Z;
  dominance_score : Z;
  influence_score : Z;
  steadiness_score : Z;
  conscientiousness_score : Z;
  test_duration_seconds : Z
}.

(** [User.PERSONALITY_TYPE_CHOICES] and [User.DISC_TYPE_CHOICES], the values
    that the columns [mbti_result] and [disc_result] admit. *)
Definition PERSONALITY_TYPE_CHOICES : list string :=
  ["INTJ"; "INTP"; "ENTJ"; "ENTP"; "INFJ"; "INFP"; "ENFJ"; "ENFP";
   "ISTJ"; "ISFJ"; "ESTJ"; "ESFJ"; "ISTP"; "ISFP"; "ESTP"; "ESFP"].

Definition DISC_TYPE_CHOICES : list string := ["D"; "I"; "S"; "C"].

(** [max(scores, key=scores.get)] over a dictionary: the first key, in
    insertion order, among those of the greatest value. *)
Fixpoint max_by_value (best : string * Z) (rest : list (string * Z)) : string :=
  match rest with
  | [] => fst best
  | entry :: rest' =>
      if snd entry >? snd best then max_by_value entry rest'
      else max_by_value best rest'
  end.

(** [calculate_personality_types] *)
Definition calculate_personality_types (validated_data : PersonalityScores)
    : string * string :=
  let mbti :=
    String.append (if extraversion_score validated_data >=? 50 then "E" else "I")
      (String.append (if intuition_score validated_data >=? 50 then "N" else "S")
         (String.append (if thinking_score validated_data >=? 50 then "T" else "F")
            (if judging_score validated_data >=? 50 then "J" else "P"))) in
  let disc_result :=
    max_by_value ("D", dominance_score validated_data)
      [("I", influence_score validated_data);
       ("S", steadiness_score validated_data);
       ("C", conscientiousness_score validated_data)] in
  (mbti, disc_result).

(** *** Onboarding ([OnboardingProgress] and [UserInterests]) *)

Module OnboardingProgress.

(** One row for a user ([OneToOneField]); the column [temp_data], which no
    modelled code reads, is left out. *)
Record t := mk {
  user : Z;
  current_step : string;
  completed_steps : list string;
  completed_at : option datetime
}.

(** [mark_step_completed] *)
Definition mark_step_completed (p : t) (step_name : string) : t :=
  if existsb (String.eqb step_name) (completed_steps p) then p
  else mk (user p) (current_step p) (completed_steps p ++ [step_name])
          (completed_at p).

(** [complete_onboarding] *)
Definition complete_onboarding (p : t) (now : datetime) : t :=
  mark_step_completed (mk (user p) "COMPLETED" (completed_steps p) (Some now))
    "PASSION_SELECTION".

(** [_get_next_step] *)
Definition _get_next_step (p : t) : string :=
  if negb (existsb (String.eqb "PERSONAL_INFO") (completed_steps p))
  then "PERSONAL_INFO"
  else if negb (existsb (String.eqb "PERSONALITY_TEST") (completed_steps p))
  then "PERSONALITY_TEST"
  else if negb (existsb (String.eqb "PASSION_SELECTION") (completed_steps p))
  then "PASSION_SELECTION"
  else "COMPLETED".

Record CompletionStatus := mkCompletionStatus {
  cs_current_step : string;
  is_completed : bool;
  personal_info_completed : bool;
  personality_test_completed : bool;
  passion_selection_completed : bool;
  next_step : string
}.

(** [get_completion_status]; [has_personality_results] tells whether a
    [PersonalityTestResult] of the user is stored, [has_interests] whether the
    user has stored at least one interest. *)
Definition get_completion_status (p : t) (has_personality_results has_interests : bool)
    : CompletionStatus :=
  let done (step : string) := existsb (String.eqb step) (completed_steps p) in
  mkCompletionStatus
    (current_step p)
    (String.eqb (current_step p) "COMPLETED"
     || (done "PERSONAL_INFO"
         && (done "PERSONALITY_TEST" || has_personality_results)
         && (done "PASSION_SELECTION" || has_interests)))
    (done "PERSONAL_INFO")
    (done "PERSONALITY_TEST" || has_personality_results)
    (done "PASSION_SELECTION" || has_interests)
    (_get_next_step p).

End OnboardingProgress.

Module UserInterests.

(** An interest of a request is a JSON object; it is kept as the list of
    its keys and their values. *)
Definition interest := list (string * string).

Record t := mk {
  user : Z;
  selected_interests : list interest
}.

(** [add_interests] *)
Definition add_interests (i : t) (interests_data : list interest) : t :=
  mk (user i) interests_data.

(** [interests_count] *)
Definition interests_count (i : t) : Z := Z.of_nat (List.length (selected_interests i)).

End UserInterests.

(** The tables of the onboarding. *)
Record Onboarding := mkOnboarding {
  progress : list OnboardingProgress.t;
  interests : list UserInterests.t
}.

(** [OnboardingProgress.objects.get_or_create(user=...)] with the defaults
    of the model: the row, and the table that holds it. *)
Definition OnboardingProgress_get_or_create (table : list OnboardingProgress.t)
    (u : Z) : OnboardingProgress.t * list OnboardingProgress.t :=
  match find (fun p => OnboardingProgress.user p =? u) table with
  | Some p => (p, table)
  | None =>
      let p := OnboardingProgress.mk u "PERSONAL_INFO" [] None in
      (p, table ++ [p])
  end.

(** [UserInterests.objects.get_or_create(user=...)] *)
Definition UserInterests_get_or_create (table : list UserInterests.t) (u : Z)
    : UserInterests.t * list UserInterests.t :=
  match find (fun i => UserInterests.user i =? u) table with
  | Some i => (i, table)
  | None =>
      let i := UserInterests.mk u [] in
      (i, table ++ [i])
  end.

Inductive InterestsError := too_many_interests | invalid_interest.

(** [key in interest] *)
Definition has_key (key : string) (i : UserInterests.interest) : bool :=
  existsb (fun entry => String.eqb (fst entry) key) i.

(** [UserInterestsView.post]; [None] stands for a request without
    [selected_interests].  The answer carries the interests stored and their
    number. *)
Definition UserInterestsView_post (ob : Onboarding) (request_user : Z)
    (selected_interests : option (list UserInterests.interest))
    : (Z * InterestsError + list UserInterests.interest * Z) * Onboarding :=
  let interests_data := get_default selected_interests [] in
  if (3 <? List.length interests_data)%nat then (inl (400, too_many_interests), ob)
  else if negb (forallb (fun interest =>
                           forallb (fun key => has_key key interest)
                                   ["id"; "name"; "color"])
                        interests_data)
  then (inl (400, invalid_interest), ob)
  else
    let '(user_interests, table) :=
      UserInterests_get_or_create (interests ob) request_user in
    let user_interests := UserInterests.add_interests user_interests interests_data in
    let table :=
      map (fun i => if UserInterests.user i =? request_user then user_interests else i)
          table in
    let '(onboarding_progress, steps) :=
      OnboardingProgress_get_or_create (progress ob) request_user in
    let marked :=
      OnboardingProgress.mark_step_completed onboarding_progress "PASSION_SELECTION" in
    let onboarding_progress :=
      OnboardingProgress.mk (OnboardingProgress.user marked) "COMPLETED"
        (OnboardingProgress.completed_steps marked)
        (OnboardingProgress.completed_at marked) in
    let steps :=
      map (fun p => if OnboardingProgress.user p =? request_user
                    then onboarding_progress else p)
          steps in
    (inr (UserInterests.selected_interests user_interests,
          UserInterests.interests_count user_interests),
     mkOnboarding steps table).

(** The keys of the body of [OnboardingProgressView.post] that the view
    reads; [temp_data] is left out with its column. *)
Record ProgressRequest := mkProgressRequest {
  pr_completed_step : option string;
  pr_current_step : option string;
  pr_complete_onboarding : bool
}.

(** [OnboardingProgressView.post]; the answer carries the step and the
    completed steps as stored. *)
Definition OnboardingProgressView_post (ob : Onboarding) (request_user : Z)
    (data : ProgressRequest) (now : datetime)
    : (string * list string) * Onboarding :=
  let '(progress0, steps) :=
    OnboardingProgress_get_or_create (progress ob) request_user in
  let progress1 :=
    match pr_completed_step data with
    | Some step => OnboardingProgress.mark_step_completed progress0 step
    | None => progress0
    end in
  let progress2 :=
    match pr_current_step data with
    | Some step =>
        OnboardingProgress.mk (OnboardingProgress.user progress1) step
          (OnboardingProgress.completed_steps progress1)
          (OnboardingProgress.completed_at progress1)
    | None => progress1
    end in
  let progress3 :=
    if pr_complete_onboarding data
    then OnboardingProgress.complete_onboarding progress2 now
    else progress2 in
  ((OnboardingProgress.current_step progress3,
    OnboardingProgress.completed_steps progress3),
   mkOnboarding
     (map (fun p => if OnboardingProgress.user p =? request_user then progress3 else p)
          steps)
     (interests ob)).

(** ** Further sample data *)

(** User 1 holds the ticket that the cancellation of the booking of plan
    "TICKET" left, and pays a booking for Thursday 2024-06-20 with it on
    Monday 2024-06-10 at 11:00. *)
Definition ticket_payment : (Z * TicketError + Reservation.t) * State :=
  UseTicketView_post cancelled_ticket_booking 1 (Some 1)
    (Some (booking_data (ymd 2024 6 20) "TICKET" 1500)) (at_time 2024 6 10 11 0 0).

(** The reservation that this payment stores. *)
Definition ticket_booking : Reservation.t :=
  Reservation.mk 2 1 "Bowling" "" (ymd 2024 6 20) eight_pm "Paris" "" "TICKET"
    1500 "EUR" CONFIRMED "ticket_1" (Some (at_time 2024 6 10 11 0 0)) 1 ""
    (at_time 2024 6 10 11 0 0) (Some (at_time 2024 6 18 23 59 0)).

(** A user who has registered and not yet verified the address, user 2,
    and the code sent to that user on Saturday 2024-06-01 at 09:05. *)
Definition bob : User.t :=
  User.mk 2 "bob@example.com" "bob@example.com" "secret" "Bob" "B" false false None
    false None None.

Definition bob_code : VerificationCode.t :=
  VerificationCode.mk 1 2 "222222" EMAIL_VERIFICATION (at_time 2024 6 1 9 5 0)
    (at_time 2024 6 1 9 15 0) None false.

(** * Properties *)

(** Closed statements about the sample data are settled by running the
    model. *)
Ltac run_model :=
  cbv zeta; repeat apply conj; vm_compute; first [reflexivity | discriminate].

(** ** Calendar facts *)

Lemma minus_days_some (d k r : Z) :
  minus_days d k = Some r -> r = d - k /\ min_ordinal <= r <= max_ordinal.
Proof.
  unfold minus_days. cbv zeta.
  destruct (min_ordinal <=? d - k) eqn:Hlo; [| discriminate].
  destruct (d - k <=? max_ordinal) eqn:Hhi; [| discriminate].
  cbn. intros [= <-]. apply Z.leb_le in Hlo, Hhi. lia.
Qed.

Lemma minus_days_in_range (d k : Z) :
  min_ordinal <= d - k <= max_ordinal -> minus_days d k = Some (d - k).
Proof.
  intros [Hlo Hhi]. unfold minus_days. cbv zeta.
  apply Z.leb_le in Hlo, Hhi. now rewrite Hlo, Hhi.
Qed.

Lemma weekday_range (d : Z) : 0 <= weekday d < 7.
Proof. unfold weekday. apply Z.mod_pos_bound. lia. Qed.

Lemma weekday_shift (d k : Z) : weekday (d - 7 * k) = weekday d.
Proof.
  unfold weekday. replace (d - 7 * k + 6) with (d + 6 + (- k) * 7) by lia.
  apply Z.mod_add. lia.
Qed.

(** The Tuesday chosen by [set_cancellation_deadline], whenever the dates
    involved exist: a Tuesday, one to seven days before the event, a full
    week before when the event is itself on a Tuesday. *)
Lemma tuesday_before_spec (D : Z) :
  3 <= D <= max_ordinal ->
  exists tuesday,
    Reservation.tuesday_before D = Some tuesday
    /\ weekday tuesday = 1
    /\ 1 <= D - tuesday <= 7
    /\ (weekday D = 1 -> tuesday = D - 7).
Proof.
  intros HD. unfold Reservation.tuesday_before. cbv zeta.
  pose proof (weekday_range D) as Hw.
  assert (Hd : (weekday D - 1) mod 7 = weekday D - 1 /\ 1 <= weekday D
               \/ (weekday D - 1) mod 7 = 6 /\ weekday D = 0).
  { destruct (Z.eq_dec (weekday D) 0) as [E | E].
    - right. rewrite E. split; reflexivity.
    - left. split; [apply Z.mod_small|]; lia. }
  assert (Hq : D + 6 = 7 * ((D + 6) / 7) + weekday D)
    by (unfold weekday; apply Z.div_mod; lia).
  unfold min_ordinal, max_ordinal in *.
  destruct Hd as [[Hm H1] | [Hm H0]]; rewrite Hm.
  - rewrite (minus_days_in_range D (weekday D - 1)) by (unfold min_ordinal, max_ordinal; lia).
    destruct (weekday D - 1 =? 0) eqn:Hz.
    + apply Z.eqb_eq in Hz.
      exists (D - 7). rewrite minus_days_in_range by (unfold min_ordinal, max_ordinal; lia).
      repeat split; try lia.
      replace (D - 7) with (D - 7 * 1) by lia. rewrite weekday_shift. lia.
    + apply Z.eqb_neq in Hz.
      exists (D - (weekday D - 1)). repeat split; try lia.
      unfold weekday at 1.
      replace (D - (weekday D - 1) + 6) with (1 + ((D + 6) / 7) * 7) by lia.
      rewrite Z.mod_add by lia. reflexivity.
  - rewrite (minus_days_in_range D 6) by (unfold min_ordinal, max_ordinal; lia).
    change (6 =? 0) with false. cbv iota.
    exists (D - 6). repeat split; try lia.
    unfold weekday at 1.
    replace (D - 6 + 6) with (1 + ((D + 6) / 7 - 1) * 7) by lia.
    rewrite Z.mod_add by lia. reflexivity.
Qed.

(** ** Tables *)

Lemma fresh_id_above (ids : list Z) (x : Z) : In x ids -> x < fresh_id ids.
Proof.
  unfold fresh_id. induction ids as [| y ids IH]; cbn [fold_right In].
  - intros [].
  - intros [-> | Hin]; [lia | specialize (IH Hin); lia].
Qed.

Lemma fresh_id_not_in (ids : list Z) : ~ In (fresh_id ids) ids.
Proof. intros Hin. apply fresh_id_above in Hin. lia. Qed.

Lemma newest_by_in {A : Type} (key : A -> Z) (rows : list A) (r : A) :
  newest_by key rows = Some r -> In r rows.
Proof.
  revert r. induction rows as [| x rows IH]; cbn [newest_by]; intros r.
  - discriminate.
  - destruct (newest_by key rows) as [r' |].
    + destruct (key x <? key r'); [intros [= <-]; right; now apply IH |].
      destruct (key x =? key r'); intros [= <-]; [right; now apply IH | now left].
    + intros [= <-]. now left.
Qed.

Lemma objects_get_found {A : Type} (p : A -> bool) (table : list A) (r : A) :
  objects_get p table = Found r -> filter p table = [r].
Proof.
  unfold objects_get. destruct (filter p table) as [| x [| y l]]; try discriminate.
  now intros [= ->].
Qed.

Lemma objects_get_found_in {A : Type} (p : A -> bool) (table : list A) (r : A) :
  objects_get p table = Found r -> In r table /\ p r = true.
Proof.
  intros H. apply objects_get_found in H.
  apply filter_In. rewrite H. now left.
Qed.

Lemma update_row_pks {A : Type} (pk : A -> Z) (row : A) (table : list A) :
  map pk (update_row pk row table) = map pk table.
Proof.
  unfold update_row. rewrite map_map. apply map_ext_in.
  intros r _. destruct (pk r =? pk row) eqn:E; [| reflexivity].
  apply Z.eqb_eq in E. now rewrite E.
Qed.

Lemma update_row_length {A : Type} (pk : A -> Z) (row : A) (table : list A) :
  List.length (update_row pk row table) = List.length table.
Proof. unfold update_row. apply length_map. Qed.

Lemma update_row_in {A : Type} (pk : A -> Z) (row : A) (table : list A) (r : A) :
  In r (update_row pk row table) ->
  (r = row /\ exists r0, In r0 table /\ pk r0 = pk row) \/ (In r table /\ pk r <> pk row).
Proof.
  unfold update_row. rewrite in_map_iff. intros (r0 & Hr & Hin).
  destruct (pk r0 =? pk row) eqn:E.
  - left. apply Z.eqb_eq in E. split; [now symmetry | now exists r0].
  - right. apply Z.eqb_neq in E. subst. now split.
Qed.

Lemma update_row_has {A : Type} (pk : A -> Z) (row : A) (table : list A) (r0 : A) :
  In r0 table -> pk r0 = pk row -> In row (update_row pk row table).
Proof.
  intros Hin E. unfold update_row. apply in_map_iff. exists r0.
  split; [| assumption]. apply Z.eqb_eq in E. now rewrite E.
Qed.

(** Saving a changed row that no longer passes the filter which used to
    select exactly it leaves nothing for that filter. *)
Lemma filter_update_row_none {A : Type} (pk : A -> Z) (p : A -> bool)
    (row : A) (table : list A) :
  (forall r, In r table -> p r = true -> pk r = pk row) ->
  p row = false ->
  filter p (update_row pk row table) = [].
Proof.
  intros Hsel Hrow. unfold update_row.
  induction table as [| x table IH]; [reflexivity |].
  cbn [map filter].
  rewrite IH by (intros r Hr; apply Hsel; now right).
  destruct (pk x =? pk row) eqn:E.
  - now rewrite Hrow.
  - destruct (p x) eqn:Hp; [| reflexivity].
    apply Z.eqb_neq in E. exfalso. apply E. apply Hsel; [now left | assumption].
Qed.

(** Saving a changed row that still passes the filter, in a table whose
    primary keys are unique and whose filter selects by that key. *)
Lemma filter_update_row_same {A : Type} (pk : A -> Z) (p : A -> bool)
    (row : A) (table : list A) :
  NoDup (map pk table) ->
  (forall r, p r = true -> pk r = pk row) ->
  p row = true ->
  In (pk row) (map pk table) ->
  filter p (update_row pk row table) = [row].
Proof.
  intros Hnd Hsel Hrow. unfold update_row.
  induction table as [| x table IH]; cbn [map filter In]; [intros [] |].
  inversion Hnd as [| ? ? Hnotin Hnd']; subst.
  destruct (pk x =? pk row) eqn:E.
  - intros _. apply Z.eqb_eq in E. rewrite Hrow. f_equal.
    rewrite E in Hnotin. clear IH Hnd Hnd' E.
    induction table as [| y table IH]; [reflexivity |].
    cbn [map filter In] in *.
    destruct (pk y =? pk row) eqn:E; [apply Z.eqb_eq in E; tauto |].
    destruct (p y) eqn:Hp.
    + apply Hsel in Hp. apply Z.eqb_neq in E. contradiction.
    + apply IH. tauto.
  - intros [Hx | Hin]; [apply Z.eqb_neq in E; congruence |].
    destruct (p x) eqn:Hp.
    + apply Hsel in Hp. apply Z.eqb_neq in E. contradiction.
    + now apply IH.
Qed.

Lemma ReservationStatus_eqb_eq (a b : ReservationStatus) :
  ReservationStatus_eqb a b = true <-> a = b.
Proof. destruct a, b; cbn; split; congruence. Qed.

(** ** Reservation creation and the cancellation deadline *)

Lemma Reservation_objects_create_spec (st : State) (now : datetime)
    (fields r : Reservation.t) (st' : State) :
  Reservation_objects_create st now fields = Some (r, st') ->
  reservations st' = reservations st ++ [r]
  /\ users st' = users st /\ tickets st' = tickets st
  /\ subscriptions st' = subscriptions st /\ invitations st' = invitations st
  /\ groups st' = groups st /\ memberships st' = memberships st
  /\ Reservation.id r = fresh_id (map Reservation.id (reservations st))
  /\ Reservation.user r = Reservation.user fields
  /\ Reservation.activity_name r = Reservation.activity_name fields
  /\ Reservation.activity_description r = Reservation.activity_description fields
  /\ Reservation.reservation_date r = Reservation.reservation_date fields
  /\ Reservation.reservation_time r = Reservation.reservation_time fields
  /\ Reservation.venue_name r = Reservation.venue_name fields
  /\ Reservation.venue_address r = Reservation.venue_address fields
  /\ Reservation.price_plan r = Reservation.price_plan fields
  /\ Reservation.price_amount r = Reservation.price_amount fields
  /\ Reservation.currency r = Reservation.currency fields
  /\ Reservation.status r = Reservation.status fields
  /\ Reservation.stripe_payment_intent_id r = Reservation.stripe_payment_intent_id fields
  /\ Reservation.paid_at r = Reservation.paid_at fields
  /\ Reservation.participants_count r = Reservation.participants_count fields.
Proof.
  unfold Reservation_objects_create, Reservation.save,
    Reservation.set_cancellation_deadline. cbv zeta. cbn [Reservation.cancellation_deadline].
  destruct (Reservation.cancellation_deadline fields).
  - intros [= <- <-]. cbn. repeat split; reflexivity.
  - cbn [Reservation.reservation_date].
    destruct (Reservation.tuesday_before (Reservation.reservation_date fields));
      [| discriminate].
    intros [= <- <-]. cbn. repeat split; reflexivity.
Qed.

Lemma Reservation_objects_create_total (st : State) (now : datetime)
    (fields : Reservation.t) (tuesday : date) :
  Reservation.cancellation_deadline fields = None ->
  Reservation.tuesday_before (Reservation.reservation_date fields) = Some tuesday ->
  exists r st',
    Reservation_objects_create st now fields = Some (r, st')
    /\ Reservation.cancellation_deadline r = Some (combine tuesday 23 59 0).
Proof.
  intros Hnone Htue.
  unfold Reservation_objects_create, Reservation.save,
    Reservation.set_cancellation_deadline. cbv zeta.
  cbn [Reservation.cancellation_deadline Reservation.reservation_date].
  rewrite Hnone, Htue. eexists. eexists. split; reflexivity.
Qed.

(** C2, as amended.  A reservation created through
    [Reservation.objects.create] without a deadline of its own, which is how
    every view creates one, is stored with [cancellation_deadline] at
    23:59:00 on the Tuesday that lies one to seven days before its date [D],
    that is [D - 7] days when [D] is a Tuesday.  [D] is any date from
    0001-01-03 on, the first for which that Tuesday exists. *)
Theorem cancellation_deadline_on_creation (st : State) (now : datetime)
    (fields : Reservation.t) :
  Reservation.cancellation_deadline fields = None ->
  3 <= Reservation.reservation_date fields <= max_ordinal ->
  exists r st' tuesday,
    Reservation_objects_create st now fields = Some (r, st')
    /\ reservations st' = reservations st ++ [r]
    /\ Reservation.reservation_date r = Reservation.reservation_date fields
    /\ Reservation.cancellation_deadline r = Some (combine tuesday 23 59 0)
    /\ weekday tuesday = 1
    /\ 1 <= Reservation.reservation_date fields - tuesday <= 7
    /\ (weekday (Reservation.reservation_date fields) = 1 ->
        tuesday = Reservation.reservation_date fields - 7).
Proof.
  intros Hnone HD.
  destruct (tuesday_before_spec _ HD) as (tuesday & Htue & Hw & Hd & H7).
  destruct (Reservation_objects_create_total st now fields tuesday Hnone Htue)
    as (r & st' & Hc & Hdl).
  exists r, st', tuesday.
  pose proof (Reservation_objects_create_spec _ _ _ _ _ Hc) as Hs.
  repeat split; try tauto; try lia.
Qed.

Lemma cancellation_deadline_on_creation_witness :
  exists r st' tuesday,
    Reservation_objects_create empty_state 0 (booking 1 (ymd 2024 6 11) "TICKET" 1500 "")
      = Some (r, st')
    /\ reservations st' = reservations empty_state ++ [r]
    /\ Reservation.reservation_date r = ymd 2024 6 11
    /\ Reservation.cancellation_deadline r = Some (combine tuesday 23 59 0)
    /\ weekday tuesday = 1
    /\ 1 <= ymd 2024 6 11 - tuesday <= 7
    /\ (weekday (ymd 2024 6 11) = 1 -> tuesday = ymd 2024 6 11 - 7).
Proof.
  apply (cancellation_deadline_on_creation empty_state 0
           (booking 1 (ymd 2024 6 11) "TICKET" 1500 "")).
  - reflexivity.
  - vm_compute. split; discriminate.
Defined.

(** C2, as stated, fails: for the event of Thursday 2024-06-13 the stored
    deadline is Tuesday 2024-06-11 at 23:59:00, so it is 23:59:59 on no
    Tuesday at all. *)
Lemma cancellation_deadline_not_at_235959 :
  ~ exists r st' tuesday,
      Reservation_objects_create empty_state 0
        (booking 1 (ymd 2024 6 13) "TICKET" 1500 "") = Some (r, st')
      /\ weekday tuesday = 1
      /\ 1 <= ymd 2024 6 13 - tuesday <= 7
      /\ Reservation.cancellation_deadline r = Some (combine tuesday 23 59 59).
Proof.
  intros (r & st' & tuesday & Hc & _ & _ & Hd).
  vm_compute in Hc. injection Hc as <- _.
  cbn [Reservation.cancellation_deadline] in Hd.
  injection Hd as Hd. unfold combine, day, hour, minute, second in Hd. lia.
Qed.

(** The two examples of the specification, with the seconds the code
    stores. *)
Example deadline_thursday_2024_06_13 :
  Reservation.set_cancellation_deadline (booking 1 (ymd 2024 6 13) "TICKET" 1500 "")
  = Some (Reservation.with_cancellation_deadline
            (booking 1 (ymd 2024 6 13) "TICKET" 1500 "")
            (Some (at_time 2024 6 11 23 59 0))).
Proof. reflexivity. Qed.

Example deadline_tuesday_2024_06_11 :
  Reservation.set_cancellation_deadline (booking 1 (ymd 2024 6 11) "TICKET" 1500 "")
  = Some (Reservation.with_cancellation_deadline
            (booking 1 (ymd 2024 6 11) "TICKET" 1500 "")
            (Some (at_time 2024 6 4 23 59 0))).
Proof. reflexivity. Qed.

(** Every view that creates a reservation goes through
    [Reservation.objects.create] without a deadline of its own; the
    reservation it answers with carries the Tuesday deadline.  The view of
    subscription bookings then writes its own deadline over it, 23:59:00 two
    days before the event. *)
Lemma Reservation_objects_create_deadline (st : State) (now : datetime)
    (fields r : Reservation.t) (st' : State) :
  Reservation_objects_create st now fields = Some (r, st') ->
  Reservation.cancellation_deadline fields = None ->
  has_tuesday_deadline r.
Proof.
  unfold Reservation_objects_create, Reservation.save,
    Reservation.set_cancellation_deadline, has_tuesday_deadline. cbv zeta.
  cbn [Reservation.cancellation_deadline Reservation.reservation_date].
  intros H Hnone. rewrite Hnone in H.
  destruct (Reservation.tuesday_before (Reservation.reservation_date fields))
    as [tuesday |] eqn:Ht; [| discriminate].
  injection H as <- _. exists tuesday. cbn. split; [exact Ht | reflexivity].
Qed.

Lemma reservation_of_data_no_deadline (u : Z) (d : ReservationData) (D : date)
    (ref : string) (now : datetime) (fields : Reservation.t) :
  reservation_of_data u d D ref now = Some fields ->
  Reservation.cancellation_deadline fields = None.
Proof.
  unfold reservation_of_data.
  destruct (rd_reservation_time d), (rd_activity_name d), (rd_price_plan d),
    (rd_price_amount d); try discriminate; intros [= <-]; reflexivity.
Qed.

Lemma ReservationView_post_deadline (st : State) (u : Z) (req : ReservationRequest)
    (now : datetime) (r : Reservation.t) (st' : State) :
  ReservationView_post st u req now = (Ok r, st') -> has_tuesday_deadline r.
Proof.
  unfold ReservationView_post. cbv zeta.
  destruct (rd_reservation_date (rq_data req)) as [| | D]; try discriminate.
  destruct (rd_reservation_time (rq_data req)); try discriminate;
    (destruct (Reservation_objects_create st now _) as [[r1 st1] |] eqn:Hc;
     [| discriminate];
     apply Reservation_objects_create_deadline in Hc; [| reflexivity];
     destruct (truthy (rq_payment_intent_id req));
     [destruct (Reservation_save st1 _); [| discriminate] |];
     intros [= <- <-]; exact Hc).
Qed.

Lemma ProcessInvitedUserView_post_deadline (st : State) (u : Z) (now : datetime)
    (r : Reservation.t) (st' : State) :
  ProcessInvitedUserView_post st u now = (Ok r, st') -> has_tuesday_deadline r.
Proof.
  unfold ProcessInvitedUserView_post.
  destruct (objects_get _ (invitations st)) as [i | |]; try discriminate.
  destruct (negb (FriendInvitation.can_be_used i)); [discriminate |].
  destruct (find _ (reservations st)) as [original |]; [| discriminate].
  destruct (Reservation_objects_create st now _) as [[r1 st1] |] eqn:Hc;
    [| discriminate].
  apply Reservation_objects_create_deadline in Hc; [| reflexivity].
  intros [= <- <-]. exact Hc.
Qed.

(** [update_subscription_status] writes the user row and nothing else. *)
Lemma request_user_update_subscription_status_frame (st : State) (u : Z)
    (now : datetime) :
  reservations (request_user_update_subscription_status st u now) = reservations st
  /\ tickets (request_user_update_subscription_status st u now) = tickets st
  /\ subscriptions (request_user_update_subscription_status st u now)
     = subscriptions st
  /\ invitations (request_user_update_subscription_status st u now) = invitations st
  /\ groups (request_user_update_subscription_status st u now) = groups st
  /\ memberships (request_user_update_subscription_status st u now) = memberships st.
Proof.
  unfold request_user_update_subscription_status.
  destruct (find _ (users st)); repeat split; reflexivity.
Qed.

Lemma ConfirmPaymentView_post_deadline (stripe : string -> option PaymentIntent)
    (st : State) (u : Z) (req : ConfirmRequest) (now : datetime)
    (r : Reservation.t) (st' : State) :
  legacy_flow req = false ->
  ConfirmPaymentView_post stripe st u req now = (Ok r, st') ->
  has_tuesday_deadline r.
Proof.
  unfold ConfirmPaymentView_post, legacy_flow. cbv zeta.
  destruct (negb (truthy (payment_intent_id req))); [discriminate |].
  destruct (dev_mode req); cbn [andb].
  - destruct (reservation_data req) as [d |]; [intros _ | discriminate].
    destruct (rd_reservation_date d) as [| | D]; try discriminate.
    destruct (reservation_of_data u d D _ now) as [fields |] eqn:Hf; [| discriminate].
    apply reservation_of_data_no_deadline in Hf.
    destruct (Reservation_objects_create st now fields) as [[r1 st1] |] eqn:Hc;
      [| discriminate].
    apply Reservation_objects_create_deadline in Hc; [| exact Hf].
    destruct (match rd_price_plan d with
              | Some plan => String.eqb plan "ticket"
              | None => false
              end).
    + destruct (UserTicket_objects_create st1 now u _ REFUND None _ _).
      intros [= <- <-]. exact Hc.
    + intros [= <- <-]. exact Hc.
  - intros _. destruct (stripe _) as [intent |]; [| discriminate].
    destruct (negb (String.eqb (intent_status intent) "succeeded")); [discriminate |].
    destruct (meta_reservation_date intent) as [| | D]; try discriminate.
    destruct (Reservation_objects_create st now _) as [[r1 st1] |] eqn:Hc;
      [| discriminate].
    apply Reservation_objects_create_deadline in Hc; [| reflexivity].
    intros [= <- <-]. exact Hc.
Qed.

Lemma UseTicketView_post_deadline (st : State) (u : Z) (tid : option Z)
    (d : option ReservationData) (now : datetime) (r : Reservation.t) (st' : State) :
  UseTicketView_post st u tid d now = (inr r, st') -> has_tuesday_deadline r.
Proof.
  unfold UseTicketView_post.
  destruct tid as [t |]; [| discriminate].
  destruct d as [d |]; [| discriminate].
  destruct (objects_get _ (tickets st)) as [ticket | |]; try discriminate.
  destruct (negb (UserTicket.is_valid ticket now)); [discriminate |].
  destruct (rd_reservation_date d) as [| | D]; try discriminate.
  destruct (reservation_of_data u d D _ now) as [fields |] eqn:Hf; [| discriminate].
  apply reservation_of_data_no_deadline in Hf.
  destruct (Reservation_objects_create st now fields) as [[r1 st1] |] eqn:Hc;
    [| discriminate].
  apply Reservation_objects_create_deadline in Hc; [| exact Hf].
  destruct (UserTicket.use_ticket ticket (Reservation.id r1) now); [| discriminate].
  intros [= <- <-]. exact Hc.
Qed.

Lemma CreateReservationWithSubscriptionView_post_deadline (st : State) (u : Z)
    (d : ReservationData) (now : datetime) (r : Reservation.t) (st' : State) :
  CreateReservationWithSubscriptionView_post st u d now = (Ok r, st') ->
  Reservation.cancellation_deadline r
  = Some (combine (Reservation.reservation_date r - 2) 23 59 0).
Proof.
  unfold CreateReservationWithSubscriptionView_post.
  destruct (UserSubscription.get_active_subscription _ u now) as [sub |];
    [| discriminate].
  destruct (UserSubscription.can_make_reservation sub _ now) as [[|] |];
    try discriminate.
  destruct (rd_reservation_date d) as [| | D]; try discriminate.
  destruct (rd_reservation_time d); try discriminate;
    (destruct (Reservation_objects_create st now _) as [[r1 st1] |] eqn:Hc;
     [| discriminate];
     apply Reservation_objects_create_spec in Hc;
     destruct Hc as (_ & _ & _ & _ & _ & _ & _ & _ & _ & _ & _ & Hdate & _);
     cbn [Reservation.reservation_date] in Hdate;
     destruct (minus_days D 2) as [t |] eqn:Hm; [| discriminate];
     apply minus_days_some in Hm; destruct Hm as [-> _];
     destruct (Reservation_save st1 _); [| discriminate];
     intros [= <- <-]; cbn; now rewrite Hdate).
Qed.

(** ** Tickets *)

Lemma ticket_is_valid_iff (k : UserTicket.t) (now : datetime) :
  UserTicket.is_valid k now = true
  <-> UserTicket.status k = TICKET_ACTIVE
      /\ (UserTicket.expires_at k = None
          \/ exists e, UserTicket.expires_at k = Some e /\ now <= e).
Proof.
  unfold UserTicket.is_valid.
  destruct (UserTicket.status k); cbn; try (split; [discriminate | intros [? _]; discriminate]).
  destruct (UserTicket.expires_at k) as [e |].
  - destruct (now >? e) eqn:E.
    + split; [discriminate |]. intros [_ [? | (e' & [= <-] & Hle)]]; [discriminate |].
      apply Z.gtb_lt in E. lia.
    + split; [| reflexivity]. intros _. split; [reflexivity |]. right. exists e.
      split; [reflexivity |]. rewrite Z.gtb_ltb in E. apply Z.ltb_ge in E. exact E.
  - split; [| reflexivity]. intros _. split; [reflexivity | now left].
Qed.

(** C7, as amended.  A ticket is valid iff it is ACTIVE and has no expiry or
    [now] is not after its expiry (the instant of expiry itself still counts
    as valid).  Using a valid ticket yields the same ticket with status
    USED, [used_at] and [used_for_reservation] stamped; that ticket is valid
    at no later time, so that using it again raises; and using a ticket that
    is not valid raises, nothing being written. *)
Theorem ticket_validity_and_single_use (k : UserTicket.t) (reservation : Z)
    (now : datetime) :
  (UserTicket.is_valid k now = true
   <-> UserTicket.status k = TICKET_ACTIVE
       /\ (UserTicket.expires_at k = None
           \/ exists e, UserTicket.expires_at k = Some e /\ now <= e))
  /\ (UserTicket.is_valid k now = true ->
      exists k',
        UserTicket.use_ticket k reservation now = Some k'
        /\ UserTicket.status k' = TICKET_USED
        /\ UserTicket.used_at k' = Some now
        /\ UserTicket.used_for_reservation k' = Some reservation
        /\ UserTicket.id k' = UserTicket.id k
        /\ UserTicket.user k' = UserTicket.user k
        /\ UserTicket.amount k' = UserTicket.amount k
        /\ UserTicket.source k' = UserTicket.source k
        /\ UserTicket.original_reservation k' = UserTicket.original_reservation k
        /\ UserTicket.expires_at k' = UserTicket.expires_at k
        /\ (forall reservation' later,
              UserTicket.use_ticket k' reservation' later = None))
  /\ (UserTicket.is_valid k now = false ->
      UserTicket.use_ticket k reservation now = None).
Proof.
  split; [apply ticket_is_valid_iff |]. split.
  - intros Hv. unfold UserTicket.use_ticket. rewrite Hv. cbn [negb].
    eexists. split; [reflexivity |]. cbn. repeat split; reflexivity.
  - intros Hv. unfold UserTicket.use_ticket. now rewrite Hv.
Qed.

(** C7, as stated, fails at the instant of expiry: the ticket is still
    valid there although [now] is not strictly before [expires_at]. *)
Lemma ticket_valid_at_expiry :
  let k := UserTicket.mk 1 1 1500 TICKET_ACTIVE CANCELLATION None None
             (at_time 2024 1 1 0 0 0) (Some (at_time 2024 6 30 0 0 0)) None "" in
  let now := at_time 2024 6 30 0 0 0 in
  UserTicket.is_valid k now = true
  /\ ~ (UserTicket.status k = TICKET_ACTIVE
        /\ (UserTicket.expires_at k = None
            \/ exists e, UserTicket.expires_at k = Some e /\ now < e)).
Proof.
  cbv zeta. split; [reflexivity |].
  intros [_ [H | (e & H & Hlt)]]; [discriminate |].
  cbn in H. injection H as <-. lia.
Qed.

(** ** Cancellation *)

Lemma startswith_nonempty (s p : string) :
  p <> "" -> startswith s p = true -> String.eqb s "" = false.
Proof.
  unfold startswith. destruct s; [| reflexivity].
  destruct p; [congruence | discriminate].
Qed.

Lemma was_paid_with_ticket_prefix (r : Reservation.t) :
  was_paid_with_ticket r = startswith (Reservation.stripe_payment_intent_id r) "ticket_".
Proof.
  unfold was_paid_with_ticket.
  destruct (startswith (Reservation.stripe_payment_intent_id r) "ticket_") eqn:E.
  - rewrite (startswith_nonempty _ "ticket_"); [reflexivity | discriminate | exact E].
  - apply andb_false_r.
Qed.

Lemma was_paid_with_subscription_prefix (r : Reservation.t) :
  was_paid_with_subscription r
  = startswith (Reservation.stripe_payment_intent_id r) "subscription_".
Proof.
  unfold was_paid_with_subscription.
  destruct (startswith (Reservation.stripe_payment_intent_id r) "subscription_") eqn:E.
  - rewrite (startswith_nonempty _ "subscription_"); [reflexivity | discriminate | exact E].
  - apply andb_false_r.
Qed.

Lemma Reservation_save_spec (st : State) (r : Reservation.t) (st' : State) :
  Reservation_save st r = Some st' ->
  exists r',
    Reservation.save r = Some r'
    /\ reservations st' = update_row Reservation.id r' (reservations st)
    /\ users st' = users st /\ tickets st' = tickets st
    /\ subscriptions st' = subscriptions st /\ invitations st' = invitations st
    /\ groups st' = groups st /\ memberships st' = memberships st.
Proof.
  unfold Reservation_save. destruct (Reservation.save r) as [r' |]; [| discriminate].
  intros [= <-]. exists r'. cbn. repeat split; reflexivity.
Qed.

Lemma Reservation_save_fields (r r' : Reservation.t) :
  Reservation.save r = Some r' ->
  Reservation.id r' = Reservation.id r
  /\ Reservation.user r' = Reservation.user r
  /\ Reservation.status r' = Reservation.status r
  /\ Reservation.reservation_date r' = Reservation.reservation_date r
  /\ Reservation.price_plan r' = Reservation.price_plan r
  /\ Reservation.price_amount r' = Reservation.price_amount r
  /\ Reservation.stripe_payment_intent_id r' = Reservation.stripe_payment_intent_id r
  /\ Reservation.paid_at r' = Reservation.paid_at r
  /\ Reservation.cancellation_deadline r' <> None.
Proof.
  unfold Reservation.save, Reservation.set_cancellation_deadline.
  destruct (Reservation.cancellation_deadline r) eqn:E.
  - intros [= <-]. rewrite E. repeat split; congruence.
  - destruct (Reservation.tuesday_before (Reservation.reservation_date r));
      [| discriminate].
    intros [= <-]. cbn. repeat split; congruence.
Qed.

(** What a successful cancellation went through. *)
Lemma cancel_ok_inversion (st : State) (u rid : Z) (now : datetime)
    (body : CancelBody) (st' : State) :
  ReservationCancelView_post st u rid now = (Ok body, st') ->
  exists r deadline st1,
    objects_get (fun r => (Reservation.id r =? rid) && (Reservation.user r =? u))
                (reservations st) = Found r
    /\ cancel_view_deadline r = Some deadline
    /\ now <= deadline
    /\ cancel_settlement st u r now = (body, st1)
    /\ Reservation_save st1 (Reservation.with_status r CANCELLED) = Some st'.
Proof.
  unfold ReservationCancelView_post.
  destruct (objects_get _ (reservations st)) as [r | |] eqn:Hg; try discriminate.
  destruct (cancel_view_deadline r) as [deadline |] eqn:Hd; [| discriminate].
  destruct (now >? deadline) eqn:E; [discriminate |].
  destruct (cancel_settlement st u r now) as [body1 st1] eqn:Hc.
  destruct (Reservation_save st1 _) as [st2 |] eqn:Hs; [| discriminate].
  intros [= <- <-]. exists r, deadline, st1.
  rewrite Z.gtb_ltb in E. apply Z.ltb_ge in E.
  split; [reflexivity |]. split; [exact Hd |]. split; [exact E |].
  split; [exact Hc | exact Hs].
Qed.

Lemma cancel_settlement_spec (st : State) (u : Z) (r : Reservation.t)
    (now : datetime) (body : CancelBody) (st1 : State) :
  cancel_settlement st u r now = (body, st1) ->
  users st1 = users st /\ reservations st1 = reservations st
  /\ invitations st1 = invitations st /\ groups st1 = groups st
  /\ memberships st1 = memberships st
  /\ ticket_created body
     = match Reservation.paid_at r with
       | Some _ => should_create_ticket r
       | None => false
       end
  /\ tickets st1 = (if ticket_created body
                    then tickets st ++ [replacement_ticket st u r now]
                    else tickets st)
  /\ subscriptions st1
     = match Reservation.paid_at r, was_paid_with_subscription r,
             subscription_holding st u r with
       | Some _, true, Some sub =>
           update_row UserSubscription.id
             (fst (UserSubscription.release_reservation sub)) (subscriptions st)
       | _, _, _ => subscriptions st
       end.
Proof.
  unfold cancel_settlement.
  destruct (Reservation.paid_at r); [| intros [= <- <-]; cbn; repeat split; reflexivity].
  destruct (was_paid_with_subscription r);
    destruct (subscription_holding st u r);
    destruct (should_create_ticket r);
    cbn; intros [= <- <-]; cbn; repeat split; reflexivity.
Qed.

(** C1, as amended.  For a cancellation that goes through, a replacement
    ticket is issued iff the reservation was paid, its price plan is
    ['TICKET'], and its settlement reference starts neither with ['ticket_']
    nor with ['subscription_'].  When issued, it is the one new row of the
    ticket table: ACTIVE, of the amount of the reservation, owned by the
    caller; otherwise the ticket table is unchanged.  When the reservation
    was paid with a ['subscription_'] reference, no ticket is issued, and the
    subscription of the caller that holds the reservation (the newest one if
    several do) ends with [current_reservation] null.  The reservation ends
    CANCELLED. *)
Theorem cancel_refund_policy (st : State) (u rid : Z) (now : datetime)
    (body : CancelBody) (st' : State) :
  ReservationCancelView_post st u rid now = (Ok body, st') ->
  exists r,
    objects_get (fun r => (Reservation.id r =? rid) && (Reservation.user r =? u))
                (reservations st) = Found r
    /\ (ticket_created body = true
        <-> Reservation.paid_at r <> None
            /\ Reservation.price_plan r = "TICKET"
            /\ startswith (Reservation.stripe_payment_intent_id r) "ticket_" = false
            /\ startswith (Reservation.stripe_payment_intent_id r) "subscription_" = false)
    /\ (ticket_created body = true ->
        exists k,
          tickets st' = tickets st ++ [k]
          /\ UserTicket.status k = TICKET_ACTIVE
          /\ UserTicket.amount k = Reservation.price_amount r
          /\ UserTicket.user k = u
          /\ UserTicket.source k = CANCELLATION
          /\ UserTicket.original_reservation k = Some (Reservation.id r)
          /\ ticket_amount body = Some (Reservation.price_amount r))
    /\ (ticket_created body = false -> tickets st' = tickets st)
    /\ (Reservation.paid_at r <> None ->
        startswith (Reservation.stripe_payment_intent_id r) "subscription_" = true ->
        ticket_created body = false
        /\ forall sub,
             subscription_holding st u r = Some sub ->
             In sub (subscriptions st)
             /\ (exists s, In s (subscriptions st')
                           /\ UserSubscription.id s = UserSubscription.id sub)
             /\ (forall s, In s (subscriptions st') ->
                           UserSubscription.id s = UserSubscription.id sub ->
                           UserSubscription.current_reservation s = None))
    /\ (forall r', In r' (reservations st') -> Reservation.id r' = rid ->
                   Reservation.status r' = CANCELLED).
Proof.
  intros H.
  destruct (cancel_ok_inversion _ _ _ _ _ _ H) as (r & deadline & st1 & Hg & Hd & Hle & Hc & Hs).
  exists r. split; [exact Hg |].
  destruct (cancel_settlement_spec _ _ _ _ _ _ Hc)
    as (_ & Hres1 & _ & _ & _ & Hflag & Htk & Hsub).
  destruct (Reservation_save_spec _ _ _ Hs)
    as (r' & Hsave & Hres' & _ & Htk' & Hsub' & _).
  destruct (Reservation_save_fields _ _ Hsave) as (Hid' & _ & Hst' & _).
  destruct (objects_get_found_in _ _ _ Hg) as [Hin Hp].
  apply andb_true_iff in Hp. destruct Hp as [Hrid Hu].
  apply Z.eqb_eq in Hrid, Hu.
  assert (Hiff : ticket_created body = true
                 <-> Reservation.paid_at r <> None
                     /\ Reservation.price_plan r = "TICKET"
                     /\ startswith (Reservation.stripe_payment_intent_id r) "ticket_" = false
                     /\ startswith (Reservation.stripe_payment_intent_id r) "subscription_" = false).
  { rewrite Hflag. unfold should_create_ticket, is_ticket_plan.
    rewrite was_paid_with_ticket_prefix, was_paid_with_subscription_prefix.
    destruct (Reservation.paid_at r).
    - rewrite !andb_true_iff, !negb_true_iff, String.eqb_eq.
      split; [intros [[? ?] ?] | intros (_ & ? & ? & ?)]; repeat split; try assumption.
      discriminate.
    - split; [discriminate | intros [? _]; congruence]. }
  split; [exact Hiff |].
  split.
  { intros Ht. rewrite Htk', Htk, Ht. eexists. split; [reflexivity |].
    cbn. repeat split; try reflexivity.
    unfold cancel_settlement in Hc.
    destruct (Reservation.paid_at r); [| injection Hc as <- _; discriminate].
    destruct (should_create_ticket r) eqn:Hsc.
    - destruct (UserTicket_objects_create _ _ _ _ _ _ _ _). injection Hc as <- _.
      reflexivity.
    - injection Hc as <- _. discriminate. }
  split.
  { intros Ht. rewrite Htk', Htk, Ht. reflexivity. }
  split.
  { intros Hpaid Hpre. split.
    - destruct (ticket_created body) eqn:Ht; [| reflexivity].
      destruct (proj1 Hiff eq_refl) as (_ & _ & _ & Hno). congruence.
    - intros sub Hhold.
      assert (Hinsub : In sub (subscriptions st)).
      { unfold subscription_holding in Hhold. apply newest_by_in in Hhold.
        apply filter_In in Hhold. tauto. }
      assert (Hcur : exists rid', UserSubscription.current_reservation sub = Some rid').
      { unfold subscription_holding in Hhold. apply newest_by_in in Hhold.
        apply filter_In in Hhold. destruct Hhold as [_ Hq].
        apply andb_true_iff in Hq. destruct Hq as [_ Hq].
        destruct (UserSubscription.current_reservation sub); [eauto | discriminate]. }
      destruct Hcur as [rid' Hcur].
      rewrite Hsub', Hsub, was_paid_with_subscription_prefix, Hpre, Hhold.
      destruct (Reservation.paid_at r); [| congruence].
      unfold UserSubscription.release_reservation. rewrite Hcur. cbn [fst].
      split; [exact Hinsub |]. split.
      + eexists. split; [eapply update_row_has; [exact Hinsub | reflexivity] | reflexivity].
      + intros s Hs' Hids. apply update_row_in in Hs'.
        destruct Hs' as [[-> _] | [_ Hne]]; [reflexivity |].
        cbn in Hne. contradiction. }
  intros r0 Hin0 Hid0. rewrite Hres', Hres1 in Hin0.
  apply update_row_in in Hin0. destruct Hin0 as [[-> _] | [_ Hne]].
  - rewrite Hst'. reflexivity.
  - rewrite Hid' in Hne. cbn in Hne. congruence.
Qed.

Lemma cancel_refund_policy_witness :
  let st := after_booking (ymd 2024 6 13) "TICKET" "pi_123" in
  let now := at_time 2024 6 10 10 0 0 in
  let body := mkCancelBody true (Some 1500) in
  let st' := snd (ReservationCancelView_post st 1 1 now) in
  ReservationCancelView_post st 1 1 now = (Ok body, st')
  /\ exists k,
       tickets st' = tickets st ++ [k]
       /\ UserTicket.status k = TICKET_ACTIVE
       /\ UserTicket.amount k = 1500.
Proof.
  cbv zeta.
  assert (H : ReservationCancelView_post
                (after_booking (ymd 2024 6 13) "TICKET" "pi_123") 1 1
                (at_time 2024 6 10 10 0 0)
              = (Ok (mkCancelBody true (Some 1500)),
                 snd (ReservationCancelView_post
                        (after_booking (ymd 2024 6 13) "TICKET" "pi_123") 1 1
                        (at_time 2024 6 10 10 0 0))))
    by (vm_compute; reflexivity).
  split; [exact H |].
  destruct (cancel_refund_policy _ _ _ _ _ _ H) as (r & Hg & _ & Hk & _).
  destruct (Hk eq_refl) as (k & Htk & Hst & Ham & _).
  exists k. split; [exact Htk |]. split; [exact Hst |].
  rewrite Ham. vm_compute in Hg. injection Hg as <-. reflexivity.
Defined.

(** C1, as stated, fails: a reservation paid directly (reference "pi_123",
    neither a ticket nor a subscription) under the plan "basic" is cancelled
    before the deadline and no ticket is issued. *)
Lemma paid_direct_booking_cancelled_without_ticket :
  let st := after_booking (ymd 2024 6 13) "basic" "pi_123" in
  let now := at_time 2024 6 10 10 0 0 in
  let st' := snd (ReservationCancelView_post st 1 1 now) in
  map Reservation.id (reservations st) = [1]
  /\ map Reservation.user (reservations st) = [1]
  /\ map Reservation.paid_at (reservations st) = [Some (at_time 2024 6 3 9 0 0)]
  /\ map Reservation.stripe_payment_intent_id (reservations st) = ["pi_123"]
  /\ startswith "pi_123" "ticket_" = false
  /\ startswith "pi_123" "subscription_" = false
  /\ map (fun r => Reservation.is_modifiable r now) (reservations st) = [true]
  /\ fst (ReservationCancelView_post st 1 1 now) = Ok (mkCancelBody false None)
  /\ map Reservation.status (reservations st') = [CANCELLED]
  /\ tickets st = []
  /\ tickets st' = [].
Proof. run_model. Qed.

(** Third scenario of the specification: a booking made through a
    subscription, cancelled before the deadline, issues no ticket and frees
    the slot of the subscription. *)
Example subscription_booking_cancelled :
  let st := after_subscription_booking (ymd 2024 6 13) in
  let st' := snd (ReservationCancelView_post st 1 1 (at_time 2024 6 10 10 0 0)) in
  map UserSubscription.current_reservation (subscriptions st) = [Some 1]
  /\ map Reservation.stripe_payment_intent_id (reservations st) = ["subscription_1"]
  /\ fst (ReservationCancelView_post st 1 1 (at_time 2024 6 10 10 0 0))
     = Ok (mkCancelBody false None)
  /\ map Reservation.status (reservations st') = [CANCELLED]
  /\ map UserSubscription.current_reservation (subscriptions st') = [None]
  /\ tickets st' = [].
Proof. run_model. Qed.

(** What the deadline check of the cancellation view does: it answers "deadline
    passed" exactly when [now] is after 23:59:00 two days before the event,
    and then writes nothing. *)
Lemma cancel_deadline_check (st : State) (u rid : Z) (now : datetime)
    (r : Reservation.t) (deadline : datetime) :
  objects_get (fun r => (Reservation.id r =? rid) && (Reservation.user r =? u))
              (reservations st) = Found r ->
  cancel_view_deadline r = Some deadline ->
  (fst (ReservationCancelView_post st u rid now) = Error 400 deadline_passed
   <-> deadline < now)
  /\ (deadline < now -> snd (ReservationCancelView_post st u rid now) = st).
Proof.
  intros Hg Hd. unfold ReservationCancelView_post. rewrite Hg, Hd.
  destruct (now >? deadline) eqn:E.
  - apply Z.gtb_lt in E. cbn. repeat split; auto.
  - rewrite Z.gtb_ltb in E. apply Z.ltb_ge in E.
    destruct (cancel_settlement st u r now) as [body st1].
    destruct (Reservation_save st1 _); cbn; (split; [split; [discriminate | lia] | lia]).
Qed.

Lemma cancel_rejected_leaves_state (st : State) (u rid : Z) (now : datetime) :
  fst (ReservationCancelView_post st u rid now) = Error 400 deadline_passed ->
  snd (ReservationCancelView_post st u rid now) = st.
Proof.
  unfold ReservationCancelView_post.
  destruct (objects_get _ (reservations st)) as [r | |]; try discriminate.
  destruct (cancel_view_deadline r) as [deadline |]; [| discriminate].
  destruct (now >? deadline); [reflexivity |].
  destruct (cancel_settlement st u r now) as [body st1].
  destruct (Reservation_save st1 _); discriminate.
Qed.

(** C3: the code departs from the specification.  User 1 holds a paid reservation
    for Friday 2024-06-14, stored by the booking view with
    [cancellation_deadline] Tuesday 2024-06-11 23:59:00.  On Wednesday
    2024-06-12 at 12:00 the stored deadline has passed and the reservation
    is no longer modifiable, yet the cancellation is accepted and the
    reservation becomes CANCELLED: the view checks against 23:59 two days
    before the event, here Wednesday 2024-06-12 23:59:00. *)
Theorem cancel_accepted_after_stored_deadline :
  let st := after_booking (ymd 2024 6 14) "basic" "pi_123" in
  let now := at_time 2024 6 12 12 0 0 in
  weekday (ymd 2024 6 14) = 4
  /\ map Reservation.status (reservations st) = [CONFIRMED]
  /\ map Reservation.cancellation_deadline (reservations st)
     = [Some (at_time 2024 6 11 23 59 0)]
  /\ at_time 2024 6 11 23 59 0 <= now
  /\ map (fun r => Reservation.is_modifiable r now) (reservations st) = [false]
  /\ map cancel_view_deadline (reservations st) = [Some (at_time 2024 6 12 23 59 0)]
  /\ fst (ReservationCancelView_post st 1 1 now) = Ok (mkCancelBody false None)
  /\ map Reservation.status
         (reservations (snd (ReservationCancelView_post st 1 1 now)))
     = [CANCELLED].
Proof. run_model. Qed.

(** At the very instant of the deadline the two disagree as well, even for
    a Thursday event: not modifiable, cancellation accepted. *)
Example cancel_accepted_at_deadline :
  let st := after_booking (ymd 2024 6 13) "basic" "pi_123" in
  let now := at_time 2024 6 11 23 59 0 in
  map Reservation.cancellation_deadline (reservations st) = [Some now]
  /\ map (fun r => Reservation.is_modifiable r now) (reservations st) = [false]
  /\ fst (ReservationCancelView_post st 1 1 now) = Ok (mkCancelBody false None).
Proof. run_model. Qed.

(** The deadline that the subscription view stores is the one of the
    cancellation view, not the Tuesday of [set_cancellation_deadline]: for
    Friday 2024-06-14 it is Wednesday 2024-06-12 23:59:00. *)
Example subscription_booking_deadline_friday :
  map Reservation.cancellation_deadline
      (reservations (after_subscription_booking (ymd 2024 6 14)))
  = [Some (at_time 2024 6 12 23 59 0)]
  /\ weekday (ymd 2024 6 12) = 2.
Proof. run_model. Qed.

(** ** Repeated cancellation *)

Lemma tuesday_before_after_view_deadline (D : date) (t : date) :
  minus_days D 2 = Some t -> exists tuesday, Reservation.tuesday_before D = Some tuesday.
Proof.
  intros H. apply minus_days_some in H. destruct H as [-> [Hlo Hhi]].
  unfold min_ordinal in Hlo.
  destruct (Z_le_gt_dec D max_ordinal) as [Hle | Hgt].
  - destruct (tuesday_before_spec D) as (tuesday & Ht & _); [lia | eauto].
  - assert (HD : D = max_ordinal + 1 \/ D = max_ordinal + 2) by lia.
    destruct HD as [-> | ->]; eexists; reflexivity.
Qed.

Lemma save_cancelled_succeeds (r : Reservation.t) (deadline : datetime) :
  cancel_view_deadline r = Some deadline ->
  exists r', Reservation.save (Reservation.with_status r CANCELLED) = Some r'.
Proof.
  unfold cancel_view_deadline.
  destruct (minus_days (Reservation.reservation_date r) 2) as [t |] eqn:Hm;
    [| discriminate].
  intros _. unfold Reservation.save, Reservation.set_cancellation_deadline.
  cbn [Reservation.cancellation_deadline Reservation.with_status
       Reservation.reservation_date].
  destruct (Reservation.cancellation_deadline r); [eauto |].
  destruct (tuesday_before_after_view_deadline _ _ Hm) as [tuesday ->]. eauto.
Qed.

(** One cancellation before the deadline of the view: it is answered with
    success whatever the status of the reservation, and the reservation it
    leaves can be cancelled again under the same conditions. *)
Lemma cancel_once (st : State) (u rid : Z) (now : datetime)
    (r : Reservation.t) (deadline : datetime) :
  NoDup (map Reservation.id (reservations st)) ->
  objects_get (fun r => (Reservation.id r =? rid) && (Reservation.user r =? u))
              (reservations st) = Found r ->
  cancel_view_deadline r = Some deadline ->
  now <= deadline ->
  exists body st' r',
    ReservationCancelView_post st u rid now = (Ok body, st')
    /\ NoDup (map Reservation.id (reservations st'))
    /\ objects_get (fun r => (Reservation.id r =? rid) && (Reservation.user r =? u))
                   (reservations st') = Found r'
    /\ Reservation.status r' = CANCELLED
    /\ cancel_view_deadline r' = Some deadline
    /\ Reservation.paid_at r' = Reservation.paid_at r
    /\ Reservation.price_plan r' = Reservation.price_plan r
    /\ Reservation.price_amount r' = Reservation.price_amount r
    /\ Reservation.stripe_payment_intent_id r' = Reservation.stripe_payment_intent_id r
    /\ body = fst (cancel_settlement st u r now)
    /\ tickets st' = tickets (snd (cancel_settlement st u r now)).
Proof.
  intros Hnd Hg Hd Hle.
  destruct (save_cancelled_succeeds r deadline Hd) as [r' Hsave].
  destruct (cancel_settlement st u r now) as [body st1] eqn:Hc.
  destruct (cancel_settlement_spec _ _ _ _ _ _ Hc) as (_ & Hres1 & _).
  exists body,
    (with_reservations st1 (update_row Reservation.id r' (reservations st1))), r'.
  destruct (Reservation_save_fields _ _ Hsave)
    as (Hid & Hu & Hst & Hdate & Hplan & Ham & Href & Hpaid & _).
  cbn in Hid, Hu, Hst, Hdate, Hplan, Ham, Href, Hpaid.
  destruct (objects_get_found_in _ _ _ Hg) as [Hin Hp].
  apply andb_true_iff in Hp. destruct Hp as [Hrid Huser].
  apply Z.eqb_eq in Hrid, Huser.
  split.
  { unfold ReservationCancelView_post. rewrite Hg, Hd.
    assert (E : (now >? deadline) = false)
      by (rewrite Z.gtb_ltb; apply Z.ltb_ge; exact Hle).
    rewrite E, Hc. unfold Reservation_save. rewrite Hsave. reflexivity. }
  cbn [reservations with_reservations]. rewrite Hres1.
  split; [rewrite update_row_pks; exact Hnd |].
  split.
  { unfold objects_get. rewrite filter_update_row_same; [reflexivity | exact Hnd | | |].
    - intros x Hx. apply andb_true_iff in Hx. destruct Hx as [Hx _].
      apply Z.eqb_eq in Hx. congruence.
    - apply andb_true_iff. split; apply Z.eqb_eq; congruence.
    - rewrite Hid. now apply in_map. }
  split; [exact Hst |].
  split; [unfold cancel_view_deadline in *; rewrite Hdate; exact Hd |].
  repeat split; try assumption; reflexivity.
Qed.

Lemma cancel_settlement_direct_ticket (st : State) (u : Z) (r : Reservation.t)
    (now : datetime) :
  Reservation.paid_at r <> None ->
  Reservation.price_plan r = "TICKET" ->
  startswith (Reservation.stripe_payment_intent_id r) "ticket_" = false ->
  startswith (Reservation.stripe_payment_intent_id r) "subscription_" = false ->
  fst (cancel_settlement st u r now)
  = mkCancelBody true (Some (Reservation.price_amount r))
  /\ tickets (snd (cancel_settlement st u r now))
     = tickets st ++ [replacement_ticket st u r now].
Proof.
  intros Hpaid Hplan Hnt Hns. unfold cancel_settlement.
  destruct (Reservation.paid_at r); [| congruence].
  unfold should_create_ticket, is_ticket_plan.
  rewrite was_paid_with_ticket_prefix, was_paid_with_subscription_prefix.
  rewrite Hplan, Hnt, Hns. cbn. split; reflexivity.
Qed.

(** C10.  The cancellation view looks at no status: a reservation found for
    the caller, whatever its status (CANCELLED and COMPLETED included), is
    cancelled with success as long as the deadline of the view has not
    passed.  When the reservation is paid, of plan ['TICKET'], with a
    reference that is neither a ticket nor a subscription, [n] cancellation
    requests in a row are all answered with success and a created ticket,
    and leave [n] further tickets, each ACTIVE and of the full price. *)
Theorem cancel_has_no_status_guard (st : State) (u rid : Z) (now : datetime)
    (r : Reservation.t) (deadline : datetime) :
  NoDup (map Reservation.id (reservations st)) ->
  objects_get (fun r => (Reservation.id r =? rid) && (Reservation.user r =? u))
              (reservations st) = Found r ->
  cancel_view_deadline r = Some deadline ->
  now <= deadline ->
  (exists body st', ReservationCancelView_post st u rid now = (Ok body, st'))
  /\ (Reservation.paid_at r <> None ->
      Reservation.price_plan r = "TICKET" ->
      startswith (Reservation.stripe_payment_intent_id r) "ticket_" = false ->
      startswith (Reservation.stripe_payment_intent_id r) "subscription_" = false ->
      forall n,
      exists issued,
        fst (cancel_repeatedly n st u rid now)
        = repeat (Ok (mkCancelBody true (Some (Reservation.price_amount r)))) n
        /\ tickets (snd (cancel_repeatedly n st u rid now)) = tickets st ++ issued
        /\ List.length issued = n
        /\ Forall (fun k => UserTicket.status k = TICKET_ACTIVE
                            /\ UserTicket.amount k = Reservation.price_amount r
                            /\ UserTicket.user k = u) issued).
Proof.
  intros Hnd Hg Hd Hle. split.
  { destruct (cancel_once st u rid now r deadline Hnd Hg Hd Hle)
      as (body & st' & _ & H & _). eauto. }
  intros Hpaid Hplan Hnt Hns n.
  revert st r Hnd Hg Hd Hpaid Hplan Hnt Hns.
  induction n as [| n IH]; intros st r Hnd Hg Hd Hpaid Hplan Hnt Hns.
  - exists []. cbn. rewrite app_nil_r. repeat split. constructor.
  - destruct (cancel_once st u rid now r deadline Hnd Hg Hd Hle)
      as (body & st1 & r1 & Hc & Hnd1 & Hg1 & _ & Hd1 & Hpaid1 & Hplan1 & Ham1
          & Href1 & Hbody & Htk).
    destruct (cancel_settlement_direct_ticket st u r now Hpaid Hplan Hnt Hns)
      as [Hfst Hsnd].
    rewrite Hfst in Hbody. rewrite Hsnd in Htk.
    destruct (IH st1 r1 Hnd1 Hg1 Hd1) as (issued & Hresp & Htks & Hlen & Hall);
      try congruence.
    exists (replacement_ticket st u r now :: issued).
    cbn [cancel_repeatedly]. rewrite Hc.
    destruct (cancel_repeatedly n st1 u rid now) as [responses st2].
    cbn [fst snd] in *. split.
    { cbn [repeat]. rewrite Hresp, Ham1, Hbody. reflexivity. }
    split; [rewrite Htks, Htk, <- app_assoc; reflexivity |].
    split; [cbn; now rewrite Hlen |].
    constructor; [cbn; now repeat split |].
    rewrite Ham1 in Hall. exact Hall.
Qed.

Lemma cancel_has_no_status_guard_witness :
  let st := cancelled_ticket_booking in
  let now := at_time 2024 6 10 10 0 0 in
  map Reservation.status (reservations st) = [CANCELLED]
  /\ List.length (tickets st) = 1%nat
  /\ exists issued,
       fst (cancel_repeatedly 3 st 1 1 now)
       = repeat (Ok (mkCancelBody true (Some 1500))) 3
       /\ tickets (snd (cancel_repeatedly 3 st 1 1 now)) = tickets st ++ issued
       /\ List.length issued = 3%nat
       /\ Forall (fun k => UserTicket.status k = TICKET_ACTIVE
                           /\ UserTicket.amount k = 1500
                           /\ UserTicket.user k = 1) issued.
Proof.
  cbv zeta. split; [vm_compute; reflexivity |]. split; [vm_compute; reflexivity |].
  assert (Hnd : NoDup (map Reservation.id (reservations cancelled_ticket_booking)))
    by (vm_compute; constructor; [intros [] | constructor]).
  assert (Hg : objects_get
                 (fun r => (Reservation.id r =? 1) && (Reservation.user r =? 1))
                 (reservations cancelled_ticket_booking)
               = Found (hd (booking 0 0 "" 0 "") (reservations cancelled_ticket_booking)))
    by (vm_compute; reflexivity).
  assert (Hd : cancel_view_deadline
                 (hd (booking 0 0 "" 0 "") (reservations cancelled_ticket_booking))
               = Some (at_time 2024 6 11 23 59 0))
    by (vm_compute; reflexivity).
  assert (Hle : at_time 2024 6 10 10 0 0 <= at_time 2024 6 11 23 59 0)
    by (vm_compute; discriminate).
  destruct (cancel_has_no_status_guard _ _ _ _ _ _ Hnd Hg Hd Hle) as [_ H].
  assert (Hpaid : Reservation.paid_at
                    (hd (booking 0 0 "" 0 "") (reservations cancelled_ticket_booking))
                  <> None) by (vm_compute; discriminate).
  assert (Hplan : Reservation.price_plan
                    (hd (booking 0 0 "" 0 "") (reservations cancelled_ticket_booking))
                  = "TICKET") by (vm_compute; reflexivity).
  assert (Hnt : startswith
                  (Reservation.stripe_payment_intent_id
                     (hd (booking 0 0 "" 0 "") (reservations cancelled_ticket_booking)))
                  "ticket_" = false) by (vm_compute; reflexivity).
  assert (Hns : startswith
                  (Reservation.stripe_payment_intent_id
                     (hd (booking 0 0 "" 0 "") (reservations cancelled_ticket_booking)))
                  "subscription_" = false) by (vm_compute; reflexivity).
  destruct (H Hpaid Hplan Hnt Hns 3%nat) as (issued & H1 & H2 & H3 & H4).
  assert (Ham : Reservation.price_amount
                  (hd (booking 0 0 "" 0 "") (reservations cancelled_ticket_booking))
                = 1500) by (vm_compute; reflexivity).
  rewrite Ham in H1, H4.
  exists issued. repeat apply conj; assumption.
Defined.

(** ** Friend invitations *)

Lemma invitation_is_valid_iff (i : FriendInvitation.t) (now : datetime) :
  FriendInvitation.is_valid i now = true
  <-> FriendInvitation.status i = INV_PENDING /\ now < FriendInvitation.expires_at i.
Proof.
  unfold FriendInvitation.is_valid.
  destruct (FriendInvitation.status i);
    try (split; [discriminate | intros [? _]; discriminate]).
  rewrite Z.ltb_lt. tauto.
Qed.

(** The expiry that [create_invitation] writes: 59 seconds past midnight of
    the day of the event. *)
Lemma create_invitation_expires_at (table : list FriendInvitation.t) (inv : Z)
    (email : string) (res : Reservation.t) (msg token : string) (now : datetime)
    (i : FriendInvitation.t) (table' : list FriendInvitation.t) :
  FriendInvitation.create_invitation table inv email res msg token now
    = Returns (i, table') ->
  FriendInvitation.expires_at i = combine (Reservation.reservation_date res) 0 0 59
  /\ FriendInvitation.status i = INV_PENDING
  /\ FriendInvitation.invited_user i = None
  /\ table' = table ++ [i].
Proof.
  unfold FriendInvitation.create_invitation.
  destruct (minus_days (Reservation.reservation_date res) 1) as [tuesday |] eqn:Hm;
    [| discriminate].
  apply minus_days_some in Hm. destruct Hm as [-> _].
  destruct (now >? _); [discriminate |].
  destruct (FriendInvitation.violates_unique _ _ _ _ _); [discriminate |].
  intros [= <- <-]. cbn. repeat split.
  unfold plus_minutes, combine, day, hour, minute, second. lia.
Qed.

(** Accepting an invitation that is not valid (not PENDING, or at or after
    [expires_at]) is refused and writes nothing: no user is bound. *)
Lemma accept_invalid_rejected (st : State) (token : string) (req : AcceptRequest)
    (now : datetime) (i : FriendInvitation.t) :
  objects_get (fun i => String.eqb (FriendInvitation.invitation_token i) token)
              (invitations st) = Found i ->
  FriendInvitation.is_valid i now = false ->
  AcceptInvitationView_post st token req now = (Error 400 invitation_expired, st).
Proof.
  intros Hg Hv. unfold AcceptInvitationView_post. now rewrite Hg, Hv.
Qed.

Lemma accept_after_expiry_rejected (st : State) (token : string)
    (req : AcceptRequest) (now : datetime) (i : FriendInvitation.t) :
  objects_get (fun i => String.eqb (FriendInvitation.invitation_token i) token)
              (invitations st) = Found i ->
  FriendInvitation.expires_at i <= now ->
  AcceptInvitationView_post st token req now = (Error 400 invitation_expired, st).
Proof.
  intros Hg Hle. apply (accept_invalid_rejected st token req now i Hg).
  destruct (FriendInvitation.is_valid i now) eqn:E; [| reflexivity].
  apply invitation_is_valid_iff in E. lia.
Qed.

(** C5: the code departs from the specification.  For the booking of Thursday
    2024-06-13 the invitation created on Monday 2024-06-10 expires on
    Thursday 2024-06-13 at 00:00:59, not on Wednesday 2024-06-12 at 00:00.
    On Wednesday at 23:00, after the expiry that the specification gives, the
    invitation is still valid, the acceptance goes through, and the friend
    (user 2) is bound to the invitation, now ACCEPTED. *)
Theorem invitation_expires_on_event_day :
  let now := at_time 2024 6 12 23 0 0 in
  let st' := snd (AcceptInvitationView_post after_invitation friend_token
                    friend_request now) in
  weekday (ymd 2024 6 13) = 3
  /\ weekday (ymd 2024 6 12) = 2
  /\ map FriendInvitation.expires_at (invitations after_invitation)
     = [at_time 2024 6 13 0 0 59]
  /\ at_time 2024 6 12 0 0 0 < now < at_time 2024 6 13 0 0 59
  /\ map (fun i => FriendInvitation.is_valid i now) (invitations after_invitation)
     = [true]
  /\ fst (AcceptInvitationView_post after_invitation friend_token friend_request now)
     = Ok 2
  /\ map FriendInvitation.status (invitations st') = [INV_ACCEPTED]
  /\ map FriendInvitation.invited_user (invitations st') = [Some 2].
Proof. run_model. Qed.

(** Even for an event on a Wednesday, where the day before is the Tuesday
    of the comments of [create_invitation], the expiry falls 59 seconds
    after the Wednesday 00:00 that they announce. *)
Example invitation_expiry_wednesday_event :
  weekday (ymd 2024 6 12) = 2
  /\ FriendInvitation.create_invitation [] 1 "friend@example.com"
       (booking 1 (ymd 2024 6 12) "basic" 1500 "pi_123") "" friend_token
       (at_time 2024 6 10 10 0 0)
     = Returns (FriendInvitation.mk 1 1 "friend@example.com" None friend_token 0
                  INV_PENDING "" (at_time 2024 6 10 10 0 0)
                  (at_time 2024 6 12 0 0 59) None None,
                [FriendInvitation.mk 1 1 "friend@example.com" None friend_token 0
                   INV_PENDING "" (at_time 2024 6 10 10 0 0)
                   (at_time 2024 6 12 0 0 59) None None]).
Proof. run_model. Qed.

(** ** Reservation of the invited user *)

(** C6, as amended.  For a user with exactly one ACCEPTED invitation, whose
    inviter's reservation is on a date from 0001-01-03 on, the view creates
    exactly one new reservation: PENDING, unpaid, owned by that user, with
    the activity, description, date, time, venue, price plan, price amount
    and currency of the inviter's reservation; the invitation ends USED;
    and every later call by the same user is answered 404 "no accepted
    invitation" (not the 400 of an unusable invitation) and writes
    nothing. *)
Theorem invited_reservation_single_use (st : State) (u : Z) (now : datetime)
    (invitation : FriendInvitation.t) (original : Reservation.t) :
  objects_get (accepted_for u) (invitations st) = Found invitation ->
  find (fun r => Reservation.id r =? FriendInvitation.reservation invitation)
       (reservations st) = Some original ->
  3 <= Reservation.reservation_date original <= max_ordinal ->
  exists r st1,
    ProcessInvitedUserView_post st u now = (Ok r, st1)
    /\ reservations st1 = reservations st ++ [r]
    /\ Reservation.user r = u
    /\ Reservation.status r = PENDING
    /\ Reservation.paid_at r = None
    /\ Reservation.activity_name r = Reservation.activity_name original
    /\ Reservation.activity_description r = Reservation.activity_description original
    /\ Reservation.reservation_date r = Reservation.reservation_date original
    /\ Reservation.reservation_time r = Reservation.reservation_time original
    /\ Reservation.venue_name r = Reservation.venue_name original
    /\ Reservation.venue_address r = Reservation.venue_address original
    /\ Reservation.price_plan r = Reservation.price_plan original
    /\ Reservation.price_amount r = Reservation.price_amount original
    /\ Reservation.currency r = Reservation.currency original
    /\ invitations st1
       = update_row FriendInvitation.id
           (FriendInvitation.mark_as_used invitation now) (invitations st)
    /\ In (FriendInvitation.mark_as_used invitation now) (invitations st1)
    /\ (forall i, In i (invitations st1) ->
                  FriendInvitation.id i = FriendInvitation.id invitation ->
                  FriendInvitation.status i = INV_USED)
    /\ (forall later,
          ProcessInvitedUserView_post st1 u later
          = (Error 404 no_accepted_invitation, st1)).
Proof.
  intros Hg Hfind HD.
  destruct (objects_get_found_in _ _ _ Hg) as [Hin Hacc].
  assert (Hcan : FriendInvitation.can_be_used invitation = true).
  { unfold accepted_for in Hacc. unfold FriendInvitation.can_be_used.
    destruct (FriendInvitation.invited_user invitation); [| discriminate].
    destruct (FriendInvitation.status invitation);
      rewrite ?andb_false_r in Hacc; try discriminate; reflexivity. }
  destruct (tuesday_before_spec _ HD) as (tuesday & Htue & _).
  set (fields := Reservation.mk 0 u
                   (Reservation.activity_name original)
                   (Reservation.activity_description original)
                   (Reservation.reservation_date original)
                   (Reservation.reservation_time original)
                   (Reservation.venue_name original)
                   (Reservation.venue_address original)
                   (Reservation.price_plan original)
                   (Reservation.price_amount original)
                   (Reservation.currency original)
                   PENDING "" None 1 "" now None).
  destruct (Reservation_objects_create_total st now fields tuesday eq_refl Htue)
    as (r & st1 & Hc & _).
  pose proof (Reservation_objects_create_spec _ _ _ _ _ Hc) as Hs.
  cbn [fields Reservation.user Reservation.activity_name
       Reservation.activity_description Reservation.reservation_date
       Reservation.reservation_time Reservation.venue_name Reservation.venue_address
       Reservation.price_plan Reservation.price_amount Reservation.currency
       Reservation.status Reservation.paid_at
       Reservation.stripe_payment_intent_id Reservation.participants_count] in Hs.
  destruct Hs as (Hres & _ & _ & _ & Hinv & _ & _ & _ & Hu & Hact & Hdesc & Hdate
                  & Htime & Hvn & Hva & Hplan & Ham & Hcur & Hst & _ & Hpaid & _).
  exists r, (with_invitations st1
               (update_row FriendInvitation.id
                  (FriendInvitation.mark_as_used invitation now) (invitations st1))).
  split.
  { unfold ProcessInvitedUserView_post. rewrite Hg, Hcan, Hfind. cbn [negb].
    fold fields. rewrite Hc. reflexivity. }
  cbn [reservations invitations with_invitations]. rewrite Hinv.
  assert (Hnone : filter (accepted_for u)
                    (update_row FriendInvitation.id
                       (FriendInvitation.mark_as_used invitation now)
                       (invitations st)) = []).
  { apply filter_update_row_none.
    - intros i Hi Hp.
      assert (Hi' : In i (filter (accepted_for u) (invitations st)))
        by (apply filter_In; now split).
      rewrite (objects_get_found _ _ _ Hg) in Hi'.
      destruct Hi' as [<- | []]. reflexivity.
    - unfold accepted_for. cbn. apply andb_false_r. }
  repeat split; try assumption.
  - eapply update_row_has; [exact Hin | reflexivity].
  - intros i Hi Hid. apply update_row_in in Hi.
    destruct Hi as [[-> _] | [_ Hne]]; [reflexivity |].
    cbn in Hne. contradiction.
  - intros later. unfold ProcessInvitedUserView_post, objects_get.
    cbn [invitations with_invitations]. rewrite Hnone. reflexivity.
Qed.

Lemma invited_reservation_single_use_witness :
  let now := at_time 2024 6 10 12 0 0 in
  exists r st1,
    ProcessInvitedUserView_post after_acceptance 2 now = (Ok r, st1)
    /\ Reservation.status r = PENDING
    /\ Reservation.user r = 2
    /\ Reservation.activity_name r = "Bowling"
    /\ Reservation.reservation_date r = ymd 2024 6 13
    /\ Reservation.price_amount r = 1500
    /\ In (FriendInvitation.mark_as_used accepted_invitation now) (invitations st1)
    /\ ProcessInvitedUserView_post st1 2 (at_time 2024 6 10 12 5 0)
       = (Error 404 no_accepted_invitation, st1).
Proof.
  cbv zeta.
  assert (Hg : objects_get (accepted_for 2) (invitations after_acceptance)
               = Found accepted_invitation) by (vm_compute; reflexivity).
  assert (Hf : find (fun r => Reservation.id r
                              =? FriendInvitation.reservation accepted_invitation)
                    (reservations after_acceptance)
               = Some alice_booking) by (vm_compute; reflexivity).
  assert (HD : 3 <= Reservation.reservation_date alice_booking <= max_ordinal)
    by (vm_compute; split; discriminate).
  destruct (invited_reservation_single_use after_acceptance 2
              (at_time 2024 6 10 12 0 0) accepted_invitation alice_booking
              Hg Hf HD)
    as (r & st1 & Hp & _ & Hu & Hst & _ & Hact & _ & Hdate & _ & _ & _ & _
        & Ham & _ & _ & Hin & _ & Hlater).
  exists r, st1. split; [exact Hp |].
  split; [exact Hst |]. split; [exact Hu |].
  split; [rewrite Hact; reflexivity |].
  split; [rewrite Hdate; reflexivity |].
  split; [rewrite Ham; reflexivity |].
  split; [exact Hin |].
  apply Hlater.
Defined.

(** C6, as stated, fails on the kind of the second failure: once the only
    invitation of user 2 is USED, a second call finds no ACCEPTED invitation
    and is answered 404 "not found"; the 400 of the [can_be_used] check is
    not what comes back. *)
Lemma second_materialize_is_not_found :
  let st1 := snd (ProcessInvitedUserView_post after_acceptance 2
                    (at_time 2024 6 10 12 0 0)) in
  let second := ProcessInvitedUserView_post st1 2 (at_time 2024 6 10 12 5 0) in
  map FriendInvitation.status (invitations after_acceptance) = [INV_ACCEPTED]
  /\ map FriendInvitation.invited_user (invitations after_acceptance) = [Some 2]
  /\ map Reservation.status (reservations st1) = [CONFIRMED; PENDING]
  /\ map FriendInvitation.status (invitations st1) = [INV_USED]
  /\ fst second = Error 404 no_accepted_invitation
  /\ fst second <> Error 400 invitation_unusable
  /\ snd second = st1.
Proof. run_model. Qed.

(** ** Payment confirmation *)

Lemma Reservation_objects_create_again (st : State) (now : datetime)
    (fields r : Reservation.t) (st' : State) :
  Reservation_objects_create st now fields = Some (r, st') ->
  forall st2 now2 fields2,
    Reservation.reservation_date fields2 = Reservation.reservation_date fields ->
    Reservation.cancellation_deadline fields2 = Reservation.cancellation_deadline fields ->
    exists r2 st2', Reservation_objects_create st2 now2 fields2 = Some (r2, st2').
Proof.
  intros H st2 now2 fields2 Hdate Hdl. revert H.
  unfold Reservation_objects_create, Reservation.save,
    Reservation.set_cancellation_deadline. cbv zeta.
  cbn [Reservation.cancellation_deadline Reservation.reservation_date].
  rewrite Hdl, Hdate.
  destruct (Reservation.cancellation_deadline fields); [eauto |].
  destruct (Reservation.tuesday_before (Reservation.reservation_date fields));
    [eauto | discriminate].
Qed.

Lemma reservation_of_data_fields (u : Z) (d : ReservationData) (D : date)
    (ref : string) (now : datetime) (fields : Reservation.t) :
  reservation_of_data u d D ref now = Some fields ->
  Reservation.user fields = u
  /\ Reservation.status fields = CONFIRMED
  /\ Reservation.paid_at fields = Some now
  /\ Reservation.stripe_payment_intent_id fields = ref
  /\ Reservation.reservation_date fields = D
  /\ Reservation.cancellation_deadline fields = None
  /\ (forall now2, exists fields2,
        reservation_of_data u d D ref now2 = Some fields2
        /\ Reservation.price_amount fields2 = Reservation.price_amount fields).
Proof.
  unfold reservation_of_data.
  destruct (rd_reservation_time d), (rd_activity_name d), (rd_price_plan d),
    (rd_price_amount d); try discriminate;
    intros [= <-]; cbn; repeat split; intros now2; eexists; split; reflexivity.
Qed.

(** A successful call of the view outside the legacy flow stores one more
    reservation, CONFIRMED and paid, and, in the local flow with the plan
    ['ticket'], one more ACTIVE ticket. *)
Lemma confirm_creating_call (stripe : string -> option PaymentIntent)
    (st : State) (u : Z) (req : ConfirmRequest) (now : datetime)
    (r : Reservation.t) (st' : State) :
  legacy_flow req = false ->
  ConfirmPaymentView_post stripe st u req now = (Ok r, st') ->
  reservations st' = reservations st ++ [r]
  /\ Reservation.id r = fresh_id (map Reservation.id (reservations st))
  /\ Reservation.status r = CONFIRMED
  /\ Reservation.user r = u
  /\ Reservation.paid_at r = Some now
  /\ (issues_ticket req = true ->
      exists k, tickets st' = tickets st ++ [k]
                /\ UserTicket.status k = TICKET_ACTIVE
                /\ UserTicket.user k = u)
  /\ (issues_ticket req = false -> tickets st' = tickets st).
Proof.
  unfold ConfirmPaymentView_post, legacy_flow, issues_ticket. cbv zeta.
  destruct (negb (truthy (payment_intent_id req))); [discriminate |].
  destruct (dev_mode req); cbn [andb].
  - destruct (reservation_data req) as [d |]; [intros _ | discriminate].
    destruct (rd_reservation_date d) as [| | D]; try discriminate.
    destruct (reservation_of_data u d D _ now) as [fields |] eqn:Hf; [| discriminate].
    destruct (Reservation_objects_create st now fields) as [[r1 st1] |] eqn:Hc;
      [| discriminate].
    destruct (reservation_of_data_fields _ _ _ _ _ _ Hf)
      as (Hu & Hst & Hpaid & _ & _ & _ & _).
    destruct (Reservation_objects_create_spec _ _ _ _ _ Hc)
      as (Hres & _ & Htk & _ & _ & _ & _ & Hid & Hu1 & _ & _ & _ & _ & _ & _ & _
          & _ & _ & Hst1 & _ & Hpaid1 & _).
    destruct (match rd_price_plan d with
              | Some plan => String.eqb plan "ticket"
              | None => false
              end).
    + destruct (UserTicket_objects_create st1 now u _ REFUND None _ _) as [k st2]
        eqn:Hk.
      intros [= <- <-].
      destruct (request_user_update_subscription_status_frame st2 u now)
        as (-> & -> & _).
      unfold UserTicket_objects_create in Hk. injection Hk as <- <-.
      cbn [reservations tickets with_tickets].
      repeat split; try congruence.
      intros _. eexists. rewrite Htk. split; [reflexivity |]. split; reflexivity.
    + intros [= <- <-]. repeat split; congruence.
  - intros _. destruct (stripe _) as [intent |]; [| discriminate].
    destruct (negb (String.eqb (intent_status intent) "succeeded")); [discriminate |].
    destruct (meta_reservation_date intent) as [| | D]; try discriminate.
    destruct (Reservation_objects_create st now _) as [[r1 st1] |] eqn:Hc;
      [| discriminate].
    destruct (Reservation_objects_create_spec _ _ _ _ _ Hc)
      as (Hres & _ & Htk & _ & _ & _ & _ & Hid & Hu1 & _ & _ & _ & _ & _ & _ & _
          & _ & _ & Hst1 & _ & Hpaid1 & _).
    cbn in Hu1, Hst1, Hpaid1.
    intros [= <- <-]. repeat split; congruence.
Qed.

(** Whether a call outside the legacy flow succeeds does not depend on the
    state nor on the time. *)
Lemma confirm_creating_again (stripe : string -> option PaymentIntent)
    (st : State) (u : Z) (req : ConfirmRequest) (now : datetime)
    (r : Reservation.t) (st' : State) :
  legacy_flow req = false ->
  ConfirmPaymentView_post stripe st u req now = (Ok r, st') ->
  forall st2 now2,
  exists r2 st2', ConfirmPaymentView_post stripe st2 u req now2 = (Ok r2, st2').
Proof.
  intros Hleg H st2 now2. revert Hleg H.
  unfold ConfirmPaymentView_post, legacy_flow. cbv zeta.
  destruct (negb (truthy (payment_intent_id req))); [discriminate |].
  destruct (dev_mode req); cbn [andb].
  - destruct (reservation_data req) as [d |]; [intros _ | discriminate].
    destruct (rd_reservation_date d) as [| | D]; try discriminate.
    destruct (reservation_of_data u d D _ now) as [fields |] eqn:Hf; [| discriminate].
    destruct (Reservation_objects_create st now fields) as [[r1 st1] |] eqn:Hc;
      [| discriminate].
    intros _.
    destruct (reservation_of_data_fields _ _ _ _ _ _ Hf)
      as (_ & _ & _ & _ & Hdate & Hdl & Hagain).
    destruct (Hagain now2) as (fields2 & Hf2 & _).
    destruct (reservation_of_data_fields _ _ _ _ _ _ Hf2)
      as (_ & _ & _ & _ & Hdate2 & Hdl2 & _).
    destruct (Reservation_objects_create_again _ _ _ _ _ Hc st2 now2 fields2)
      as (r2 & st2' & Hc2); [congruence | congruence |].
    rewrite Hf2, Hc2.
    destruct (match rd_price_plan d with
              | Some plan => String.eqb plan "ticket"
              | None => false
              end).
    + destruct (UserTicket_objects_create st2' now2 u _ REFUND None _ _) as [k st3].
      eauto.
    + eauto.
  - intros _. destruct (stripe _) as [intent |]; [| discriminate].
    destruct (negb (String.eqb (intent_status intent) "succeeded")); [discriminate |].
    destruct (meta_reservation_date intent) as [| | D]; try discriminate.
    destruct (Reservation_objects_create st now _) as [[r1 st1] |] eqn:Hc;
      [| discriminate].
    intros _.
    edestruct (Reservation_objects_create_again _ _ _ _ _ Hc st2 now2)
      as (r2 & st2' & Hc2); [| | rewrite Hc2; eauto]; reflexivity.
Qed.

(** In the legacy flow, for a user with exactly one PENDING reservation, a
    second call finds nothing to confirm and leaves the state as the first
    call left it. *)
Lemma confirm_legacy_second_call (stripe : string -> option PaymentIntent)
    (st : State) (u : Z) (req : ConfirmRequest) (now1 now2 : datetime)
    (r0 r1 : Reservation.t) (st1 : State) :
  legacy_flow req = true ->
  objects_get (is_pending_of u) (reservations st) = Found r0 ->
  ConfirmPaymentView_post stripe st u req now1 = (Ok r1, st1) ->
  ConfirmPaymentView_post stripe st1 u req now2
  = (Error 404 no_pending_reservation, st1).
Proof.
  intros Hleg Hg. unfold legacy_flow in Hleg.
  apply andb_true_iff in Hleg. destruct Hleg as [Hdev Hdata].
  unfold ConfirmPaymentView_post. cbv zeta.
  destruct (negb (truthy (payment_intent_id req))); [discriminate |].
  rewrite Hdev. destruct (reservation_data req); [discriminate |].
  rewrite Hg.
  destruct (Reservation_save st _) as [st1' |] eqn:Hs; [| discriminate].
  intros [= <- <-].
  destruct (Reservation_save_spec _ _ _ Hs) as (r' & Hsave & Hres & _).
  destruct (Reservation_save_fields _ _ Hsave) as (Hid & Hu & Hst & _).
  cbn [Reservation.with_payment Reservation.id Reservation.status] in Hid, Hst.
  assert (Hnone : filter (is_pending_of u) (reservations st1') = []).
  { rewrite Hres. apply filter_update_row_none.
    - intros x Hx Hp.
      assert (Hx' : In x (filter (is_pending_of u) (reservations st)))
        by (apply filter_In; now split).
      rewrite (objects_get_found _ _ _ Hg) in Hx'.
      destruct Hx' as [<- | []]. congruence.
    - unfold is_pending_of. rewrite Hst. cbn. apply andb_false_r. }
  unfold objects_get. rewrite Hnone. reflexivity.
Qed.

(** C4, as amended.  After a successful confirmation, a second call with the
    same reference and the same payload:
    - outside the legacy flow (the request carries a [reservation_data]
      that is not empty, or it goes through Stripe) succeeds again and stores
      a second CONFIRMED reservation of the caller under a new primary key,
      and, in the local flow with the plan ['ticket'], a second ACTIVE
      ticket: the state is not the one the first call left;
    - in the legacy flow (local development, [reservation_data] absent,
      [null] or the empty dictionary), for a caller who had exactly one
      PENDING reservation, is answered 404 "no pending reservation" and
      leaves the state exactly as the first call left it. *)
Theorem confirm_payment_twice (stripe : string -> option PaymentIntent)
    (st : State) (u : Z) (req : ConfirmRequest) (now1 now2 : datetime)
    (r1 : Reservation.t) (st1 : State) :
  ConfirmPaymentView_post stripe st u req now1 = (Ok r1, st1) ->
  (legacy_flow req = false ->
   exists r2 st2,
     ConfirmPaymentView_post stripe st1 u req now2 = (Ok r2, st2)
     /\ reservations st1 = reservations st ++ [r1]
     /\ reservations st2 = reservations st ++ [r1; r2]
     /\ Reservation.status r1 = CONFIRMED /\ Reservation.status r2 = CONFIRMED
     /\ Reservation.user r1 = u /\ Reservation.user r2 = u
     /\ Reservation.id r1 < Reservation.id r2
     /\ (issues_ticket req = true ->
         exists k1 k2,
           tickets st2 = tickets st ++ [k1; k2]
           /\ UserTicket.status k1 = TICKET_ACTIVE
           /\ UserTicket.status k2 = TICKET_ACTIVE)
     /\ st2 <> st1)
  /\ (legacy_flow req = true ->
      forall r0,
        objects_get (is_pending_of u) (reservations st) = Found r0 ->
        ConfirmPaymentView_post stripe st1 u req now2
        = (Error 404 no_pending_reservation, st1)).
Proof.
  intros H1. split.
  - intros Hleg.
    destruct (confirm_creating_again stripe st u req now1 r1 st1 Hleg H1 st1 now2)
      as (r2 & st2 & H2).
    exists r2, st2. split; [exact H2 |].
    destruct (confirm_creating_call _ _ _ _ _ _ _ Hleg H1)
      as (Hres1 & Hid1 & Hst1 & Hu1 & _ & Htk1 & _).
    destruct (confirm_creating_call _ _ _ _ _ _ _ Hleg H2)
      as (Hres2 & Hid2 & Hst2 & Hu2 & _ & Htk2 & _).
    assert (Hres : reservations st2 = reservations st ++ [r1; r2])
      by (rewrite Hres2, Hres1, <- app_assoc; reflexivity).
    repeat split; try assumption.
    + rewrite Hid2. apply fresh_id_above. rewrite Hres1, map_app.
      apply in_or_app. right. now left.
    + intros Ht. destruct (Htk1 Ht) as (k1 & Hk1 & Hs1 & _).
      destruct (Htk2 Ht) as (k2 & Hk2 & Hs2 & _).
      exists k1, k2. rewrite Hk2, Hk1, <- app_assoc. now repeat split.
    + intros ->. rewrite Hres1 in Hres.
      apply (f_equal (@List.length _)) in Hres.
      rewrite !length_app in Hres. cbn in Hres. lia.
  - intros Hleg r0 Hg.
    exact (confirm_legacy_second_call stripe st u req now1 now2 r0 r1 st1 Hleg Hg H1).
Qed.

Lemma confirm_payment_twice_witness :
  let now1 := at_time 2024 6 10 13 0 0 in
  let now2 := at_time 2024 6 10 13 0 5 in
  let first := ConfirmPaymentView_post no_stripe after_materialize 2 legacy_request now1 in
  map Reservation.status (reservations after_materialize) = [CONFIRMED; PENDING]
  /\ map Reservation.status (reservations (snd first)) = [CONFIRMED; CONFIRMED]
  /\ ConfirmPaymentView_post no_stripe (snd first) 2 legacy_request now2
     = (Error 404 no_pending_reservation, snd first).
Proof.
  cbv zeta. split; [vm_compute; reflexivity |]. split; [vm_compute; reflexivity |].
  assert (H1 : ConfirmPaymentView_post no_stripe after_materialize 2 legacy_request
                 (at_time 2024 6 10 13 0 0)
               = (Ok (Reservation.with_payment
                        (Reservation.mk 2 2 "Bowling" "" (ymd 2024 6 13) eight_pm
                           "Paris" "" "basic" 1500 "EUR" PENDING "" None 1 ""
                           (at_time 2024 6 10 12 0 0)
                           (Some (at_time 2024 6 11 23 59 0)))
                        CONFIRMED "pi_test_local_dev"
                        (Some (at_time 2024 6 10 13 0 0))),
                  snd (ConfirmPaymentView_post no_stripe after_materialize 2
                         legacy_request (at_time 2024 6 10 13 0 0))))
    by (vm_compute; reflexivity).
  assert (Hg : objects_get (is_pending_of 2) (reservations after_materialize)
               = Found (Reservation.mk 2 2 "Bowling" "" (ymd 2024 6 13) eight_pm
                          "Paris" "" "basic" 1500 "EUR" PENDING "" None 1 ""
                          (at_time 2024 6 10 12 0 0)
                          (Some (at_time 2024 6 11 23 59 0))))
    by (vm_compute; reflexivity).
  exact (proj2 (confirm_payment_twice no_stripe after_materialize 2 legacy_request
                  (at_time 2024 6 10 13 0 0) (at_time 2024 6 10 13 0 5) _ _ H1)
               eq_refl _ Hg).
Defined.

(** C4, as stated, fails: the local development confirmation that carries
    the booking under the plan "ticket", sent twice with the same reference
    and payload, leaves two CONFIRMED reservations and two ACTIVE tickets;
    the state after the second call is not the state after the first. *)
Lemma confirm_payment_not_idempotent :
  let st1 := snd (ConfirmPaymentView_post no_stripe (with_users empty_state [alice]) 1
                    dev_request (at_time 2024 6 3 9 0 0)) in
  let st2 := snd (ConfirmPaymentView_post no_stripe st1 1 dev_request
                    (at_time 2024 6 3 9 0 5)) in
  map Reservation.status (reservations st1) = [CONFIRMED]
  /\ map UserTicket.status (tickets st1) = [TICKET_ACTIVE]
  /\ map Reservation.status (reservations st2) = [CONFIRMED; CONFIRMED]
  /\ map Reservation.stripe_payment_intent_id (reservations st2)
     = ["pi_test_local_dev"; "pi_test_local_dev"]
  /\ map UserTicket.status (tickets st2) = [TICKET_ACTIVE; TICKET_ACTIVE]
  /\ map UserTicket.notes (tickets st2)
     = ["Ticket créé suite au paiement de la réservation 1";
        "Ticket créé suite au paiement de la réservation 2"]
  /\ users st2 = [alice]
  /\ st2 <> st1.
Proof.
  cbv zeta. repeat apply conj; try (vm_compute; reflexivity).
  intros H. apply (f_equal (fun s => List.length (reservations s))) in H.
  vm_compute in H. discriminate.
Qed.

(** ** Groups *)

Lemma insert_ordered_in (r x : Reservation.t) (rows : list Reservation.t) :
  In x (insert_ordered r rows) <-> x = r \/ In x rows.
Proof.
  induction rows as [| y rows IH]; cbn [insert_ordered].
  - cbn. intuition.
  - destruct (reservation_before r y); cbn [In].
    + intuition.
    + rewrite IH. intuition.
Qed.

Lemma default_ordering_in (x : Reservation.t) (rows : list Reservation.t) :
  In x (default_ordering rows) <-> In x rows.
Proof.
  unfold default_ordering. induction rows as [| y rows IH]; cbn [fold_right In].
  - tauto.
  - rewrite insert_ordered_in, IH. intuition.
Qed.

Lemma confirmed_among_in (st : State) (ids : list Z) (r : Reservation.t) :
  In r (confirmed_among st ids)
  <-> In r (reservations st) /\ In (Reservation.id r) ids
      /\ Reservation.status r = CONFIRMED.
Proof.
  unfold confirmed_among. rewrite default_ordering_in, filter_In, andb_true_iff.
  rewrite ReservationStatus_eqb_eq, existsb_exists.
  split.
  - intros (Hin & (x & Hx & Hex) & Hst). apply Z.eqb_eq in Hex. subst. tauto.
  - intros (Hin & Hid & Hst). repeat split; try assumption.
    exists (Reservation.id r). split; [assumption | apply Z.eqb_refl].
Qed.

Lemma has_group_false (st : State) (r : Reservation.t) :
  has_group st r = false ->
  ~ In (Reservation.id r) (map GroupMembership.reservation (memberships st)).
Proof.
  unfold has_group. intros H Hin. apply in_map_iff in Hin.
  destruct Hin as (m & Hm & Hin).
  assert (Ht : existsb (fun m => GroupMembership.reservation m =? Reservation.id r)
                 (memberships st) = true).
  { apply existsb_exists. exists m. split; [assumption | now apply Z.eqb_eq]. }
  congruence.
Qed.

(** The membership loop: the rows it writes, in order, one for each
    reservation up to the first that already has a membership. *)
Lemma create_memberships_spec (rows : list Reservation.t) :
  forall (st : State) (group : Z) (now : datetime) (st' : State) (finished : bool),
    create_memberships st group now rows = (st', finished) ->
    exists ms,
      memberships st' = memberships st ++ ms
      /\ groups st' = groups st
      /\ reservations st' = reservations st
      /\ users st' = users st /\ tickets st' = tickets st
      /\ subscriptions st' = subscriptions st /\ invitations st' = invitations st
      /\ Forall (fun m => GroupMembership.group m = group) ms
      /\ map GroupMembership.reservation ms
         = map Reservation.id (firstn (List.length ms) rows)
      /\ (finished = true -> List.length ms = List.length rows)
      /\ NoDup (map GroupMembership.reservation ms)
      /\ (forall x, In x (map GroupMembership.reservation ms) ->
                    ~ In x (map GroupMembership.reservation (memberships st))).
Proof.
  induction rows as [| r rows IH]; intros st group now st' finished;
    cbn [create_memberships].
  - intros [= <- <-]. exists []. rewrite app_nil_r. cbn.
    repeat split; try constructor. intros x [].
  - destruct (has_group st r) eqn:Hhas.
    + intros [= <- <-]. exists []. rewrite app_nil_r. cbn.
      repeat split; try constructor; try discriminate. intros x [].
    + intros H. apply IH in H.
      destruct H as (ms & Hm & Hg & Hr & Hu & Ht & Hs & Hi & Hall & Hmap & Hfin
                     & Hnd & Hfresh).
      cbn [memberships groups reservations users tickets subscriptions
           invitations with_memberships] in *.
      set (m := GroupMembership.mk
                  (fresh_id (map GroupMembership.id (memberships st)))
                  (Reservation.id r) group now) in *.
      exists (m :: ms). rewrite Hm, <- app_assoc. cbn [app].
      repeat split; try assumption.
      * constructor; [reflexivity | assumption].
      * cbn. now rewrite Hmap.
      * intros Hf. cbn. now rewrite Hfin.
      * cbn. constructor; [| assumption].
        intros Hin. apply (Hfresh _ Hin). rewrite map_app. apply in_or_app.
        right. now left.
      * intros x [<- | Hin].
        -- cbn. now apply has_group_false.
        -- intros Hold. apply (Hfresh _ Hin). rewrite map_app.
           apply in_or_app. now left.
Qed.

Lemma forallb_same_date (first : Reservation.t) (found : list Reservation.t)
    (a b : Reservation.t) :
  forallb (fun r => Reservation.reservation_date r
                    =? Reservation.reservation_date first) found = true ->
  In a found -> In b found ->
  Reservation.reservation_date a = Reservation.reservation_date b.
Proof.
  intros H Ha Hb. rewrite forallb_forall in H.
  pose proof (H a Ha) as Ea. pose proof (H b Hb) as Eb.
  apply Z.eqb_eq in Ea, Eb. congruence.
Qed.

(** C8, as amended.  The view answers 400 and writes nothing when the list
    of ids is empty, when none of the ids is that of a CONFIRMED
    reservation, or when the CONFIRMED reservations found are of more than
    one date.  Ids that are missing or refer to a reservation that is not
    CONFIRMED are skipped without an error.  On success exactly one group is
    stored, with [max_participants] the length of the list of ids, and one
    membership for each CONFIRMED reservation found, all in that group. *)
Theorem create_group_validation (st : State) (req : GroupRequest) (now : datetime) :
  (gr_selected_reservations req = [] ->
   exists kind, CreateGroupView_post st req now = (Error 400 kind, st))
  /\ (confirmed_among st (gr_selected_reservations req) = [] ->
      exists kind, CreateGroupView_post st req now = (Error 400 kind, st))
  /\ ((exists a b,
         In a (confirmed_among st (gr_selected_reservations req))
         /\ In b (confirmed_among st (gr_selected_reservations req))
         /\ Reservation.reservation_date a <> Reservation.reservation_date b) ->
      exists kind, CreateGroupView_post st req now = (Error 400 kind, st))
  /\ (forall g st',
        CreateGroupView_post st req now = (Ok g, st') ->
        groups st' = groups st ++ [g]
        /\ reservations st' = reservations st
        /\ EventGroup.max_participants g
           = Z.of_nat (List.length (gr_selected_reservations req))
        /\ EventGroup.is_confirmed g = true
        /\ ~ In (EventGroup.id g) (map EventGroup.id (groups st))
        /\ (forall a b,
              In a (confirmed_among st (gr_selected_reservations req)) ->
              In b (confirmed_among st (gr_selected_reservations req)) ->
              Reservation.reservation_date a = Reservation.reservation_date b)
        /\ exists ms,
             memberships st' = memberships st ++ ms
             /\ ms <> []
             /\ map GroupMembership.reservation ms
                = map Reservation.id
                      (confirmed_among st (gr_selected_reservations req))
             /\ Forall (fun m => GroupMembership.group m = EventGroup.id g) ms).
Proof.
  unfold CreateGroupView_post.
  destruct (negb (truthy (gr_name req))).
  { repeat split; try (intros; eexists; reflexivity); intros; discriminate. }
  destruct (negb (truthy (gr_meeting_point_name req))).
  { repeat split; try (intros; eexists; reflexivity); intros; discriminate. }
  destruct (gr_selected_reservations req) as [| i ids] eqn:Hids.
  { repeat split; try (intros; eexists; reflexivity); intros; discriminate. }
  destruct (confirmed_among st (i :: ids)) as [| first rest] eqn:Hfound.
  { repeat split; try (intros; eexists; reflexivity); intros; discriminate. }
  destruct (forallb (fun r => Reservation.reservation_date r
                              =? Reservation.reservation_date first)
                    (first :: rest)) eqn:Hdates; cbn [negb].
  2:{ repeat split; try (intros; eexists; reflexivity); intros; discriminate. }
  assert (Hsame : forall a b, In a (first :: rest) -> In b (first :: rest) ->
                    Reservation.reservation_date a = Reservation.reservation_date b)
    by (intros a b; apply (forallb_same_date first); exact Hdates).
  split; [discriminate |]. split; [discriminate |].
  split.
  { intros (a & b & Ha & Hb & Hne). exfalso. apply Hne. now apply Hsame. }
  intros g st'.
  assert (Hcase : forall t address,
            (let '(group, st1) :=
               EventGroup_objects_create st now (get_default (gr_name req) "")
                 (Reservation.activity_name first)
                 (Reservation.reservation_date first)
                 (get_default (gr_meeting_point_name req) "") address t
                 (Z.of_nat (List.length (i :: ids))) in
             match create_memberships st1 (EventGroup.id group) now (first :: rest) with
             | (st2, true) => (Ok group, st2)
             | (st2, false) => (Error 500 internal_error, st2)
             end) = (Ok g, st') ->
            groups st' = groups st ++ [g]
            /\ reservations st' = reservations st
            /\ EventGroup.max_participants g = Z.of_nat (List.length (i :: ids))
            /\ EventGroup.is_confirmed g = true
            /\ ~ In (EventGroup.id g) (map EventGroup.id (groups st))
            /\ (forall a b, In a (first :: rest) -> In b (first :: rest) ->
                  Reservation.reservation_date a = Reservation.reservation_date b)
            /\ exists ms,
                 memberships st' = memberships st ++ ms
                 /\ ms <> []
                 /\ map GroupMembership.reservation ms
                    = map Reservation.id (first :: rest)
                 /\ Forall (fun m => GroupMembership.group m = EventGroup.id g) ms).
  { intros t address. unfold EventGroup_objects_create.
    destruct (create_memberships _ _ now (first :: rest)) as [st2 finished] eqn:Hcm.
    destruct finished; [| discriminate].
    intros [= <- <-].
    apply create_memberships_spec in Hcm.
    destruct Hcm as (ms & Hm & Hg & Hr & _ & _ & _ & _ & Hall & Hmap & Hfin & _).
    cbn [memberships groups reservations with_groups EventGroup.id
         EventGroup.max_participants EventGroup.is_confirmed] in *.
    specialize (Hfin eq_refl).
    repeat split; try assumption.
    - apply fresh_id_not_in.
    - exists ms. repeat split; try assumption.
      + intros ->. discriminate.
      + rewrite Hmap, Hfin, firstn_all. reflexivity. }
  destruct (gr_meeting_time req); destruct (gr_meeting_point_address req);
    try discriminate; apply Hcase.
Qed.

(** C8, as stated, fails: a list of ids of which one is missing (99), or of
    which one is that of a PENDING reservation, is accepted; the group is
    created with [max_participants] 2 and the single membership of the
    CONFIRMED reservation. *)
Lemma group_created_despite_unusable_id :
  let now := at_time 2024 6 12 9 0 0 in
  let with_missing :=
    CreateGroupView_post (after_booking (ymd 2024 6 13) "basic" "pi_123")
      (group_request [1; 99]) now in
  let with_pending := CreateGroupView_post after_materialize (group_request [1; 2]) now in
  map Reservation.id (reservations (after_booking (ymd 2024 6 13) "basic" "pi_123")) = [1]
  /\ (exists g, fst with_missing = Ok g /\ EventGroup.max_participants g = 2)
  /\ map GroupMembership.reservation (memberships (snd with_missing)) = [1]
  /\ map Reservation.status (reservations after_materialize) = [CONFIRMED; PENDING]
  /\ (exists g, fst with_pending = Ok g /\ EventGroup.max_participants g = 2)
  /\ map GroupMembership.reservation (memberships (snd with_pending)) = [1].
Proof.
  cbv zeta. repeat apply conj; try (vm_compute; reflexivity);
    (eexists; split; vm_compute; reflexivity).
Qed.

(** Nor is the activity compared: two CONFIRMED reservations of the same
    date, one for "Bowling" and one for "Karaoke", end in one group. *)
Example group_of_two_activities :
  let result := CreateGroupView_post two_bookings (group_request [1; 2])
                  (at_time 2024 6 12 9 0 0) in
  map Reservation.activity_name (reservations two_bookings) = ["Bowling"; "Karaoke"]
  /\ map Reservation.status (reservations two_bookings) = [CONFIRMED; CONFIRMED]
  /\ map EventGroup.activity_name (groups (snd result)) = ["Bowling"]
  /\ map GroupMembership.reservation (memberships (snd result)) = [1; 2]
  /\ map GroupMembership.group (memberships (snd result)) = [1; 1].
Proof. run_model. Qed.

Lemma create_group_validation_witness :
  let st := two_bookings in
  let req := group_request [1; 2] in
  let now := at_time 2024 6 12 9 0 0 in
  (exists kind, CreateGroupView_post st (group_request []) now = (Error 400 kind, st))
  /\ (exists kind, CreateGroupView_post st (group_request [7]) now = (Error 400 kind, st))
  /\ exists g st',
       CreateGroupView_post st req now = (Ok g, st')
       /\ groups st' = groups st ++ [g]
       /\ EventGroup.max_participants g = 2
       /\ exists ms, memberships st' = memberships st ++ ms
                     /\ map GroupMembership.reservation ms = [1; 2].
Proof.
  cbv zeta.
  split; [apply (proj1 (create_group_validation two_bookings (group_request [])
                          (at_time 2024 6 12 9 0 0))); reflexivity |].
  split; [apply (proj1 (proj2 (create_group_validation two_bookings
                                 (group_request [7]) (at_time 2024 6 12 9 0 0))));
          vm_compute; reflexivity |].
  assert (H : CreateGroupView_post two_bookings (group_request [1; 2])
                (at_time 2024 6 12 9 0 0)
              = (Ok (EventGroup.mk 1 "Groupe 1" (ymd 2024 6 13) "Bowling"
                       "Bar du Marais" "1 rue de Rivoli" eight_pm None 2 true
                       (at_time 2024 6 12 9 0 0)),
                 snd (CreateGroupView_post two_bookings (group_request [1; 2])
                        (at_time 2024 6 12 9 0 0))))
    by (vm_compute; reflexivity).
  destruct (proj2 (proj2 (proj2 (create_group_validation two_bookings
                                   (group_request [1; 2])
                                   (at_time 2024 6 12 9 0 0)))) _ _ H)
    as (Hg & _ & Hmax & _ & _ & _ & ms & Hm & _ & Hmap & _).
  eexists. eexists. split; [exact H |]. split; [exact Hg |].
  split; [reflexivity |].
  exists ms. split; [exact Hm |].
  rewrite Hmap. vm_compute. reflexivity.
Defined.

(** ** Capacity of groups *)

(** The views that serve reservations, payments, tickets and invitations
    write neither a group nor a membership. *)
Ltac frame_step :=
  match goal with
  | |- context [request_user_update_subscription_status ?st ?u ?now] =>
      let H := fresh "H" in
      let st' := fresh "st" in
      pose proof (request_user_update_subscription_status_frame st u now) as H;
      destruct H as (_ & _ & _ & _ & ? & ?);
      set (st' := request_user_update_subscription_status st u now) in *;
      clearbody st'
  | |- context [Reservation_objects_create ?st ?now ?f] =>
      let E := fresh "E" in
      destruct (Reservation_objects_create st now f) as [[? ?] |] eqn:E;
      [apply Reservation_objects_create_spec in E;
       destruct E as (_ & _ & _ & _ & _ & ? & ? & _) |]
  | |- context [Reservation_save ?st ?r] =>
      let E := fresh "E" in
      destruct (Reservation_save st r) eqn:E;
      [apply Reservation_save_spec in E;
       destruct E as (? & _ & _ & _ & _ & _ & _ & ? & ?) |]
  | |- context [cancel_settlement ?st ?u ?r ?now] =>
      let E := fresh "E" in
      destruct (cancel_settlement st u r now) eqn:E;
      apply cancel_settlement_spec in E;
      destruct E as (_ & _ & _ & ? & ? & _)
  | |- context [match ?x with _ => _ end] => destruct x
  end.

Ltac frame :=
  unfold UserTicket_objects_create; cbv beta iota zeta; repeat frame_step;
  cbn [fst snd groups memberships with_reservations with_tickets with_users
       with_subscriptions with_invitations UserTicket_objects_create] in *;
  split; congruence.

Lemma ReservationView_post_frame (st : State) (u : Z) (req : ReservationRequest)
    (now : datetime) :
  groups (snd (ReservationView_post st u req now)) = groups st
  /\ memberships (snd (ReservationView_post st u req now)) = memberships st.
Proof. unfold ReservationView_post. frame. Qed.

Lemma ConfirmPaymentView_post_frame (stripe : string -> option PaymentIntent)
    (st : State) (u : Z) (req : ConfirmRequest) (now : datetime) :
  groups (snd (ConfirmPaymentView_post stripe st u req now)) = groups st
  /\ memberships (snd (ConfirmPaymentView_post stripe st u req now)) = memberships st.
Proof. unfold ConfirmPaymentView_post. frame. Qed.

Lemma ReservationCancelView_post_frame (st : State) (u rid : Z) (now : datetime) :
  groups (snd (ReservationCancelView_post st u rid now)) = groups st
  /\ memberships (snd (ReservationCancelView_post st u rid now)) = memberships st.
Proof. unfold ReservationCancelView_post. frame. Qed.

Lemma UseTicketView_post_frame (st : State) (u : Z) (tid : option Z)
    (d : option ReservationData) (now : datetime) :
  groups (snd (UseTicketView_post st u tid d now)) = groups st
  /\ memberships (snd (UseTicketView_post st u tid d now)) = memberships st.
Proof. unfold UseTicketView_post. frame. Qed.

Lemma AcceptInvitationView_post_frame (st : State) (token : string)
    (req : AcceptRequest) (now : datetime) :
  groups (snd (AcceptInvitationView_post st token req now)) = groups st
  /\ memberships (snd (AcceptInvitationView_post st token req now)) = memberships st.
Proof. unfold AcceptInvitationView_post. frame. Qed.

Lemma ProcessInvitedUserView_post_frame (st : State) (u : Z) (now : datetime) :
  groups (snd (ProcessInvitedUserView_post st u now)) = groups st
  /\ memberships (snd (ProcessInvitedUserView_post st u now)) = memberships st.
Proof. unfold ProcessInvitedUserView_post. frame. Qed.

Lemma CreateReservationWithSubscriptionView_post_frame (st : State) (u : Z)
    (d : ReservationData) (now : datetime) :
  groups (snd (CreateReservationWithSubscriptionView_post st u d now)) = groups st
  /\ memberships (snd (CreateReservationWithSubscriptionView_post st u d now))
     = memberships st.
Proof. unfold CreateReservationWithSubscriptionView_post. frame. Qed.

Lemma filter_none {A : Type} (f : A -> bool) (l : list A) :
  (forall x, In x l -> f x = false) -> filter f l = [].
Proof.
  induction l as [| x l IH]; [reflexivity |]. intros H. cbn [filter].
  rewrite (H x) by now left. apply IH. intros y Hy. apply H. now right.
Qed.

Lemma filter_all {A : Type} (f : A -> bool) (l : list A) :
  (forall x, In x l -> f x = true) -> filter f l = l.
Proof.
  induction l as [| x l IH]; [reflexivity |]. intros H. cbn [filter].
  rewrite (H x) by now left. f_equal. apply IH. intros y Hy. apply H. now right.
Qed.

Lemma filter_length_le {A : Type} (f : A -> bool) (l : list A) :
  (List.length (filter f l) <= List.length l)%nat.
Proof.
  induction l as [| x l IH]; [constructor |]. cbn [filter].
  destruct (f x); cbn [List.length]; lia.
Qed.

Lemma filter_filter_length_le {A : Type} (f keep : A -> bool) (l : list A) :
  (List.length (filter f (filter keep l)) <= List.length (filter f l))%nat.
Proof.
  induction l as [| x l IH]; [constructor |]. cbn [filter].
  destruct (keep x); cbn [filter]; destruct (f x); cbn [List.length]; lia.
Qed.

Lemma firstn_in {A : Type} (n : nat) (l : list A) (x : A) :
  In x (firstn n l) -> In x l.
Proof.
  revert l. induction n as [| n IH]; intros [| y l]; cbn [firstn In]; try tauto.
  intros [-> | H]; [now left | right; now apply IH].
Qed.

Lemma capacity_invariant_frame (st st' : State) :
  groups st' = groups st ->
  memberships st' = memberships st ->
  capacity_invariant st -> capacity_invariant st'.
Proof.
  unfold capacity_invariant, group_memberships. intros -> ->. tauto.
Qed.

(** A new group with the memberships of [rows] keeps the invariant as soon
    as its capacity is the length of a list holding the ids of [rows]: the
    loop writes at most one membership for each id. *)
Lemma new_group_invariant (st : State) (now : datetime) (name activity : string)
    (event_date : date) (point address : string) (meeting_time maxp : Z)
    (rows : list Reservation.t) (ids : list Z) (st2 : State) (finished : bool) :
  capacity_invariant st ->
  Z.of_nat (List.length ids) <= maxp ->
  (forall r, In r rows -> In (Reservation.id r) ids) ->
  create_memberships
    (snd (EventGroup_objects_create st now name activity event_date point
            address meeting_time maxp))
    (EventGroup.id (fst (EventGroup_objects_create st now name activity
                           event_date point address meeting_time maxp)))
    now rows = (st2, finished) ->
  capacity_invariant st2.
Proof.
  intros [Hfk Hcap] Hmax Hids. unfold EventGroup_objects_create. cbn [fst snd].
  set (g := EventGroup.mk (fresh_id (map EventGroup.id (groups st))) name
              event_date activity point address meeting_time None maxp true now).
  intros H. apply create_memberships_spec in H.
  destruct H as (ms & Hm & Hg & _ & _ & _ & _ & _ & Hall & Hmap & _ & Hnd & _).
  cbn [memberships groups with_groups] in Hm, Hg.
  rewrite Forall_forall in Hall.
  assert (Hfresh : forall g0, In g0 (groups st) -> EventGroup.id g0 <> EventGroup.id g).
  { intros g0 Hin E. apply (fresh_id_not_in (map EventGroup.id (groups st))).
    change (fresh_id (map EventGroup.id (groups st))) with (EventGroup.id g).
    rewrite <- E. now apply in_map. }
  assert (Hlen : (List.length ms <= List.length ids)%nat).
  { rewrite <- (length_map GroupMembership.reservation ms).
    apply NoDup_incl_length; [exact Hnd |].
    intros x Hx. rewrite Hmap in Hx. apply in_map_iff in Hx.
    destruct Hx as (r & <- & Hr). apply Hids.
    eapply firstn_in; exact Hr. }
  split.
  - intros m Hin. rewrite Hm in Hin. rewrite Hg, map_app.
    apply in_or_app. apply in_app_or in Hin. destruct Hin as [Hold | Hnew].
    + left. now apply Hfk.
    + right. left. symmetry. now apply Hall.
  - intros g0 Hin. unfold group_memberships. rewrite Hm, filter_app, length_app.
    rewrite Hg in Hin. apply in_app_or in Hin. destruct Hin as [Hold | [<- | []]].
    + rewrite (filter_none _ ms).
      * cbn [List.length]. rewrite Nat.add_0_r. now apply Hcap.
      * intros m Hmin. apply Z.eqb_neq. rewrite (Hall m Hmin).
        intros E. now apply (Hfresh g0 Hold).
    + rewrite (filter_none _ (memberships st)).
      * change (EventGroup.max_participants g) with maxp.
        cbn [List.length Nat.add].
        pose proof (filter_length_le
                      (fun m => GroupMembership.group m =? EventGroup.id g) ms).
        lia.
      * intros m Hmin. apply Z.eqb_neq. intros E.
        apply Hfk in Hmin. apply in_map_iff in Hmin.
        destruct Hmin as (g0 & Hid & Hg0). apply (Hfresh g0 Hg0). congruence.
Qed.

Lemma CreateGroupView_post_invariant (st : State) (req : GroupRequest)
    (now : datetime) :
  capacity_invariant st ->
  capacity_invariant (snd (CreateGroupView_post st req now)).
Proof.
  intros Hinv. unfold CreateGroupView_post.
  destruct (negb (truthy (gr_name req))); [exact Hinv |].
  destruct (negb (truthy (gr_meeting_point_name req))); [exact Hinv |].
  destruct (gr_selected_reservations req) as [| i ids] eqn:Hids; [exact Hinv |].
  destruct (confirmed_among st (i :: ids)) as [| first rest] eqn:Hfound;
    [exact Hinv |].
  destruct (forallb (fun r => Reservation.reservation_date r
                              =? Reservation.reservation_date first)
                    (first :: rest)); cbn [negb]; [| exact Hinv].
  assert (Hcase : forall t address,
            capacity_invariant
              (snd (let '(group, st1) :=
                      EventGroup_objects_create st now (get_default (gr_name req) "")
                        (Reservation.activity_name first)
                        (Reservation.reservation_date first)
                        (get_default (gr_meeting_point_name req) "") address t
                        (Z.of_nat (List.length (i :: ids))) in
                    match create_memberships st1 (EventGroup.id group) now
                            (first :: rest) with
                    | (st2, true) => (Ok group, st2)
                    | (st2, false) => (Error 500 internal_error, st2)
                    end))).
  { intros t address.
    destruct (EventGroup_objects_create st now (get_default (gr_name req) "")
                (Reservation.activity_name first)
                (Reservation.reservation_date first)
                (get_default (gr_meeting_point_name req) "") address t
                (Z.of_nat (List.length (i :: ids)))) as [group st1] eqn:Hcreate.
    destruct (create_memberships st1 (EventGroup.id group) now (first :: rest))
      as [st2 finished] eqn:Hcm.
    assert (Hinv2 : capacity_invariant st2).
    { apply (new_group_invariant st now (get_default (gr_name req) "")
               (Reservation.activity_name first)
               (Reservation.reservation_date first)
               (get_default (gr_meeting_point_name req) "") address t
               (Z.of_nat (List.length (i :: ids))) (first :: rest) (i :: ids)
               st2 finished Hinv).
      - lia.
      - intros r Hr. rewrite <- Hfound in Hr. apply confirmed_among_in in Hr. tauto.
      - rewrite Hcreate. exact Hcm. }
    destruct finished; exact Hinv2. }
  destruct (gr_meeting_time req); destruct (gr_meeting_point_address req);
    try exact Hinv; apply Hcase.
Qed.

Lemma create_chunk_group_invariant (group_name : date -> string -> Z -> string)
    (now : datetime) (key : date * string) (acc : State * bool)
    (chunk : Z * list Reservation.t) :
  (List.length (snd chunk) <= 6)%nat ->
  capacity_invariant (fst acc) ->
  capacity_invariant (fst (create_chunk_group group_name now key acc chunk)).
Proof.
  intros Hlen Hinv. unfold create_chunk_group. destruct acc as [st running].
  cbn [fst] in Hinv. destruct running; cbn [negb]; [| exact Hinv].
  destruct (EventGroup_objects_create st now (group_name (fst key) (snd key)
                                                (fst chunk + 1))
              (snd key) (fst key) "" "" eight_pm 6) as [group st1] eqn:Hcreate.
  destruct (create_memberships st1 (EventGroup.id group) now (snd chunk))
    as [st2 finished] eqn:Hcm.
  cbn [fst].
  apply (new_group_invariant st now (group_name (fst key) (snd key) (fst chunk + 1))
           (snd key) (fst key) "" "" eight_pm 6 (snd chunk)
           (map Reservation.id (snd chunk)) st2 finished Hinv).
  - rewrite length_map. lia.
  - intros r Hr. now apply in_map.
  - rewrite Hcreate. exact Hcm.
Qed.

Lemma chunks_of_six_length (rows : list Reservation.t) (chunk : Z * list Reservation.t) :
  In chunk (chunks_of_six rows) -> (List.length (snd chunk) <= 6)%nat.
Proof.
  unfold chunks_of_six. rewrite in_map_iff. intros (k & <- & _).
  cbn [snd]. apply firstn_le_length.
Qed.

Lemma fold_chunks_invariant (group_name : date -> string -> Z -> string)
    (now : datetime) (key : date * string) (chunks : list (Z * list Reservation.t)) :
  (forall chunk, In chunk chunks -> (List.length (snd chunk) <= 6)%nat) ->
  forall acc,
    capacity_invariant (fst acc) ->
    capacity_invariant
      (fst (fold_left (create_chunk_group group_name now key) chunks acc)).
Proof.
  induction chunks as [| chunk chunks IH]; intros Hlen acc Hinv; cbn [fold_left].
  - exact Hinv.
  - apply IH.
    + intros c Hc. apply Hlen. now right.
    + apply create_chunk_group_invariant; [apply Hlen; now left | exact Hinv].
Qed.

Lemma create_groups_for_selected_invariant
    (group_name : date -> string -> Z -> string) (st : State) (queryset : list Z)
    (now : datetime) :
  capacity_invariant st ->
  capacity_invariant (create_groups_for_selected group_name st queryset now).
Proof.
  intros Hinv. unfold create_groups_for_selected. cbv zeta.
  generalize (fold_left (fun g r => add_grouped r g)
                (filter (fun r => negb (has_group st r))
                   (default_ordering
                      (filter (fun r => existsb (Z.eqb (Reservation.id r)) queryset
                                        && ReservationStatus_eqb
                                             (Reservation.status r) CONFIRMED)
                              (reservations st))))
                []) as grouped.
  intros grouped.
  assert (H : forall acc, capacity_invariant (fst acc) ->
            capacity_invariant
              (fst (fold_left
                      (fun acc entry =>
                         fold_left (create_chunk_group group_name now (fst entry))
                                   (chunks_of_six (snd entry)) acc)
                      grouped acc))).
  { induction grouped as [| entry grouped IH]; intros acc Hacc; cbn [fold_left].
    - exact Hacc.
    - apply IH. apply fold_chunks_invariant; [| exact Hacc].
      intros chunk. apply chunks_of_six_length. }
  apply (H (st, true)). exact Hinv.
Qed.

Lemma step_invariant (st st' : State) :
  step st st' -> capacity_invariant st -> capacity_invariant st'.
Proof.
  intros Hstep Hinv. destruct Hstep.
  - destruct (ReservationView_post_frame st u req now).
    now apply (capacity_invariant_frame st).
  - destruct (ConfirmPaymentView_post_frame stripe st u req now).
    now apply (capacity_invariant_frame st).
  - destruct (ReservationCancelView_post_frame st u rid now).
    now apply (capacity_invariant_frame st).
  - destruct (UseTicketView_post_frame st u tid d now).
    now apply (capacity_invariant_frame st).
  - destruct (AcceptInvitationView_post_frame st token req now).
    now apply (capacity_invariant_frame st).
  - destruct (ProcessInvitedUserView_post_frame st u now).
    now apply (capacity_invariant_frame st).
  - destruct (CreateReservationWithSubscriptionView_post_frame st u d now).
    now apply (capacity_invariant_frame st).
  - now apply CreateGroupView_post_invariant.
  - now apply create_groups_for_selected_invariant.
  - now apply (capacity_invariant_frame st).
  - destruct Hinv as [Hfk Hcap]. split.
    + intros m Hm. rewrite H0 in Hm. apply filter_In in Hm. rewrite H.
      apply Hfk. tauto.
    + intros g Hg. rewrite H in Hg. specialize (Hcap g Hg).
      unfold group_memberships in *. rewrite H0.
      pose proof (filter_filter_length_le
                    (fun m => GroupMembership.group m =? EventGroup.id g) keep
                    (memberships st)).
      lia.
Qed.

Lemma reachable_invariant (st : State) : reachable st -> capacity_invariant st.
Proof.
  induction 1 as [| st st' _ IH Hstep].
  - split; intros x [].
  - exact (step_invariant st st' Hstep IH).
Qed.

Lemma participants_count_le_memberships (st : State) (g : EventGroup.t) :
  participants_count st g <= Z.of_nat (List.length (group_memberships st g)).
Proof.
  unfold participants_count. apply Nat2Z.inj_le. apply filter_length_le.
Qed.

(** C9, as amended.  In every state reached from the empty database by
    requests to the application (the views and the admin actions modelled
    here, group creation and cancellation among them, and any other request
    that writes neither a group nor a membership, which leaves out the
    change forms of groups and memberships in the Django admin), the number
    of memberships of a group whose reservation is CONFIRMED is at most the
    [max_participants] of the group. *)
Theorem group_capacity (st : State) :
  reachable st ->
  forall g, In g (groups st) ->
            participants_count st g <= EventGroup.max_participants g.
Proof.
  intros Hreach g Hg.
  destruct (reachable_invariant st Hreach) as [_ Hcap].
  pose proof (participants_count_le_memberships st g).
  specialize (Hcap g Hg). lia.
Qed.

Lemma group_capacity_witness :
  reachable grouped_then_cancelled
  /\ map (participants_count after_grouping) (groups after_grouping) = [2]
  /\ map (participants_count grouped_then_cancelled) (groups grouped_then_cancelled)
     = [1]
  /\ map EventGroup.max_participants (groups grouped_then_cancelled) = [2]
  /\ forall g, In g (groups grouped_then_cancelled) ->
               participants_count grouped_then_cancelled g
               <= EventGroup.max_participants g.
Proof.
  assert (Hreach : reachable grouped_then_cancelled).
  { refine (reachable_step _ _ _
              (step_cancel after_grouping 1 1 (at_time 2024 6 10 10 0 0))).
    refine (reachable_step _ _ _
              (step_create_group two_bookings (group_request [1; 2])
                 (at_time 2024 6 10 9 0 0))).
    refine (reachable_step _ _ _
              (step_reservation (after_booking (ymd 2024 6 13) "basic" "pi_123") 2
                 (mkReservationRequest (karaoke_data (ymd 2024 6 13)) (Some "pi_456"))
                 (at_time 2024 6 3 10 0 0))).
    refine (reachable_step _ _ _
              (step_reservation empty_state 1
                 (mkReservationRequest (booking_data (ymd 2024 6 13) "basic" 1500)
                    (Some "pi_123"))
                 (at_time 2024 6 3 9 0 0))).
    exact reachable_empty. }
  split; [exact Hreach |].
  split; [vm_compute; reflexivity |].
  split; [vm_compute; reflexivity |].
  split; [vm_compute; reflexivity |].
  exact (group_capacity grouped_then_cancelled Hreach).
Defined.

(** C9, as stated, fails: the state in which a group of capacity 2 holds two
    CONFIRMED reservations is reached through the views; an administrator
    who saves the change form of that group with [max_participants] 1 leaves
    a group with two participants and a capacity of one. *)
Lemma group_capacity_broken_by_change_form :
  let st := EventGroupAdmin_change after_grouping smaller_group_form in
  reachable after_grouping
  /\ map EventGroup.max_participants (groups after_grouping) = [2]
  /\ map (participants_count after_grouping) (groups after_grouping) = [2]
  /\ map EventGroup.max_participants (groups st) = [1]
  /\ map (participants_count st) (groups st) = [2]
  /\ ~ (forall g, In g (groups st) ->
                  participants_count st g <= EventGroup.max_participants g).
Proof.
  cbv zeta. split.
  { refine (reachable_step _ _ _
              (step_create_group two_bookings (group_request [1; 2])
                 (at_time 2024 6 10 9 0 0))).
    refine (reachable_step _ _ _
              (step_reservation (after_booking (ymd 2024 6 13) "basic" "pi_123") 2
                 (mkReservationRequest (karaoke_data (ymd 2024 6 13)) (Some "pi_456"))
                 (at_time 2024 6 3 10 0 0))).
    refine (reachable_step _ _ _
              (step_reservation empty_state 1
                 (mkReservationRequest (booking_data (ymd 2024 6 13) "basic" 1500)
                    (Some "pi_123"))
                 (at_time 2024 6 3 9 0 0))).
    exact reachable_empty. }
  split; [vm_compute; reflexivity |]. split; [vm_compute; reflexivity |].
  split; [vm_compute; reflexivity |]. split; [vm_compute; reflexivity |].
  intros H.
  specialize (H (EventGroup.mk 1 "Groupe 1" (ymd 2024 6 13) "Bowling" "Bar du Marais"
                   "1 rue de Rivoli" eight_pm None 1 true (at_time 2024 6 10 9 0 0))).
  assert (Hin : In (EventGroup.mk 1 "Groupe 1" (ymd 2024 6 13) "Bowling"
                      "Bar du Marais" "1 rue de Rivoli" eight_pm None 1 true
                      (at_time 2024 6 10 9 0 0))
                   (groups (EventGroupAdmin_change after_grouping smaller_group_form)))
    by (vm_compute; left; reflexivity).
  specialize (H Hin). vm_compute in H. apply H. reflexivity.
Qed.

(** ** Paying with a ticket *)

Lemma startswith_append (p s : string) : startswith (String.append p s) p = true.
Proof.
  unfold startswith. induction p as [| c p IH]; cbn.
  - now destruct s.
  - destruct (Ascii.ascii_dec c c) as [_ | N]; [exact IH | now elim N].
Qed.

(** What a successful call of [UseTicketView.post] has done. *)
Lemma UseTicketView_post_inversion (st : State) (u tid : Z) (d : ReservationData)
    (now : datetime) (r : Reservation.t) (st1 : State) :
  UseTicketView_post st u (Some tid) (Some d) now = (inr r, st1) ->
  exists ticket used,
    objects_get (fun k => (UserTicket.id k =? tid) && (UserTicket.user k =? u))
                (tickets st) = Found ticket
    /\ UserTicket.is_valid ticket now = true
    /\ UserTicket.use_ticket ticket (Reservation.id r) now = Some used
    /\ reservations st1 = reservations st ++ [r]
    /\ tickets st1 = update_row UserTicket.id used (tickets st)
    /\ subscriptions st1 = subscriptions st
    /\ Reservation.id r = fresh_id (map Reservation.id (reservations st))
    /\ Reservation.user r = u
    /\ Reservation.status r = CONFIRMED
    /\ Reservation.paid_at r = Some now
    /\ Reservation.stripe_payment_intent_id r = String.append "ticket_" (str tid).
Proof.
  unfold UseTicketView_post.
  destruct (objects_get _ (tickets st)) as [ticket | |] eqn:Hg; try discriminate.
  destruct (UserTicket.is_valid ticket now) eqn:Hv; cbn [negb]; [| discriminate].
  destruct (rd_reservation_date d) as [| | D]; try discriminate.
  destruct (reservation_of_data u d D _ now) as [fields |] eqn:Hf; [| discriminate].
  destruct (reservation_of_data_fields _ _ _ _ _ _ Hf)
    as (Hfu & Hfs & Hfp & Hfr & _).
  destruct (Reservation_objects_create st now fields) as [[r1 st0] |] eqn:Hc;
    [| discriminate].
  destruct (Reservation_objects_create_spec _ _ _ _ _ Hc)
    as (Hres & _ & Htk & Hsub & _ & _ & _ & Hid & Hu & _ & _ & _ & _ & _ & _ & _
        & _ & _ & Hst & Href & Hpaid & _).
  destruct (UserTicket.use_ticket ticket (Reservation.id r1) now) as [used |] eqn:Huse;
    [| discriminate].
  intros [= <- <-]. exists ticket, used.
  destruct (objects_get_found_in _ _ _ Hg) as [_ Hp].
  apply andb_true_iff in Hp. destruct Hp as [Hp _]. apply Z.eqb_eq in Hp.
  cbn [reservations tickets subscriptions with_tickets].
  rewrite Htk. repeat apply conj; try congruence.
Qed.

(** X1.  A ticket pays one reservation.  When [UseTicketView.post] answers
    with a reservation, the ticket named in the request was a valid ticket of
    the user; the reservation is stored CONFIRMED and paid at the time of the
    request under the reference ["ticket_<id>"], whatever the amount of the
    ticket and the price of the reservation; the ticket is then USED for that
    reservation, and every later request with the same ticket is refused with
    status 400 and leaves the database as it is. *)
Theorem ticket_pays_one_reservation (st : State) (u tid : Z) (d : ReservationData)
    (now : datetime) (r : Reservation.t) (st1 : State) :
  NoDup (map UserTicket.id (tickets st)) ->
  UseTicketView_post st u (Some tid) (Some d) now = (inr r, st1) ->
  (exists ticket,
     In ticket (tickets st) /\ UserTicket.id ticket = tid
     /\ UserTicket.user ticket = u /\ UserTicket.is_valid ticket now = true)
  /\ In r (reservations st1)
  /\ Reservation.user r = u
  /\ Reservation.status r = CONFIRMED
  /\ Reservation.paid_at r = Some now
  /\ Reservation.stripe_payment_intent_id r = String.append "ticket_" (str tid)
  /\ (exists used,
        In used (tickets st1) /\ UserTicket.id used = tid
        /\ UserTicket.status used = TICKET_USED
        /\ UserTicket.used_for_reservation used = Some (Reservation.id r)
        /\ UserTicket.used_at used = Some now)
  /\ (forall d' later,
        UseTicketView_post st1 u (Some tid) (Some d') later
        = (inl (400, ticket_no_longer_valid), st1)).
Proof.
  intros Hnd H.
  destruct (UseTicketView_post_inversion _ _ _ _ _ _ _ H)
    as (ticket & used & Hg & Hv & Huse & Hres & Htk & _ & _ & Hu & Hst & Hpaid & Href).
  destruct (objects_get_found_in _ _ _ Hg) as [Hin Hp].
  apply andb_true_iff in Hp. destruct Hp as [Hid Huser].
  apply Z.eqb_eq in Hid, Huser.
  unfold UserTicket.use_ticket in Huse. rewrite Hv in Huse. cbn [negb] in Huse.
  injection Huse as <-.
  set (used := UserTicket.mk _ _ _ TICKET_USED _ _ _ _ _ _ _) in *.
  assert (Hfilter : filter (fun k => (UserTicket.id k =? tid) && (UserTicket.user k =? u))
                      (tickets st1) = [used]).
  { rewrite Htk. apply filter_update_row_same.
    - exact Hnd.
    - intros x Hx. apply andb_true_iff in Hx. destruct Hx as [Hx _].
      apply Z.eqb_eq in Hx. cbn. congruence.
    - cbn. apply andb_true_iff. split; apply Z.eqb_eq; assumption.
    - cbn. now apply in_map. }
  split; [exists ticket; tauto |].
  split; [rewrite Hres; apply in_or_app; right; now left |].
  do 4 (split; [assumption |]).
  split.
  { exists used. split.
    - rewrite Htk. apply (update_row_has _ _ _ ticket); [exact Hin | reflexivity].
    - cbn. tauto. }
  intros d' later. unfold UseTicketView_post, objects_get. rewrite Hfilter.
  reflexivity.
Qed.

Lemma ticket_pays_one_reservation_witness :
  UseTicketView_post cancelled_ticket_booking 1 (Some 1)
    (Some (booking_data (ymd 2024 6 20) "TICKET" 1500)) (at_time 2024 6 10 11 0 0)
  = (inr ticket_booking, snd ticket_payment)
  /\ UseTicketView_post (snd ticket_payment) 1 (Some 1)
       (Some (booking_data (ymd 2024 6 27) "TICKET" 1500)) (at_time 2024 6 10 11 5 0)
     = (inl (400, ticket_no_longer_valid), snd ticket_payment).
Proof.
  assert (Hnd : NoDup (map UserTicket.id (tickets cancelled_ticket_booking))).
  { vm_compute. repeat constructor. intros []. }
  assert (H : UseTicketView_post cancelled_ticket_booking 1 (Some 1)
                (Some (booking_data (ymd 2024 6 20) "TICKET" 1500))
                (at_time 2024 6 10 11 0 0)
              = (inr ticket_booking, snd ticket_payment)).
  { vm_compute. reflexivity. }
  split; [exact H |].
  apply (ticket_pays_one_reservation _ _ _ _ _ _ _ Hnd H).
Defined.

Lemma was_paid_with_ticket_reference (r : Reservation.t) (tid : Z) :
  Reservation.stripe_payment_intent_id r = String.append "ticket_" (str tid) ->
  was_paid_with_ticket r = true.
Proof.
  intros H. unfold was_paid_with_ticket. rewrite H, startswith_append. reflexivity.
Qed.

(** X2.  A reservation paid with a ticket is cancelled without any refund:
    when the reservation that [UseTicketView.post] has stored is cancelled,
    the answer announces no ticket, the table of tickets is left as it is,
    the ticket that paid stays USED, and the reservation is CANCELLED. *)
Theorem ticket_booking_cancelled_without_refund (st : State) (u tid : Z)
    (d : ReservationData) (now later : datetime) (r : Reservation.t)
    (st1 : State) (body : CancelBody) (st2 : State) :
  UseTicketView_post st u (Some tid) (Some d) now = (inr r, st1) ->
  ReservationCancelView_post st1 u (Reservation.id r) later = (Ok body, st2) ->
  body = mkCancelBody false None
  /\ tickets st2 = tickets st1
  /\ (forall k, In k (tickets st2) -> UserTicket.id k = tid ->
                UserTicket.status k = TICKET_USED)
  /\ (forall r', In r' (reservations st2) -> Reservation.id r' = Reservation.id r ->
                 Reservation.status r' = CANCELLED).
Proof.
  intros Huse Hcancel.
  destruct (UseTicketView_post_inversion _ _ _ _ _ _ _ Huse)
    as (ticket & used & Hg & Hv & Hused & Hres & Htk & _ & Hid & _ & _ & Hpaid & Href).
  destruct (cancel_ok_inversion _ _ _ _ _ _ Hcancel)
    as (r0 & deadline & st1' & Hg0 & _ & _ & Hc & Hsave).
  assert (Hr0 : r0 = r).
  { destruct (objects_get_found_in _ _ _ Hg0) as [Hin Hp].
    apply andb_true_iff in Hp. destruct Hp as [Hp _]. apply Z.eqb_eq in Hp.
    rewrite Hres in Hin. apply in_app_or in Hin. destruct Hin as [Hold | [E | []]].
    - exfalso. apply (fresh_id_not_in (map Reservation.id (reservations st))).
      rewrite <- Hid, <- Hp. now apply in_map.
    - now symmetry. }
  subst r0.
  pose proof (was_paid_with_ticket_reference r tid Href) as Hticket.
  assert (Hno : should_create_ticket r = false).
  { unfold should_create_ticket. rewrite Hticket. cbn [negb].
    now rewrite andb_false_r. }
  destruct (cancel_settlement_spec _ _ _ _ _ _ Hc)
    as (_ & Hres' & _ & _ & _ & Hcreated & Htk' & _).
  rewrite Hpaid, Hno in Hcreated. rewrite Hcreated in Htk'.
  assert (Hbody : body = mkCancelBody false None).
  { unfold cancel_settlement in Hc. rewrite Hpaid, Hno in Hc. cbv zeta in Hc.
    now injection Hc as <- _. }
  destruct (Reservation_save_spec _ _ _ Hsave)
    as (r' & Hr' & Hres2 & _ & Htk2 & _).
  destruct (Reservation_save_fields _ _ Hr') as (Hid' & _ & Hst' & _).
  cbn in Hid', Hst'.
  assert (Htickets : tickets st2 = tickets st1) by congruence.
  split; [exact Hbody |]. split; [exact Htickets |]. split.
  - intros k Hk Hkid. rewrite Htickets, Htk in Hk.
    unfold UserTicket.use_ticket in Hused. rewrite Hv in Hused. cbn [negb] in Hused.
    injection Hused as <-.
    destruct (objects_get_found_in _ _ _ Hg) as [_ Hp].
    apply andb_true_iff in Hp. destruct Hp as [Hp _]. apply Z.eqb_eq in Hp.
    apply update_row_in in Hk. destruct Hk as [[-> _] | [_ Hne]].
    + reflexivity.
    + cbn in Hne. congruence.
  - intros x Hx Hxid. rewrite Hres2 in Hx.
    apply update_row_in in Hx. destruct Hx as [[-> _] | [_ Hne]].
    + exact Hst'.
    + congruence.
Qed.

Lemma ticket_booking_cancelled_without_refund_witness :
  let st2 := snd (ReservationCancelView_post (snd ticket_payment) 1 2
                    (at_time 2024 6 10 12 0 0)) in
  map UserTicket.status (tickets (snd ticket_payment)) = [TICKET_USED]
  /\ ReservationCancelView_post (snd ticket_payment) 1 2 (at_time 2024 6 10 12 0 0)
     = (Ok (mkCancelBody false None), st2)
  /\ tickets st2 = tickets (snd ticket_payment).
Proof.
  cbv zeta.
  assert (H1 : UseTicketView_post cancelled_ticket_booking 1 (Some 1)
                 (Some (booking_data (ymd 2024 6 20) "TICKET" 1500))
                 (at_time 2024 6 10 11 0 0)
               = (inr ticket_booking, snd ticket_payment))
    by (vm_compute; reflexivity).
  assert (H2 : ReservationCancelView_post (snd ticket_payment) 1
                 (Reservation.id ticket_booking) (at_time 2024 6 10 12 0 0)
               = (Ok (mkCancelBody false None),
                  snd (ReservationCancelView_post (snd ticket_payment) 1 2
                         (at_time 2024 6 10 12 0 0))))
    by (vm_compute; reflexivity).
  split; [vm_compute; reflexivity |].
  split; [exact H2 |].
  apply (ticket_booking_cancelled_without_refund _ _ _ _ _ _ _ _ _ _ H1 H2).
Defined.

(** ** Lookups of the newest row *)

Lemma newest_by_none {A : Type} (key : A -> Z) (rows : list A) :
  newest_by key rows = None -> rows = [].
Proof.
  destruct rows as [| r rest]; [reflexivity |]. cbn [newest_by].
  destruct (newest_by key rest) as [r' |]; [| discriminate].
  destruct (key r <? key r'); [discriminate |].
  destruct (key r =? key r'); discriminate.
Qed.

(** [newest_by] picks the row with the greatest key, the last one among
    rows of equal keys. *)
Lemma newest_by_spec {A : Type} (key : A -> Z) (rows : list A) (x : A) :
  newest_by key rows = Some x
  <-> exists l1 l2,
        rows = l1 ++ x :: l2
        /\ (forall y, In y l1 -> key y <= key x)
        /\ (forall y, In y l2 -> key y < key x).
Proof.
  split.
  - revert x. induction rows as [| r rest IH]; intros x; cbn [newest_by];
      [discriminate |].
    destruct (newest_by key rest) as [r' |] eqn:E.
    + destruct (IH r' eq_refl) as (l1 & l2 & Hrest & H1 & H2).
      assert (Hcase : key r <= key r' ->
                      Some r' = Some x ->
                      exists l1 l2, r :: rest = l1 ++ x :: l2
                                    /\ (forall y, In y l1 -> key y <= key x)
                                    /\ (forall y, In y l2 -> key y < key x)).
      { intros Hle [= <-]. exists (r :: l1), l2. rewrite Hrest.
        split; [reflexivity |]. split; [| exact H2].
        intros y [<- | Hy]; [exact Hle | now apply H1]. }
      destruct (key r <? key r') eqn:Hlt.
      * apply Z.ltb_lt in Hlt. apply Hcase. lia.
      * destruct (key r =? key r') eqn:Heq.
        -- apply Z.eqb_eq in Heq. apply Hcase. lia.
        -- intros [= <-]. apply Z.ltb_ge in Hlt. apply Z.eqb_neq in Heq.
           exists [], rest. split; [reflexivity |]. split; [intros y [] |].
           intros y Hy. rewrite Hrest in Hy. apply in_app_or in Hy.
           destruct Hy as [Hy | [<- | Hy]].
           ++ specialize (H1 y Hy). lia.
           ++ lia.
           ++ specialize (H2 y Hy). lia.
    + intros [= <-]. apply newest_by_none in E. subst rest.
      exists [], []. split; [reflexivity |]. split; intros y [].
  - intros (l1 & l2 & -> & H1 & H2). induction l1 as [| a l1 IH].
    + cbn [app newest_by]. destruct (newest_by key l2) as [r' |] eqn:E;
        [| reflexivity].
      apply newest_by_in in E. specialize (H2 r' E).
      destruct (key x <? key r') eqn:Hlt; [apply Z.ltb_lt in Hlt; lia |].
      destruct (key x =? key r') eqn:Heq; [apply Z.eqb_eq in Heq; lia |].
      reflexivity.
    + cbn [app newest_by]. rewrite IH by (intros y Hy; apply H1; now right).
      assert (Ha : key a <= key x) by (apply H1; now left).
      destruct (key a <? key x) eqn:Hlt; [reflexivity |].
      destruct (key a =? key x) eqn:Heq; [reflexivity |].
      apply Z.ltb_ge in Hlt. apply Z.eqb_neq in Heq. lia.
Qed.

(** The newest row stays the newest one of every selection that keeps it. *)
Lemma newest_by_filter {A : Type} (key : A -> Z) (p : A -> bool) (rows : list A)
    (x : A) :
  newest_by key rows = Some x -> p x = true ->
  newest_by key (filter p rows) = Some x.
Proof.
  intros H Hp. apply newest_by_spec in H. destruct H as (l1 & l2 & -> & H1 & H2).
  apply newest_by_spec. exists (filter p l1), (filter p l2).
  rewrite filter_app. cbn [filter]. rewrite Hp. split; [reflexivity |].
  split; intros y Hy; apply filter_In in Hy; [apply H1 | apply H2]; tauto.
Qed.

Lemma filter_filter_implies {A : Type} (p q : A -> bool) (l : list A) :
  (forall y, q y = true -> p y = true) -> filter q (filter p l) = filter q l.
Proof.
  intros H. induction l as [| y l IH]; [reflexivity |]. cbn [filter].
  destruct (p y) eqn:Hp.
  - cbn [filter]. destruct (q y); now rewrite IH.
  - destruct (q y) eqn:Hq; [| exact IH]. rewrite (H y Hq) in Hp. discriminate.
Qed.

Lemma filter_map_commute {A : Type} (f : A -> A) (p : A -> bool) (l : list A) :
  (forall y, In y l -> p (f y) = p y) -> filter p (map f l) = map f (filter p l).
Proof.
  induction l as [| y l IH]; intros H; [reflexivity |]. cbn [map filter].
  rewrite (H y) by now left.
  rewrite IH by (intros z Hz; apply H; now right).
  now destruct (p y).
Qed.

Lemma newest_by_map {A : Type} (f : A -> A) (key : A -> Z) (l : list A) :
  (forall y, In y l -> key (f y) = key y) ->
  newest_by key (map f l) = option_map f (newest_by key l).
Proof.
  induction l as [| y l IH]; intros H; [reflexivity |]. cbn [map newest_by].
  rewrite IH by (intros z Hz; apply H; now right).
  destruct (newest_by key l) as [r' |] eqn:E; cbn [option_map]; [| reflexivity].
  rewrite (H y) by now left.
  rewrite (H r') by (right; eapply newest_by_in; exact E).
  destruct (key y <? key r'); [reflexivity |].
  destruct (key y =? key r'); reflexivity.
Qed.

Lemma NoDup_map_eq {A : Type} (pk : A -> Z) (l : list A) (a b : A) :
  NoDup (map pk l) -> In a l -> In b l -> pk a = pk b -> a = b.
Proof.
  induction l as [| x l IH]; intros Hnd Ha Hb E; [destruct Ha |].
  cbn [map] in Hnd. apply NoDup_cons_iff in Hnd. destruct Hnd as [Hx Hnd].
  destruct Ha as [<- | Ha], Hb as [<- | Hb].
  - reflexivity.
  - exfalso. apply Hx. rewrite E. now apply in_map.
  - exfalso. apply Hx. rewrite <- E. now apply in_map.
  - now apply IH.
Qed.

(** Saving a row that keeps its ordering key and its place in a selection
    does not change which row a lookup of the newest one finds. *)
Lemma newest_by_filter_update_row {A : Type} (pk key : A -> Z) (p : A -> bool)
    (row old : A) (table : list A) :
  NoDup (map pk table) -> In old table ->
  pk row = pk old -> key row = key old -> p row = p old ->
  newest_by key (filter p (update_row pk row table))
  = option_map (fun r => if pk r =? pk row then row else r)
               (newest_by key (filter p table)).
Proof.
  intros Hnd Hin Hpk Hkey Hp. unfold update_row.
  assert (Hsame : forall y, In y table ->
            (if pk y =? pk row then row else y) = y \/ (y = old /\ pk y = pk row)).
  { intros y Hy. destruct (pk y =? pk row) eqn:E; [| now left].
    apply Z.eqb_eq in E. right. split; [| exact E].
    apply (NoDup_map_eq pk table); [exact Hnd | exact Hy | exact Hin | congruence]. }
  rewrite filter_map_commute.
  - apply newest_by_map. intros y Hy. apply filter_In in Hy. destruct Hy as [Hy _].
    destruct (Hsame y Hy) as [-> | [-> E]]; [reflexivity |].
    rewrite Z.eqb_refl || (apply Z.eqb_eq in E; rewrite E). exact Hkey.
  - intros y Hy. destruct (Hsame y Hy) as [-> | [-> E]]; [reflexivity |].
    apply Z.eqb_eq in E. rewrite E. exact Hp.
Qed.

Lemma update_row_fresh {A : Type} (pk : A -> Z) (row : A) (table : list A) :
  ~ In (pk row) (map pk table) -> update_row pk row table = table.
Proof.
  unfold update_row. induction table as [| r table IH]; intros H; [reflexivity |].
  cbn [map] in *. destruct (pk r =? pk row) eqn:E.
  - apply Z.eqb_eq in E. exfalso. apply H. now left.
  - f_equal. apply IH. intros Hin. apply H. now right.
Qed.

Lemma update_row_app {A : Type} (pk : A -> Z) (row r : A) (table : list A) :
  pk r = pk row ->
  update_row pk row (table ++ [r]) = update_row pk row table ++ [row].
Proof.
  intros E. unfold update_row. rewrite map_app. cbn [map].
  now rewrite E, Z.eqb_refl.
Qed.

Lemma find_fresh {A : Type} (pk : A -> Z) (x : Z) (old : list A) (r : A) :
  ~ In x (map pk old) -> pk r = x ->
  find (fun y => pk y =? x) (old ++ [r]) = Some r.
Proof.
  intros Hnot Hr. induction old as [| y old IH]; cbn [app find].
  - rewrite Hr, Z.eqb_refl. reflexivity.
  - cbn [map] in Hnot. destruct (pk y =? x) eqn:E.
    + apply Z.eqb_eq in E. exfalso. apply Hnot. now left.
    + apply IH. intros Hin. apply Hnot. now right.
Qed.

(** ** Subscriptions *)

Lemma get_active_subscription_found (table : list UserSubscription.t) (u : Z)
    (now : datetime) (s : UserSubscription.t) :
  UserSubscription.get_active_subscription table u now = Some s ->
  In s table /\ UserSubscription.user s = u
  /\ UserSubscription.status s = SUB_ACTIVE /\ now < UserSubscription.end_date s.
Proof.
  unfold UserSubscription.get_active_subscription. intros H.
  apply newest_by_in in H. apply filter_In in H. destruct H as [Hin Hp].
  apply andb_true_iff in Hp. destruct Hp as [Hp Hend].
  apply andb_true_iff in Hp. destruct Hp as [Hu Hst].
  apply Z.eqb_eq in Hu. apply Z.gtb_lt in Hend.
  destruct (UserSubscription.status s); try discriminate. tauto.
Qed.

(** X3.  What [get_active_subscription] finds.  The subscription returned
    belongs to the user, is ACTIVE, ends strictly after the time of the call
    and is the most recently created one of that kind; nothing is returned
    exactly when every ACTIVE subscription of the user has ended, one that
    ends at the very time of the call included although [is_active] still
    holds for it. *)
Theorem active_subscription_lookup (table : list UserSubscription.t) (u : Z)
    (now : datetime) :
  (forall s,
     UserSubscription.get_active_subscription table u now = Some s ->
     In s table /\ UserSubscription.user s = u
     /\ UserSubscription.status s = SUB_ACTIVE
     /\ now < UserSubscription.end_date s
     /\ UserSubscription.is_active s now = true
     /\ (forall s', In s' table -> UserSubscription.user s' = u ->
                    UserSubscription.status s' = SUB_ACTIVE ->
                    now < UserSubscription.end_date s' ->
                    UserSubscription.created_at s' <= UserSubscription.created_at s))
  /\ (UserSubscription.get_active_subscription table u now = None
      <-> forall s, In s table -> UserSubscription.user s = u ->
                    UserSubscription.status s = SUB_ACTIVE ->
                    UserSubscription.end_date s <= now)
  /\ (forall s, In s table -> UserSubscription.user s = u ->
                UserSubscription.status s = SUB_ACTIVE ->
                UserSubscription.end_date s = now ->
                UserSubscription.is_active s now = true
                /\ UserSubscription.get_active_subscription table u now <> Some s).
Proof.
  split; [| split].
  - intros s H. destruct (get_active_subscription_found _ _ _ _ H)
      as (Hin & Hu & Hst & Hend).
    do 4 (split; [assumption |]). split.
    + unfold UserSubscription.is_active. rewrite Hst. apply Z.leb_le. lia.
    + intros s' Hin' Hu' Hst' Hend'.
      unfold UserSubscription.get_active_subscription in H.
      apply newest_by_spec in H. destruct H as (l1 & l2 & Hl & H1 & H2).
      assert (Hs' : In s' (l1 ++ s :: l2)).
      { rewrite <- Hl. apply filter_In. split; [exact Hin' |].
        rewrite Hst'. rewrite (proj2 (Z.eqb_eq _ _) Hu').
        rewrite (proj2 (Z.gtb_lt _ _) Hend'). reflexivity. }
      apply in_app_or in Hs'. destruct Hs' as [Hs' | [<- | Hs']].
      * now apply H1.
      * lia.
      * specialize (H2 s' Hs'). lia.
  - unfold UserSubscription.get_active_subscription. split.
    + intros H s Hin Hu Hst. apply newest_by_none in H.
      destruct (Z.le_gt_cases (UserSubscription.end_date s) now) as [Hle | Hgt];
        [exact Hle |].
      exfalso.
      assert (Hs : In s []).
      { rewrite <- H. apply filter_In. split; [exact Hin |].
        rewrite Hst. rewrite (proj2 (Z.eqb_eq _ _) Hu).
        rewrite (proj2 (Z.gtb_lt _ _) Hgt). reflexivity. }
      destruct Hs.
    + intros H. rewrite filter_none; [reflexivity |].
      intros s Hin. destruct (UserSubscription.user s =? u) eqn:Hu; [| reflexivity].
      apply Z.eqb_eq in Hu.
      destruct (UserSubscription.status s) eqn:Hst; try reflexivity.
      specialize (H s Hin Hu Hst). cbn [andb].
      rewrite Z.gtb_ltb. apply Z.ltb_ge. exact H.
  - intros s Hin Hu Hst Hend. split.
    + unfold UserSubscription.is_active. rewrite Hst. apply Z.leb_le. lia.
    + intros H. apply get_active_subscription_found in H. lia.
Qed.

Lemma active_subscription_lookup_witness :
  UserSubscription.get_active_subscription [monthly_subscription] 1
    (at_time 2024 6 3 9 0 0) = Some monthly_subscription
  /\ UserSubscription.is_active monthly_subscription (at_time 2024 6 3 9 0 0) = true
  /\ UserSubscription.is_active monthly_subscription (at_time 2024 7 1 0 0 0) = true
  /\ UserSubscription.get_active_subscription [monthly_subscription] 1
       (at_time 2024 7 1 0 0 0) <> Some monthly_subscription.
Proof.
  assert (H : UserSubscription.get_active_subscription [monthly_subscription] 1
                (at_time 2024 6 3 9 0 0) = Some monthly_subscription)
    by (vm_compute; reflexivity).
  destruct (active_subscription_lookup [monthly_subscription] 1
              (at_time 2024 6 3 9 0 0)) as (Hfound & _ & _).
  destruct (Hfound monthly_subscription H) as (_ & _ & _ & _ & Hactive & _).
  destruct (active_subscription_lookup [monthly_subscription] 1
              (at_time 2024 7 1 0 0 0)) as (_ & _ & Hedge).
  split; [exact H |]. split; [exact Hactive |].
  apply (Hedge monthly_subscription); [now left | reflexivity | reflexivity |].
  vm_compute. reflexivity.
Defined.

(** What a successful call of [CreateReservationWithSubscriptionView.post]
    has done. *)
Lemma subscription_booking_inversion (st : State) (u : Z) (d : ReservationData)
    (now : datetime) (r : Reservation.t) (st1 : State) :
  CreateReservationWithSubscriptionView_post st u d now = (Ok r, st1) ->
  exists sub,
    UserSubscription.get_active_subscription (subscriptions st) u now = Some sub
    /\ UserSubscription.can_make_reservation sub (reservations st) now = Some true
    /\ reservations st1 = reservations st ++ [r]
    /\ subscriptions st1
       = update_row UserSubscription.id
           (UserSubscription.use_for_reservation sub (Reservation.id r))
           (subscriptions st)
    /\ tickets st1 = tickets st
    /\ Reservation.id r = fresh_id (map Reservation.id (reservations st))
    /\ Reservation.user r = u
    /\ Reservation.status r = CONFIRMED
    /\ Reservation.paid_at r = Some now
    /\ Reservation.price_plan r = "SUBSCRIPTION"
    /\ Reservation.price_amount r = 0
    /\ Reservation.stripe_payment_intent_id r
       = String.append "subscription_" (str (UserSubscription.id sub)).
Proof.
  unfold CreateReservationWithSubscriptionView_post.
  destruct (UserSubscription.get_active_subscription _ u now) as [sub |] eqn:Hsub;
    [| discriminate].
  destruct (UserSubscription.can_make_reservation sub _ now) as [[|] |] eqn:Hcan;
    try discriminate.
  destruct (rd_reservation_date d) as [| | D]; try discriminate.
  intros H. exists sub. split; [reflexivity |]. split; [exact Hcan |].
  revert H.
  destruct (rd_reservation_time d); try discriminate;
    (destruct (Reservation_objects_create st now _) as [[r1 st0] |] eqn:Hc;
     [| discriminate];
     destruct (Reservation_objects_create_spec _ _ _ _ _ Hc)
       as (Hres & _ & Htk & Hsubs & _ & _ & _ & Hid & Hu & _ & _ & _ & _ & _ & _
           & Hplan & Ham & _ & Hst & Href & Hpaid & _);
     cbn in Hu, Hplan, Ham, Hst, Href, Hpaid;
     destruct (minus_days D 2) as [t |]; [| discriminate];
     destruct (Reservation_save st0 _) as [st2 |] eqn:Hsave; [| discriminate];
     destruct (Reservation_save_spec _ _ _ Hsave)
       as (r' & Hr' & Hres2 & _ & Htk2 & Hsubs2 & _);
     cbn in Hr'; injection Hr' as <-;
     intros [= <- <-];
     cbn [reservations subscriptions tickets with_subscriptions];
     rewrite Hres2, Hres, Hsubs2, Hsubs, Htk2, Htk;
     unfold update_row at 1; rewrite map_app; cbn [map];
     cbn [Reservation.id Reservation.with_cancellation_deadline];
     rewrite Z.eqb_refl;
     change (map (fun r0 => if Reservation.id r0 =? Reservation.id r1
                            then Reservation.with_cancellation_deadline r1
                                   (Some (combine t 23 59 0))
                            else r0) (reservations st))
       with (update_row Reservation.id
               (Reservation.with_cancellation_deadline r1 (Some (combine t 23 59 0)))
               (reservations st));
     rewrite update_row_fresh
       by (cbn [Reservation.id Reservation.with_cancellation_deadline];
           rewrite Hid; apply fresh_id_not_in);
     cbn; repeat apply conj; try reflexivity; assumption).
Qed.

(** X4.  A subscription holds one reservation at a time.  When
    [CreateReservationWithSubscriptionView.post] answers with a reservation,
    that reservation is stored CONFIRMED, paid at the time of the request,
    free of charge and under the reference ["subscription_<id>"] of the
    subscription that [get_active_subscription] finds; the subscription now
    points to it, and as long as the subscription has not ended every further
    request of the user is refused with status 400 and writes nothing. *)
Theorem subscription_holds_one_reservation (st : State) (u : Z)
    (d : ReservationData) (now : datetime) (r : Reservation.t) (st1 : State) :
  NoDup (map UserSubscription.id (subscriptions st)) ->
  CreateReservationWithSubscriptionView_post st u d now = (Ok r, st1) ->
  exists sub,
    UserSubscription.get_active_subscription (subscriptions st) u now = Some sub
    /\ In r (reservations st1)
    /\ Reservation.status r = CONFIRMED
    /\ Reservation.paid_at r = Some now
    /\ Reservation.price_amount r = 0
    /\ Reservation.stripe_payment_intent_id r
       = String.append "subscription_" (str (UserSubscription.id sub))
    /\ (forall later,
          now <= later < UserSubscription.end_date sub ->
          UserSubscription.get_active_subscription (subscriptions st1) u later
          = Some (UserSubscription.use_for_reservation sub (Reservation.id r)))
    /\ (forall d' later,
          now <= later < UserSubscription.end_date sub ->
          CreateReservationWithSubscriptionView_post st1 u d' later
          = (Error 400 subscription_slot_taken, st1)).
Proof.
  intros Hnd H.
  destruct (subscription_booking_inversion _ _ _ _ _ _ H)
    as (sub & Hsub & _ & Hres & Hsubs & _ & Hid & _ & Hst & Hpaid & _ & Ham & Href).
  exists sub.
  destruct (get_active_subscription_found _ _ _ _ Hsub) as (Hin & Hu & Hact & Hend).
  assert (Hlater : forall later,
            now <= later < UserSubscription.end_date sub ->
            UserSubscription.get_active_subscription (subscriptions st1) u later
            = Some (UserSubscription.use_for_reservation sub (Reservation.id r))).
  { intros later [Hle Hlt]. unfold UserSubscription.get_active_subscription.
    rewrite Hsubs.
    rewrite (newest_by_filter_update_row UserSubscription.id
               UserSubscription.created_at _ _ sub);
      [| exact Hnd | exact Hin | reflexivity | reflexivity | reflexivity].
    rewrite <- (filter_filter_implies
                  (fun s => (UserSubscription.user s =? u)
                            && match UserSubscription.status s with
                               | SUB_ACTIVE => true
                               | _ => false
                               end
                            && (UserSubscription.end_date s >? now))).
    - rewrite (newest_by_filter _ _ _ sub).
      + cbn [option_map UserSubscription.id UserSubscription.use_for_reservation
               UserSubscription.with_usage].
        now rewrite Z.eqb_refl.
      + exact Hsub.
      + rewrite Hact, (proj2 (Z.eqb_eq _ _) Hu).
        rewrite (proj2 (Z.gtb_lt _ _) Hlt). reflexivity.
    - intros y Hy. apply andb_true_iff in Hy. destruct Hy as [Hy Hy'].
      rewrite Hy. cbn [andb]. apply Z.gtb_lt in Hy'. apply Z.gtb_lt. lia. }
  split; [exact Hsub |].
  split; [rewrite Hres; apply in_or_app; right; now left |].
  do 4 (split; [assumption |]).
  split; [exact Hlater |].
  intros d' later Hrange. unfold CreateReservationWithSubscriptionView_post.
  rewrite (Hlater later Hrange).
  unfold UserSubscription.can_make_reservation, UserSubscription.is_active.
  cbn [UserSubscription.status UserSubscription.end_date
       UserSubscription.current_reservation UserSubscription.use_for_reservation
       UserSubscription.with_usage].
  rewrite Hact. rewrite (proj2 (Z.leb_le later (UserSubscription.end_date sub)))
    by lia.
  cbn [negb]. rewrite Hres.
  rewrite (find_fresh Reservation.id (Reservation.id r) (reservations st) r);
    [| rewrite Hid; apply fresh_id_not_in | reflexivity].
  rewrite Hst. reflexivity.
Qed.

Lemma subscription_holds_one_reservation_witness :
  let st := with_subscriptions empty_state [monthly_subscription] in
  let now := at_time 2024 6 3 9 0 0 in
  let st1 := after_subscription_booking (ymd 2024 6 13) in
  map Reservation.status (reservations st1) = [CONFIRMED]
  /\ map UserSubscription.current_reservation (subscriptions st1) = [Some 1]
  /\ CreateReservationWithSubscriptionView_post st1 1
       (booking_data (ymd 2024 6 20) "SUBSCRIPTION" 0) (at_time 2024 6 4 9 0 0)
     = (Error 400 subscription_slot_taken, st1).
Proof.
  cbv zeta.
  assert (Hnd : NoDup (map UserSubscription.id
                         (subscriptions
                            (with_subscriptions empty_state [monthly_subscription])))).
  { vm_compute. repeat constructor. intros []. }
  assert (H : CreateReservationWithSubscriptionView_post
                (with_subscriptions empty_state [monthly_subscription]) 1
                (booking_data (ymd 2024 6 13) "SUBSCRIPTION" 0)
                (at_time 2024 6 3 9 0 0)
              = (Ok (Reservation.mk 1 1 "Bowling" "" (ymd 2024 6 13) eight_pm "Paris"
                       "" "SUBSCRIPTION" 0 "EUR" CONFIRMED "subscription_1"
                       (Some (at_time 2024 6 3 9 0 0)) 1 "" (at_time 2024 6 3 9 0 0)
                       (Some (at_time 2024 6 11 23 59 0))),
                 after_subscription_booking (ymd 2024 6 13)))
    by (vm_compute; reflexivity).
  destruct (subscription_holds_one_reservation _ _ _ _ _ _ Hnd H)
    as (sub & Hsub & _ & _ & _ & _ & _ & _ & Hagain).
  assert (E : sub = monthly_subscription).
  { vm_compute in Hsub. now injection Hsub as <-. }
  subst sub.
  split; [vm_compute; reflexivity |]. split; [vm_compute; reflexivity |].
  apply Hagain. vm_compute. split; [discriminate | reflexivity].
Defined.

Lemma update_row_twice {A : Type} (pk : A -> Z) (a b : A) (table : list A) :
  pk a = pk b ->
  update_row pk a (update_row pk b table) = update_row pk a table.
Proof.
  intros E. unfold update_row. rewrite map_map. apply map_ext. intros y.
  destruct (pk y =? pk b) eqn:Hb.
  - rewrite E, Z.eqb_refl. apply Z.eqb_eq in Hb. now rewrite Hb, Z.eqb_refl.
  - reflexivity.
Qed.

Lemma update_row_stored {A : Type} (pk : A -> Z) (row : A) (table : list A) :
  NoDup (map pk table) -> In row table -> update_row pk row table = table.
Proof.
  intros Hnd Hin. unfold update_row. rewrite <- (map_id table) at 2.
  apply map_ext_in. intros y Hy. destruct (pk y =? pk row) eqn:E; [| reflexivity].
  apply Z.eqb_eq in E. symmetry.
  now apply (NoDup_map_eq pk table).
Qed.

(** The only row of a selection after the save of a row that enters it. *)
Lemma filter_update_row_only {A : Type} (pk : A -> Z) (p : A -> bool)
    (row old : A) (table : list A) :
  NoDup (map pk table) -> In old table -> pk row = pk old -> p row = true ->
  (forall y, In y table -> pk y <> pk old -> p y = false) ->
  filter p (update_row pk row table) = [row].
Proof.
  intros Hnd Hin Hpk Hrow Hothers. unfold update_row.
  induction table as [| y table IH]; [destruct Hin |].
  cbn [map] in Hnd. apply NoDup_cons_iff in Hnd. destruct Hnd as [Hy Hnd].
  cbn [map filter]. destruct Hin as [-> | Hin].
  - rewrite Hpk, Z.eqb_refl, Hrow. f_equal.
    apply filter_none. intros z Hz. apply in_map_iff in Hz.
    destruct Hz as (w & <- & Hw).
    assert (Hne : pk w <> pk old).
    { intros E. apply Hy. rewrite <- E. now apply in_map. }
    rewrite (proj2 (Z.eqb_neq _ _) Hne). apply Hothers; [now right | exact Hne].
  - assert (Hne : pk y <> pk old).
    { intros E. apply Hy. rewrite E. now apply in_map. }
    rewrite Hpk, (proj2 (Z.eqb_neq _ _) Hne).
    rewrite (Hothers y (or_introl eq_refl) Hne).
    rewrite <- Hpk. apply IH; [exact Hnd | exact Hin |].
    intros z Hz. apply Hothers. now right.
Qed.

Lemma was_paid_with_subscription_reference (r : Reservation.t) (sid : Z) :
  Reservation.stripe_payment_intent_id r = String.append "subscription_" (str sid) ->
  was_paid_with_subscription r = true.
Proof.
  intros H. unfold was_paid_with_subscription. rewrite H, startswith_append.
  reflexivity.
Qed.

(** X5.  Booking through a subscription and cancelling gives the slot back.
    In a database where subscriptions point to stored reservations, when the
    reservation that [CreateReservationWithSubscriptionView.post] has stored
    is cancelled, no ticket is issued, and the subscription that paid has
    its counter of reservations back at the value before the booking and
    points to no reservation; if it pointed to none before the booking, the
    table of subscriptions is the one before the booking. *)
Theorem subscription_slot_released_on_cancel (st : State) (u : Z) (d : ReservationData)
    (now later : datetime) (r : Reservation.t) (st1 : State) (body : CancelBody)
    (st2 : State) :
  NoDup (map UserSubscription.id (subscriptions st)) ->
  (forall s rid, In s (subscriptions st) ->
                 UserSubscription.current_reservation s = Some rid ->
                 In rid (map Reservation.id (reservations st))) ->
  (forall s, In s (subscriptions st) -> 0 <= UserSubscription.reservations_used s) ->
  CreateReservationWithSubscriptionView_post st u d now = (Ok r, st1) ->
  ReservationCancelView_post st1 u (Reservation.id r) later = (Ok body, st2) ->
  exists sub,
    UserSubscription.get_active_subscription (subscriptions st) u now = Some sub
    /\ body = mkCancelBody false None
    /\ tickets st2 = tickets st
    /\ subscriptions st2
       = update_row UserSubscription.id
           (UserSubscription.with_usage sub (UserSubscription.reservations_used sub) None)
           (subscriptions st)
    /\ (UserSubscription.current_reservation sub = None ->
        subscriptions st2 = subscriptions st).
Proof.
  intros Hnd Hfk Hused Hbook Hcancel.
  destruct (subscription_booking_inversion _ _ _ _ _ _ Hbook)
    as (sub & Hsub & _ & Hres & Hsubs & Htk & Hid & _ & _ & Hpaid & Hplan & _ & Href).
  exists sub. split; [exact Hsub |].
  destruct (get_active_subscription_found _ _ _ _ Hsub) as (Hin & Hu & _ & _).
  destruct (cancel_ok_inversion _ _ _ _ _ _ Hcancel)
    as (r0 & deadline & st1' & Hg0 & _ & _ & Hc & Hsave).
  assert (Hfresh : ~ In (Reservation.id r) (map Reservation.id (reservations st))).
  { rewrite Hid. apply fresh_id_not_in. }
  assert (Hr0 : r0 = r).
  { destruct (objects_get_found_in _ _ _ Hg0) as [Hin0 Hp].
    apply andb_true_iff in Hp. destruct Hp as [Hp _]. apply Z.eqb_eq in Hp.
    rewrite Hres in Hin0. apply in_app_or in Hin0.
    destruct Hin0 as [Hold | [E | []]]; [| now symmetry].
    exfalso. apply Hfresh. rewrite <- Hp. now apply in_map. }
  subst r0.
  pose proof (was_paid_with_subscription_reference r _ Href) as Hbysub.
  assert (Hno : should_create_ticket r = false).
  { unfold should_create_ticket. rewrite Hbysub. cbn [negb].
    now rewrite andb_false_r. }
  assert (Hholding : subscription_holding st1 u r
                     = Some (UserSubscription.use_for_reservation sub (Reservation.id r))).
  { unfold subscription_holding. rewrite Hsubs.
    rewrite (filter_update_row_only UserSubscription.id _ _ sub);
      [reflexivity | exact Hnd | exact Hin | reflexivity | |].
    - cbn. rewrite Hu, !Z.eqb_refl. reflexivity.
    - intros y Hy _. destruct (UserSubscription.current_reservation y) as [rid |] eqn:E;
        [| now rewrite andb_false_r].
      destruct (rid =? Reservation.id r) eqn:E'; [| now rewrite andb_false_r].
      apply Z.eqb_eq in E'. exfalso. apply Hfresh. rewrite <- E'.
      now apply (Hfk y). }
  destruct (cancel_settlement_spec _ _ _ _ _ _ Hc)
    as (_ & _ & _ & _ & _ & Hcreated & Htk' & Hsubs').
  rewrite Hpaid, Hno in Hcreated. rewrite Hcreated in Htk'.
  rewrite Hpaid, Hbysub, Hholding in Hsubs'.
  assert (Hbody : body = mkCancelBody false None).
  { unfold cancel_settlement in Hc. rewrite Hpaid, Hno in Hc. cbv zeta in Hc.
    now injection Hc as <- _. }
  destruct (Reservation_save_spec _ _ _ Hsave)
    as (r' & _ & _ & _ & Htk2 & Hsubs2 & _).
  assert (Hback : subscriptions st2
                  = update_row UserSubscription.id
                      (UserSubscription.with_usage sub
                         (UserSubscription.reservations_used sub) None)
                      (subscriptions st)).
  { rewrite Hsubs2, Hsubs', Hsubs.
    cbn [UserSubscription.release_reservation UserSubscription.use_for_reservation
         UserSubscription.with_usage UserSubscription.current_reservation
         UserSubscription.reservations_used fst].
    rewrite update_row_twice by reflexivity.
    specialize (Hused sub Hin).
    replace (Z.max 0 (UserSubscription.reservations_used sub + 1 - 1))
      with (UserSubscription.reservations_used sub) by lia.
    reflexivity. }
  split; [exact Hbody |]. split; [congruence |]. split; [exact Hback |].
  intros Hnone. rewrite Hback.
  replace (UserSubscription.with_usage sub (UserSubscription.reservations_used sub) None)
    with sub by (destruct sub; cbn in *; now subst).
  now apply update_row_stored.
Qed.

Lemma subscription_slot_released_on_cancel_witness :
  let st := with_subscriptions empty_state [monthly_subscription] in
  let st1 := after_subscription_booking (ymd 2024 6 13) in
  let st2 := snd (ReservationCancelView_post st1 1 1 (at_time 2024 6 10 10 0 0)) in
  map UserSubscription.reservations_used (subscriptions st1) = [1]
  /\ ReservationCancelView_post st1 1 1 (at_time 2024 6 10 10 0 0)
     = (Ok (mkCancelBody false None), st2)
  /\ subscriptions st2 = subscriptions st.
Proof.
  cbv zeta.
  set (st := with_subscriptions empty_state [monthly_subscription]).
  assert (Hnd : NoDup (map UserSubscription.id (subscriptions st))).
  { vm_compute. repeat constructor. intros []. }
  assert (Hfk : forall s rid, In s (subscriptions st) ->
                  UserSubscription.current_reservation s = Some rid ->
                  In rid (map Reservation.id (reservations st))).
  { intros s rid [<- | []]. discriminate. }
  assert (Hused : forall s, In s (subscriptions st) ->
                    0 <= UserSubscription.reservations_used s).
  { intros s [<- | []]. vm_compute. discriminate. }
  assert (H1 : CreateReservationWithSubscriptionView_post st 1
                 (booking_data (ymd 2024 6 13) "SUBSCRIPTION" 0)
                 (at_time 2024 6 3 9 0 0)
               = (Ok (Reservation.mk 1 1 "Bowling" "" (ymd 2024 6 13) eight_pm "Paris"
                        "" "SUBSCRIPTION" 0 "EUR" CONFIRMED "subscription_1"
                        (Some (at_time 2024 6 3 9 0 0)) 1 "" (at_time 2024 6 3 9 0 0)
                        (Some (at_time 2024 6 11 23 59 0))),
                  after_subscription_booking (ymd 2024 6 13)))
    by (vm_compute; reflexivity).
  assert (H2 : ReservationCancelView_post (after_subscription_booking (ymd 2024 6 13)) 1
                 (Reservation.id
                    (Reservation.mk 1 1 "Bowling" "" (ymd 2024 6 13) eight_pm "Paris"
                       "" "SUBSCRIPTION" 0 "EUR" CONFIRMED "subscription_1"
                       (Some (at_time 2024 6 3 9 0 0)) 1 "" (at_time 2024 6 3 9 0 0)
                       (Some (at_time 2024 6 11 23 59 0))))
                 (at_time 2024 6 10 10 0 0)
               = (Ok (mkCancelBody false None),
                  snd (ReservationCancelView_post
                         (after_subscription_booking (ymd 2024 6 13)) 1 1
                         (at_time 2024 6 10 10 0 0))))
    by (vm_compute; reflexivity).
  destruct (subscription_slot_released_on_cancel _ _ _ _ _ _ _ _ _ Hnd Hfk Hused H1 H2)
    as (sub & Hsub & _ & _ & _ & Hsame).
  assert (E : sub = monthly_subscription).
  { vm_compute in Hsub. now injection Hsub as <-. }
  subst sub.
  split; [vm_compute; reflexivity |]. split; [exact H2 |].
  apply Hsame. reflexivity.
Defined.

Lemma get_active_subscription_later (table : list UserSubscription.t) (u : Z)
    (now later : datetime) :
  now <= later ->
  UserSubscription.get_active_subscription table u now = None ->
  UserSubscription.get_active_subscription table u later = None.
Proof.
  unfold UserSubscription.get_active_subscription. intros Hle H.
  apply newest_by_none in H.
  rewrite <- (filter_filter_implies
                (fun s => (UserSubscription.user s =? u)
                          && match UserSubscription.status s with
                             | SUB_ACTIVE => true
                             | _ => false
                             end
                          && (UserSubscription.end_date s >? now))).
  - rewrite H. reflexivity.
  - intros y Hy. apply andb_true_iff in Hy. destruct Hy as [Hy Hy'].
    rewrite Hy. cbn [andb]. apply Z.gtb_lt in Hy'. apply Z.gtb_lt. lia.
Qed.

Lemma get_active_subscription_app_none (table : list UserSubscription.t)
    (s : UserSubscription.t) (u : Z) (now : datetime) :
  UserSubscription.get_active_subscription table u now = None ->
  UserSubscription.get_active_subscription (table ++ [s]) u now
  = if (UserSubscription.user s =? u)
       && match UserSubscription.status s with
          | SUB_ACTIVE => true
          | _ => false
          end
       && (UserSubscription.end_date s >? now)
    then Some s else None.
Proof.
  unfold UserSubscription.get_active_subscription. intros H.
  apply newest_by_none in H. rewrite filter_app, H. cbn [app filter].
  now destruct (_ && _ && _).
Qed.

(** What a successful call of [UserSubscriptionView.post] has done. *)
Lemma UserSubscriptionView_post_inversion (st : State) (request_user : User.t)
    (name : option string) (test : bool) (now : datetime)
    (sub : UserSubscription.t) (st1 : State) :
  UserSubscriptionView_post st request_user name test now = (inr sub, st1) ->
  exists type,
    subscription_type_of name = Some type
    /\ UserSubscription.get_active_subscription (subscriptions st)
         (User.id request_user) now = None
    /\ sub = UserSubscription.mk (fresh_id (map UserSubscription.id (subscriptions st)))
               (User.id request_user) type SUB_ACTIVE now
               (plus_days now match type with
                              | MONTHLY => 30
                              | QUARTERLY => 90
                              | SEMESTRIAL => 180
                              end)
               (if test then 1
                else match type with
                     | MONTHLY => 1999
                     | QUARTERLY => 4999
                     | SEMESTRIAL => 8999
                     end)
               0 None now test
    /\ subscriptions st1 = subscriptions st ++ [sub]
    /\ reservations st1 = reservations st
    /\ tickets st1 = tickets st
    /\ users st1
       = update_row User.id
           (account_user
              (update_subscription_status
                 (with_subscriptions st (subscriptions st ++ [sub])) request_user now))
           (users st).
Proof.
  unfold UserSubscriptionView_post.
  destruct (subscription_type_of name) as [type |]; [| discriminate].
  destruct (UserSubscription.get_active_subscription _ _ now); [discriminate |].
  intros H. exists type. split; [reflexivity |]. split; [reflexivity |].
  destruct type, test; cbv zeta beta iota in H; injection H as <- <-;
    repeat apply conj; reflexivity.
Qed.

(** X6.  Buying a subscription.  When [UserSubscriptionView.post] answers
    with a subscription, the user had no subscription that
    [get_active_subscription] finds; the new one is ACTIVE from the time of
    the request for 30, 90 or 180 days according to its type, at the price of
    that type or at 0.01 in test mode, and has used no reservation.  Until
    it ends it is the subscription that [get_active_subscription] finds for
    the user, every further purchase is refused with status 400, and the user
    row is stored as premium until the end of the subscription. *)
Theorem subscription_purchase (st : State) (request_user : User.t)
    (name : option string) (test : bool) (now : datetime)
    (sub : UserSubscription.t) (st1 : State) :
  UserSubscriptionView_post st request_user name test now = (inr sub, st1) ->
  UserSubscription.get_active_subscription (subscriptions st)
    (User.id request_user) now = None
  /\ subscriptions st1 = subscriptions st ++ [sub]
  /\ UserSubscription.user sub = User.id request_user
  /\ UserSubscription.status sub = SUB_ACTIVE
  /\ UserSubscription.start_date sub = now
  /\ UserSubscription.reservations_used sub = 0
  /\ UserSubscription.current_reservation sub = None
  /\ (exists days price,
        In (name, days, price)
           [(Some "MONTHLY", 30, 1999); (Some "QUARTERLY", 90, 4999);
            (Some "SEMESTRIAL", 180, 8999)]
        /\ UserSubscription.end_date sub = plus_days now days
        /\ UserSubscription.price_paid sub = (if test then 1 else price))
  /\ (forall later,
        now <= later < UserSubscription.end_date sub ->
        UserSubscription.get_active_subscription (subscriptions st1)
          (User.id request_user) later = Some sub)
  /\ (forall name' test' later,
        subscription_type_of name' <> None ->
        now <= later < UserSubscription.end_date sub ->
        UserSubscriptionView_post st1 request_user name' test' later
        = (inl (400, already_subscribed (UserSubscription.id sub)), st1))
  /\ (forall u, In u (users st1) -> User.id u = User.id request_user ->
                User.is_premium u = true
                /\ User.premium_until u = Some (UserSubscription.end_date sub)
                /\ is_premium_active u now = true).
Proof.
  intros H.
  destruct (UserSubscriptionView_post_inversion _ _ _ _ _ _ _ H)
    as (type & Htype & Hnone & Hsub & Hsubs & _ & _ & Husers).
  assert (Hend : now < UserSubscription.end_date sub).
  { rewrite Hsub. cbn. unfold plus_days, day, hour, minute, second.
    destruct type; lia. }
  assert (Hlater : forall later,
            now <= later < UserSubscription.end_date sub ->
            UserSubscription.get_active_subscription (subscriptions st1)
              (User.id request_user) later = Some sub).
  { intros later [Hle Hlt]. rewrite Hsubs.
    rewrite get_active_subscription_app_none
      by (now apply (get_active_subscription_later _ _ now)).
    rewrite (proj2 (Z.gtb_lt _ _) Hlt).
    rewrite Hsub at 1 2. cbn. now rewrite Z.eqb_refl. }
  split; [exact Hnone |]. split; [exact Hsubs |].
  split; [now rewrite Hsub |]. split; [now rewrite Hsub |].
  split; [now rewrite Hsub |]. split; [now rewrite Hsub |].
  split; [now rewrite Hsub |].
  split.
  { unfold subscription_type_of in Htype. destruct name as [name |]; [| discriminate].
    destruct (String.eqb name "MONTHLY") eqn:E1.
    - apply String.eqb_eq in E1. injection Htype as <-. subst name.
      exists 30, 1999. rewrite Hsub. cbn. tauto.
    - destruct (String.eqb name "QUARTERLY") eqn:E2.
      + apply String.eqb_eq in E2. injection Htype as <-. subst name.
        exists 90, 4999. rewrite Hsub. cbn. tauto.
      + destruct (String.eqb name "SEMESTRIAL") eqn:E3; [| discriminate].
        apply String.eqb_eq in E3. injection Htype as <-. subst name.
        exists 180, 8999. rewrite Hsub. cbn. tauto. }
  split; [exact Hlater |].
  split.
  { intros name' test' later Hname Hrange. unfold UserSubscriptionView_post.
    destruct (subscription_type_of name'); [| now elim Hname].
    now rewrite (Hlater later Hrange). }
  intros u Hu Hid. rewrite Husers in Hu.
  unfold update_subscription_status in Hu. cbn [subscriptions with_subscriptions] in Hu.
  rewrite <- Hsubs in Hu. rewrite (Hlater now) in Hu by lia.
  cbn [account_user] in Hu.
  apply update_row_in in Hu. destruct Hu as [[-> _] | [_ Hne]].
  - cbn. split; [reflexivity |]. split; [reflexivity |].
    unfold is_premium_active. cbn. apply Z.gtb_lt. exact Hend.
  - cbn in Hne. contradiction.
Qed.

Lemma subscription_purchase_witness :
  let st := with_users empty_state [alice] in
  let now := at_time 2024 6 1 0 0 0 in
  let st1 := snd (UserSubscriptionView_post st alice (Some "MONTHLY") false now) in
  UserSubscriptionView_post st alice (Some "MONTHLY") false now
  = (inr monthly_subscription, st1)
  /\ UserSubscriptionView_post st1 alice (Some "QUARTERLY") false
       (at_time 2024 6 15 0 0 0)
     = (inl (400, already_subscribed 1), st1)
  /\ map User.is_premium (users st1) = [true].
Proof.
  cbv zeta.
  assert (H : UserSubscriptionView_post (with_users empty_state [alice]) alice
                (Some "MONTHLY") false (at_time 2024 6 1 0 0 0)
              = (inr monthly_subscription,
                 snd (UserSubscriptionView_post (with_users empty_state [alice]) alice
                        (Some "MONTHLY") false (at_time 2024 6 1 0 0 0))))
    by (vm_compute; reflexivity).
  destruct (subscription_purchase _ _ _ _ _ _ _ H)
    as (_ & _ & _ & _ & _ & _ & _ & _ & _ & Hagain & _).
  split; [exact H |]. split; [| vm_compute; reflexivity].
  apply (Hagain (Some "QUARTERLY") false (at_time 2024 6 15 0 0 0)).
  - discriminate.
  - vm_compute. split; [discriminate | reflexivity].
Defined.

(** X7.  Cancelling a subscription takes effect at once and touches no
    reservation.  When [UserSubscriptionView.delete] succeeds, the
    subscription that [get_active_subscription] found is stored CANCELLED and
    is never found again, at any time; the reservations, the one that the
    subscription holds included, and the tickets are left as they are.  If
    that subscription was bought through [UserSubscriptionView.post] in a
    database where the user had no active one, the user has no active
    subscription after the cancellation, booking through the subscription is
    refused with status 402 and the user row is stored as not premium. *)
Theorem subscription_cancellation (st : State) (request_user : User.t)
    (now : datetime) (st1 : State) :
  UserSubscriptionView_delete st request_user now = (inr tt, st1) ->
  exists sub,
    UserSubscription.get_active_subscription (subscriptions st)
      (User.id request_user) now = Some sub
    /\ subscriptions st1
       = update_row UserSubscription.id
           (subscription_with_status sub SUB_CANCELLED) (subscriptions st)
    /\ reservations st1 = reservations st
    /\ tickets st1 = tickets st
    /\ (forall s, In s (subscriptions st1) ->
                  UserSubscription.id s = UserSubscription.id sub ->
                  UserSubscription.status s = SUB_CANCELLED)
    /\ (forall u later s,
          UserSubscription.get_active_subscription (subscriptions st1) u later = Some s ->
          UserSubscription.id s <> UserSubscription.id sub)
    /\ (forall st0 name test bought,
          UserSubscriptionView_post st0 request_user name test bought = (inr sub, st) ->
          bought <= now ->
          UserSubscription.get_active_subscription (subscriptions st1)
            (User.id request_user) now = None
          /\ (forall d, CreateReservationWithSubscriptionView_post st1
                          (User.id request_user) d now
                        = (Error 402 no_active_subscription, st1))
          /\ (forall u, In u (users st1) -> User.id u = User.id request_user ->
                        User.is_premium u = false /\ User.premium_until u = None)).
Proof.
  unfold UserSubscriptionView_delete.
  destruct (UserSubscription.get_active_subscription _ _ now) as [sub |] eqn:Hsub;
    [| discriminate].
  intros [= <-]. exists sub. split; [reflexivity |].
  cbn [subscriptions reservations tickets users User_save with_users
       with_subscriptions].
  split; [reflexivity |]. split; [reflexivity |]. split; [reflexivity |].
  assert (Hcancelled : forall s,
            In s (update_row UserSubscription.id
                    (subscription_with_status sub SUB_CANCELLED) (subscriptions st)) ->
            UserSubscription.id s = UserSubscription.id sub ->
            UserSubscription.status s = SUB_CANCELLED).
  { intros s Hs Hid. apply update_row_in in Hs.
    destruct Hs as [[-> _] | [_ Hne]]; [reflexivity |].
    cbn in Hne. contradiction. }
  split; [exact Hcancelled |].
  split.
  { intros u later s Hs Hid.
    destruct (get_active_subscription_found _ _ _ _ Hs) as (Hin & _ & Hact & _).
    rewrite (Hcancelled s Hin Hid) in Hact. discriminate. }
  intros st0 name test bought Hpost Hle.
  destruct (UserSubscriptionView_post_inversion _ _ _ _ _ _ _ Hpost)
    as (type & _ & Hnone & Hmk & Hsubs & _).
  assert (Hafter : UserSubscription.get_active_subscription
                     (update_row UserSubscription.id
                        (subscription_with_status sub SUB_CANCELLED)
                        (subscriptions st))
                     (User.id request_user) now = None).
  { rewrite Hsubs, update_row_app by reflexivity.
    rewrite update_row_fresh.
    - rewrite get_active_subscription_app_none
        by (now apply (get_active_subscription_later _ _ bought)).
      cbn. now rewrite andb_false_r.
    - cbn [UserSubscription.id subscription_with_status]. rewrite Hmk at 1.
      cbn [UserSubscription.id]. apply fresh_id_not_in. }
  split; [exact Hafter |]. split.
  - intros d. unfold CreateReservationWithSubscriptionView_post.
    cbn [subscriptions User_save with_users with_subscriptions]. now rewrite Hafter.
  - intros u Hu Hid. unfold update_subscription_status in Hu.
    cbn [subscriptions with_subscriptions] in Hu. rewrite Hafter in Hu.
    cbn [account_user] in Hu. apply update_row_in in Hu.
    destruct Hu as [[-> _] | [_ Hne]]; [cbn; tauto |].
    cbn in Hne. contradiction.
Qed.

Lemma subscription_cancellation_witness :
  let st0 := with_users empty_state [alice] in
  let st := snd (UserSubscriptionView_post st0 alice (Some "MONTHLY") false
                   (at_time 2024 6 1 0 0 0)) in
  let now := at_time 2024 6 2 0 0 0 in
  let st1 := snd (UserSubscriptionView_delete st alice now) in
  UserSubscriptionView_delete st alice now = (inr tt, st1)
  /\ map UserSubscription.status (subscriptions st1) = [SUB_CANCELLED]
  /\ CreateReservationWithSubscriptionView_post st1 (User.id alice)
       (booking_data (ymd 2024 6 13) "SUBSCRIPTION" 0) now
     = (Error 402 no_active_subscription, st1).
Proof.
  cbv zeta.
  set (st0 := with_users empty_state [alice]).
  set (st := snd (UserSubscriptionView_post st0 alice (Some "MONTHLY") false
                    (at_time 2024 6 1 0 0 0))).
  assert (H0 : UserSubscriptionView_post st0 alice (Some "MONTHLY") false
                 (at_time 2024 6 1 0 0 0) = (inr monthly_subscription, st))
    by (vm_compute; reflexivity).
  assert (H : UserSubscriptionView_delete st alice (at_time 2024 6 2 0 0 0)
              = (inr tt, snd (UserSubscriptionView_delete st alice
                                (at_time 2024 6 2 0 0 0))))
    by (vm_compute; reflexivity).
  destruct (subscription_cancellation _ _ _ _ H)
    as (sub & Hsub & _ & _ & _ & _ & _ & Hbought).
  assert (E : sub = monthly_subscription).
  { vm_compute in Hsub. now injection Hsub as <-. }
  subst sub.
  destruct (Hbought st0 (Some "MONTHLY") false (at_time 2024 6 1 0 0 0) H0)
    as (_ & Hrefused & _).
  { vm_compute. discriminate. }
  split; [exact H |]. split; [vm_compute; reflexivity |].
  apply Hrefused.
Defined.

(** ** Account status and administration *)

(** X8.  The tickets that [User.available_tickets] lists are the valid
    tickets of the user that carry an expiry date other than the time of the
    call: a ticket without expiry date, or one that expires at this very
    time, is valid for [UserTicket.is_valid] and is not listed. *)
Theorem available_tickets_are_valid (st : State) (u : Z) (now : datetime)
    (k : UserTicket.t) :
  In k (available_tickets st u now)
  <-> In k (tickets st) /\ UserTicket.user k = u
      /\ UserTicket.is_valid k now = true
      /\ exists e, UserTicket.expires_at k = Some e /\ e <> now.
Proof.
  unfold available_tickets, UserTicket.is_valid. rewrite filter_In.
  split.
  - intros [Hin Hp]. apply andb_true_iff in Hp. destruct Hp as [Hp He].
    apply andb_true_iff in Hp. destruct Hp as [Hu Hs]. apply Z.eqb_eq in Hu.
    destruct (UserTicket.status k); try discriminate.
    destruct (UserTicket.expires_at k) as [e |]; [| discriminate].
    apply Z.gtb_lt in He.
    repeat split; try assumption.
    + destruct (now >? e) eqn:E; [apply Z.gtb_lt in E; lia | reflexivity].
    + exists e. split; [reflexivity | lia].
  - intros (Hin & Hu & Hv & e & He & Hne). split; [exact Hin |].
    rewrite Hu, Z.eqb_refl. rewrite He in *.
    destruct (UserTicket.status k); try discriminate. cbn [andb].
    destruct (now >? e) eqn:E; [discriminate |].
    apply Z.gtb_lt. rewrite Z.gtb_ltb in E. apply Z.ltb_ge in E. lia.
Qed.

(** X9.  What [User.update_subscription_status] stores.  The user is stored
    as premium exactly when [get_active_subscription] finds a subscription,
    until the end date of that subscription, whatever the row said before;
    [is_premium_active] then agrees with the column [has_active_subscription].
    The account type is SUBSCRIPTION in that case, TICKET when there is no
    such subscription and [available_tickets] lists a ticket, and FREE
    otherwise.  The other columns of the row are kept. *)
Theorem account_status_update (st : State) (u : User.t) (now : datetime) :
  let a := update_subscription_status st u now in
  (has_active_subscription a = true
   <-> exists s, UserSubscription.get_active_subscription (subscriptions st)
                   (User.id u) now = Some s)
  /\ User.is_premium (account_user a) = has_active_subscription a
  /\ is_premium_active (account_user a) now = has_active_subscription a
  /\ (forall s, UserSubscription.get_active_subscription (subscriptions st)
                  (User.id u) now = Some s ->
                User.premium_until (account_user a) = Some (UserSubscription.end_date s))
  /\ (has_active_subscription a = false -> User.premium_until (account_user a) = None)
  /\ (account_type a = ACCOUNT_SUBSCRIPTION <-> has_active_subscription a = true)
  /\ (account_type a = ACCOUNT_TICKET
      <-> has_active_subscription a = false
          /\ exists k, In k (available_tickets st (User.id u) now))
  /\ (account_type a = ACCOUNT_FREE
      <-> has_active_subscription a = false
          /\ available_tickets st (User.id u) now = [])
  /\ with_premium (account_user a) (User.is_premium u) (User.premium_until u) = u.
Proof.
  cbv zeta. unfold update_subscription_status, has_available_tickets.
  destruct (UserSubscription.get_active_subscription _ _ now) as [s |] eqn:Hs;
    cbn [has_active_subscription account_user account_type].
  - destruct (get_active_subscription_found _ _ _ _ Hs) as (_ & _ & _ & Hend).
    split; [split; [intros _; now exists s | reflexivity] |].
    split; [reflexivity |].
    split; [unfold is_premium_active; cbn; apply Z.gtb_lt; exact Hend |].
    split; [now intros s' [= <-] |].
    split; [discriminate |].
    split; [tauto |].
    split; [split; [discriminate | intros [H _]; discriminate] |].
    split; [split; [discriminate | intros [H _]; discriminate] |].
    now destruct u.
  - split; [split; [discriminate | intros [s H]; discriminate] |].
    split; [reflexivity |].
    split; [reflexivity |].
    split; [discriminate |].
    split; [reflexivity |].
    split.
    { split; [| discriminate].
      destruct (available_tickets st (User.id u) now); discriminate. }
    split.
    { destruct (available_tickets st (User.id u) now) as [| k l].
      - split; [discriminate | intros [_ [k []]]].
      - split; [| reflexivity]. intros _. split; [reflexivity |].
        exists k. now left. }
    split.
    { destruct (available_tickets st (User.id u) now) as [| k l].
      - tauto.
      - split; [discriminate | intros [_ H]; discriminate]. }
    now destruct u.
Qed.

(** What the action [expire_tickets] of [AdminUsersManagementView.post] has
    done. *)
Lemma expire_tickets_inversion (st : State) (action : option string)
    (user_id : option Z) (now : datetime) (count : Z) (st1 : State) :
  AdminUsersManagementView_post st action user_id now
  = (inr (tickets_expired count), st1) ->
  exists target,
    user_id = Some target
    /\ In target (map User.id (users st))
    /\ count = Z.of_nat (List.length
                           (filter (fun k => (UserTicket.user k =? target)
                                             && match UserTicket.status k with
                                                | TICKET_ACTIVE => true
                                                | _ => false
                                                end) (tickets st)))
    /\ st1 = with_tickets st
               (map (fun k => if (UserTicket.user k =? target)
                                 && match UserTicket.status k with
                                    | TICKET_ACTIVE => true
                                    | _ => false
                                    end
                              then UserTicket.expire_ticket k else k)
                    (tickets st)).
Proof.
  unfold AdminUsersManagementView_post.
  destruct (negb (truthy action) || _) eqn:Hreq; [discriminate |].
  destruct user_id as [target |]; [| now rewrite orb_true_r in Hreq].
  cbn [get_default].
  destruct (objects_get _ (users st)) as [target_user | |] eqn:Hg; try discriminate.
  destruct (objects_get_found_in _ _ _ Hg) as [Hin Hid]. apply Z.eqb_eq in Hid.
  destruct (String.eqb _ "grant_premium"); [discriminate |].
  destruct (String.eqb _ "revoke_premium"); [discriminate |].
  destruct (String.eqb _ "expire_tickets"); [| discriminate].
  intros [= <- <-]. exists target. rewrite Hid.
  repeat apply conj; try reflexivity.
  rewrite <- Hid. now apply in_map.
Qed.

(** X10.  The administrator expires the tickets of a user.  After the
    action [expire_tickets] of [AdminUsersManagementView.post], no ticket of
    that user is ACTIVE or valid at any time, so that [UseTicketView.post]
    refuses every request of the user and [User.available_tickets] lists
    nothing; the answer counts the tickets that were ACTIVE; tickets of the
    user that were USED stay USED, and the tickets of the other users, the
    users and the reservations are left as they are. *)
Theorem admin_expires_tickets (st : State) (action : option string)
    (user_id : option Z) (now : datetime) (count : Z) (st1 : State) :
  AdminUsersManagementView_post st action user_id now
  = (inr (tickets_expired count), st1) ->
  exists target,
    user_id = Some target
    /\ (forall k later, In k (tickets st1) -> UserTicket.user k = target ->
                        UserTicket.status k <> TICKET_ACTIVE
                        /\ UserTicket.is_valid k later = false)
    /\ (forall tid d later,
          exists status reason,
            UseTicketView_post st1 target tid d later = (inl (status, reason), st1))
    /\ (forall later, available_tickets st1 target later = [])
    /\ count = Z.of_nat (List.length
                           (filter (fun k => (UserTicket.user k =? target)
                                             && match UserTicket.status k with
                                                | TICKET_ACTIVE => true
                                                | _ => false
                                                end) (tickets st)))
    /\ map UserTicket.id (tickets st1) = map UserTicket.id (tickets st)
    /\ (forall k, In k (tickets st) ->
                  UserTicket.user k <> target \/ UserTicket.status k <> TICKET_ACTIVE ->
                  In k (tickets st1))
    /\ users st1 = users st
    /\ reservations st1 = reservations st.
Proof.
  intros H. destruct (expire_tickets_inversion _ _ _ _ _ _ H)
    as (target & -> & _ & Hcount & ->).
  exists target. split; [reflexivity |].
  cbn [tickets users reservations with_tickets].
  set (active := fun k : UserTicket.t =>
                   (UserTicket.user k =? target)
                   && match UserTicket.status k with
                      | TICKET_ACTIVE => true
                      | _ => false
                      end) in *.
  assert (Hexpired : forall k later,
            In k (map (fun k => if active k then UserTicket.expire_ticket k else k)
                      (tickets st)) ->
            UserTicket.user k = target ->
            UserTicket.status k <> TICKET_ACTIVE
            /\ UserTicket.is_valid k later = false).
  { intros k later Hk Hu. apply in_map_iff in Hk. destruct Hk as (k0 & <- & _).
    unfold UserTicket.is_valid. destruct (active k0) eqn:Ha.
    - cbn. split; [discriminate | reflexivity].
    - unfold active in Ha. rewrite Hu, Z.eqb_refl in Ha.
      cbn [andb] in Ha. destruct (UserTicket.status k0); try discriminate;
        split; try discriminate; reflexivity. }
  split; [exact Hexpired |].
  split.
  { intros tid d later. unfold UseTicketView_post.
    destruct tid as [tid |]; [| now eexists; eexists].
    destruct d as [d |]; [| now eexists; eexists].
    cbn [tickets with_tickets].
    destruct (objects_get _ _) as [ticket | |] eqn:Hg; try (now eexists; eexists).
    destruct (objects_get_found_in _ _ _ Hg) as [Hin Hp].
    apply andb_true_iff in Hp. destruct Hp as [_ Hu]. apply Z.eqb_eq in Hu.
    destruct (Hexpired ticket later Hin Hu) as [_ ->]. cbn [negb].
    now eexists; eexists. }
  split.
  { intros later. unfold available_tickets. cbn [tickets with_tickets].
    apply filter_none. intros k Hk.
    destruct (UserTicket.user k =? target) eqn:Hu; [| reflexivity].
    apply Z.eqb_eq in Hu. destruct (Hexpired k later Hk Hu) as [Hs _].
    destruct (UserTicket.status k); try reflexivity. now elim Hs. }
  split; [exact Hcount |].
  split.
  { rewrite map_map. apply map_ext. intros k. destruct (_ && _); reflexivity. }
  split; [| split; reflexivity].
  intros k Hk Hor. apply in_map_iff. exists k. split; [| exact Hk].
  unfold active. destruct Hor as [Hu | Hs].
  - now rewrite (proj2 (Z.eqb_neq _ _) Hu).
  - destruct (UserTicket.status k); try (now rewrite andb_false_r). now elim Hs.
Qed.

Lemma admin_expires_tickets_witness :
  let st := with_users cancelled_ticket_booking [alice] in
  let now := at_time 2024 6 10 11 0 0 in
  let st1 := snd (AdminUsersManagementView_post st (Some "expire_tickets") (Some 1) now) in
  map UserTicket.status (tickets st) = [TICKET_ACTIVE]
  /\ AdminUsersManagementView_post st (Some "expire_tickets") (Some 1) now
     = (inr (tickets_expired 1), st1)
  /\ map UserTicket.status (tickets st1) = [TICKET_EXPIRED]
  /\ exists status reason,
       UseTicketView_post st1 1 (Some 1)
         (Some (booking_data (ymd 2024 6 20) "TICKET" 1500)) now
       = (inl (status, reason), st1).
Proof.
  cbv zeta.
  assert (H : AdminUsersManagementView_post (with_users cancelled_ticket_booking [alice])
                (Some "expire_tickets") (Some 1) (at_time 2024 6 10 11 0 0)
              = (inr (tickets_expired 1),
                 snd (AdminUsersManagementView_post
                        (with_users cancelled_ticket_booking [alice])
                        (Some "expire_tickets") (Some 1) (at_time 2024 6 10 11 0 0))))
    by (vm_compute; reflexivity).
  destruct (admin_expires_tickets _ _ _ _ _ _ H) as (target & Ht & _ & Huse & _).
  injection Ht as <-.
  split; [vm_compute; reflexivity |]. split; [exact H |].
  split; [vm_compute; reflexivity |].
  apply Huse.
Defined.

(** ** Acceptance of invitations *)

Lemma filter_update_row_found {A : Type} (pk : A -> Z) (p : A -> bool)
    (row old : A) (table : list A) :
  NoDup (map pk table) -> filter p table = [old] ->
  pk row = pk old -> p row = true ->
  filter p (update_row pk row table) = [row].
Proof.
  intros Hnd Hfilter Hpk Hrow.
  assert (Hold : In old table /\ p old = true).
  { apply filter_In. rewrite Hfilter. now left. }
  apply (filter_update_row_only pk p row old); try tauto.
  intros y Hy Hne. destruct (p y) eqn:Hp; [| reflexivity].
  assert (Hin : In y (filter p table)) by (apply filter_In; tauto).
  rewrite Hfilter in Hin. destruct Hin as [<- | []]. now elim Hne.
Qed.

(** What a successful call of [AcceptInvitationView.post] has done. *)
Lemma AcceptInvitationView_post_inversion (st : State) (token : string)
    (req : AcceptRequest) (now : datetime) (uid : Z) (st1 : State) :
  AcceptInvitationView_post st token req now = (Ok uid, st1) ->
  exists invitation email user,
    objects_get (fun i => String.eqb (FriendInvitation.invitation_token i) token)
                (invitations st) = Found invitation
    /\ FriendInvitation.is_valid invitation now = true
    /\ ar_email req = Some email
    /\ lower email = lower (FriendInvitation.invited_email invitation)
    /\ invitations st1
       = update_row FriendInvitation.id
           (FriendInvitation.mark_as_accepted invitation uid now) (invitations st)
    /\ reservations st1 = reservations st
    /\ In user (users st1)
    /\ User.id user = uid
    /\ User.email user = email
    /\ User.is_invited_user user = true
    /\ User.last_login_at user = Some now.
Proof.
  unfold AcceptInvitationView_post.
  destruct (objects_get _ (invitations st)) as [invitation | |] eqn:Hg;
    try discriminate.
  destruct (FriendInvitation.is_valid invitation now) eqn:Hv; cbn [negb];
    [| discriminate].
  destruct (truthy (ar_email req) && truthy (ar_password req)
            && truthy (ar_first_name req) && truthy (ar_last_name req)) eqn:Hfields;
    cbn [negb]; [| discriminate].
  destruct (ar_email req) as [email |] eqn:Hemail; [| discriminate].
  cbn [get_default].
  destruct (String.eqb (lower email) (lower (FriendInvitation.invited_email invitation)))
    eqn:Hlow; cbn [negb]; [| discriminate].
  apply String.eqb_eq in Hlow.
  destruct (objects_get _ (users st)) as [user | |] eqn:Hu; try discriminate.
  - destruct (objects_get_found_in _ _ _ Hu) as [Hin Hmail].
    apply String.eqb_eq in Hmail.
    destruct (String.eqb (User.password user) _); cbn [negb]; [| discriminate].
    destruct (User.is_invited_user user) eqn:Hinv; cbn [negb].
    + intros [= <- <-].
      exists invitation, email, (User.with_last_login user (Some now)).
      cbn [invitations reservations users with_users with_invitations].
      repeat apply conj; try reflexivity; try assumption.
      apply (update_row_has _ _ _ user); [exact Hin | reflexivity].
    + intros [= <- <-].
      exists invitation, email,
        (User.with_last_login
           (User.with_invitation user true (Some (FriendInvitation.id invitation)))
           (Some now)).
      cbn [invitations reservations users with_users with_invitations].
      repeat apply conj; try reflexivity; try assumption.
      apply (update_row_has _ _ _
               (User.with_invitation user true (Some (FriendInvitation.id invitation))));
        [| reflexivity].
      apply (update_row_has _ _ _ user); [exact Hin | reflexivity].
  - destruct (existsb (fun u => String.eqb (User.username u) email) (users st));
      [discriminate |].
    intros [= <- <-].
    match goal with |- context [users st ++ [?u]] => set (newuser := u) end.
    exists invitation, email, (User.with_last_login newuser (Some now)).
    cbn [invitations reservations users with_users with_invitations].
    repeat apply conj; try reflexivity; try assumption.
    apply (update_row_has _ _ _ newuser); [| reflexivity].
    apply in_or_app. right. now left.
Qed.

(** X11.  An invitation is accepted once.  When [AcceptInvitationView.post]
    succeeds, the invitation of the token is stored ACCEPTED for the user of
    the answer, at the time of the request; that user is stored with the
    e-mail address of the request, marked as invited and as logged in at
    that time; and every later request with the same token, whatever it
    carries, is refused with status 400 and leaves the database as it is. *)
Theorem invitation_accepted_once (st : State) (token : string) (req : AcceptRequest)
    (now : datetime) (uid : Z) (st1 : State) :
  NoDup (map FriendInvitation.id (invitations st)) ->
  AcceptInvitationView_post st token req now = (Ok uid, st1) ->
  (exists i,
     In i (invitations st1)
     /\ FriendInvitation.invitation_token i = token
     /\ FriendInvitation.status i = INV_ACCEPTED
     /\ FriendInvitation.invited_user i = Some uid
     /\ FriendInvitation.accepted_at i = Some now)
  /\ (exists user,
        In user (users st1)
        /\ User.id user = uid
        /\ ar_email req = Some (User.email user)
        /\ User.is_invited_user user = true
        /\ User.last_login_at user = Some now)
  /\ (forall req' later,
        AcceptInvitationView_post st1 token req' later
        = (Error 400 invitation_expired, st1)).
Proof.
  intros Hnd H.
  destruct (AcceptInvitationView_post_inversion _ _ _ _ _ _ H)
    as (invitation & email & user & Hg & _ & Hemail & _ & Hinvs & _ & Hin & Hid
        & Hmail & Hinvited & Hlogin).
  destruct (objects_get_found_in _ _ _ Hg) as [Hi Htoken].
  assert (Hfilter : filter (fun i => String.eqb (FriendInvitation.invitation_token i) token)
                      (invitations st1)
                    = [FriendInvitation.mark_as_accepted invitation uid now]).
  { rewrite Hinvs. apply (filter_update_row_found _ _ _ invitation).
    - exact Hnd.
    - now apply objects_get_found.
    - reflexivity.
    - exact Htoken. }
  split.
  { exists (FriendInvitation.mark_as_accepted invitation uid now). split.
    - rewrite Hinvs. apply (update_row_has _ _ _ invitation); [exact Hi | reflexivity].
    - apply String.eqb_eq in Htoken. cbn. tauto. }
  split.
  { exists user. rewrite Hmail. tauto. }
  intros req' later.
  apply (accept_invalid_rejected _ _ _ _
           (FriendInvitation.mark_as_accepted invitation uid now)).
  - unfold objects_get. now rewrite Hfilter.
  - reflexivity.
Qed.

Lemma invitation_accepted_once_witness :
  AcceptInvitationView_post after_invitation friend_token friend_request
    (at_time 2024 6 10 11 0 0) = (Ok 2, after_acceptance)
  /\ map FriendInvitation.status (invitations after_acceptance) = [INV_ACCEPTED]
  /\ AcceptInvitationView_post after_acceptance friend_token friend_request
       (at_time 2024 6 10 11 5 0)
     = (Error 400 invitation_expired, after_acceptance).
Proof.
  assert (Hnd : NoDup (map FriendInvitation.id (invitations after_invitation))).
  { vm_compute. repeat constructor. intros []. }
  assert (H : AcceptInvitationView_post after_invitation friend_token friend_request
                (at_time 2024 6 10 11 0 0) = (Ok 2, after_acceptance))
    by (vm_compute; reflexivity).
  split; [exact H |]. split; [vm_compute; reflexivity |].
  apply (invitation_accepted_once _ _ _ _ _ _ Hnd H).
Defined.

Lemma truthy_some (s : string) : s <> "" -> truthy (Some s) = true.
Proof.
  intros H. cbn. apply negb_true_iff. now apply String.eqb_neq.
Qed.

Lemma objects_get_none {A : Type} (p : A -> bool) (table : list A) :
  (forall x, In x table -> p x = false) -> objects_get p table = DoesNotExist.
Proof.
  intros H. unfold objects_get. now rewrite filter_none.
Qed.

Lemma existsb_false {A : Type} (f : A -> bool) (l : list A) :
  existsb f l = false -> forall x, In x l -> f x = false.
Proof.
  intros H x Hx. destruct (f x) eqn:E; [| reflexivity].
  rewrite <- H. symmetry. apply existsb_exists. now exists x.
Qed.

Lemma existsb_none {A : Type} (f : A -> bool) (l : list A) :
  (forall x, In x l -> f x = false) -> existsb f l = false.
Proof.
  intros H. induction l as [| x l IH]; [reflexivity |]. cbn [existsb].
  rewrite (H x) by now left. apply IH. intros y Hy. apply H. now right.
Qed.

(** What [create_invitation] has done when it returns. *)
Lemma create_invitation_returns (table : list FriendInvitation.t) (inv : Z)
    (email : string) (res : Reservation.t) (msg token : string) (now : datetime)
    (i : FriendInvitation.t) (table' : list FriendInvitation.t) :
  FriendInvitation.create_invitation table inv email res msg token now
    = Returns (i, table') ->
  i = FriendInvitation.mk (fresh_id (map FriendInvitation.id table)) inv email None
        token (Reservation.id res) INV_PENDING msg now
        (combine (Reservation.reservation_date res) 0 0 59) None None
  /\ table' = table ++ [i]
  /\ now <= combine (Reservation.reservation_date res - 1) 23 59 59
  /\ FriendInvitation.is_valid i now = true
  /\ (forall x, In x table ->
        FriendInvitation.invitation_token x <> token
        /\ ~ (FriendInvitation.inviter x = inv
              /\ FriendInvitation.invited_email x = email
              /\ FriendInvitation.reservation x = Reservation.id res)).
Proof.
  unfold FriendInvitation.create_invitation.
  destruct (minus_days (Reservation.reservation_date res) 1) as [t |] eqn:Hm;
    [| discriminate].
  apply minus_days_some in Hm. destruct Hm as [-> _].
  destruct (now >? _) eqn:Hlate; [discriminate |].
  rewrite Z.gtb_ltb in Hlate. apply Z.ltb_ge in Hlate.
  destruct (FriendInvitation.violates_unique table inv email _ token) eqn:Hu;
    [discriminate |].
  intros [= <- <-].
  assert (Hexp : plus_minutes (combine (Reservation.reservation_date res - 1) 23 59 59) 1
                 = combine (Reservation.reservation_date res) 0 0 59).
  { unfold plus_minutes, combine, day, hour, minute, second. lia. }
  rewrite Hexp. split; [reflexivity |]. split; [reflexivity |].
  split; [exact Hlate |]. split.
  - unfold FriendInvitation.is_valid. cbn. apply Z.ltb_lt.
    unfold combine, day, hour, minute, second in *. lia.
  - intros x Hx. unfold FriendInvitation.violates_unique in Hu.
    pose proof (existsb_false _ _ Hu x Hx) as Hx'. cbv beta in Hx'.
    clear Hu. rename Hx' into Hu. apply orb_false_iff in Hu.
    destruct Hu as [Htoken Htriple]. split.
    + now apply String.eqb_neq.
    + intros (H1 & H2 & H3).
      rewrite H1, H2, H3, !Z.eqb_refl, String.eqb_refl in Htriple. discriminate.
Qed.

(** X12.  A new invitation can be accepted at once, and the account it
    creates needs no verification.  When [create_invitation] returns, the
    invitation is valid at that time and carries the token drawn; until it
    expires, a person who presents the token with the invited address, in
    any letter case, when no stored user has that address as e-mail address
    or as username, is answered with a new user, stored with the address as
    e-mail address and as username, with a verified e-mail address and
    marked as invited, and the invitation is stored ACCEPTED for that
    user.  When a stored user has the address as username and none has it as
    e-mail address, the request is answered 500 and nothing is written. *)
Theorem new_invitation_is_acceptable (st : State) (inviter : Z) (email : string)
    (res : Reservation.t) (msg token : string) (now : datetime)
    (i : FriendInvitation.t) (table' : list FriendInvitation.t) :
  FriendInvitation.create_invitation (invitations st) inviter email res msg token now
    = Returns (i, table') ->
  FriendInvitation.is_valid i now = true
  /\ FriendInvitation.invitation_token i = token
  /\ FriendInvitation.invited_email i = email
  /\ (forall address password first last later,
        address <> "" -> password <> "" -> first <> "" -> last <> "" ->
        lower address = lower email ->
        (forall u, In u (users st) ->
                   User.email u <> address /\ User.username u <> address) ->
        later < FriendInvitation.expires_at i ->
        exists st1,
          AcceptInvitationView_post (with_invitations st table') token
            (mkAcceptRequest (Some address) (Some password) (Some first) (Some last))
            later
          = (Ok (fresh_id (map User.id (users st))), st1)
          /\ In (User.mk (fresh_id (map User.id (users st))) address address password
                   first last true false None true (Some (FriendInvitation.id i))
                   (Some later))
                (users st1)
          /\ In (FriendInvitation.mark_as_accepted i
                   (fresh_id (map User.id (users st))) later)
                (invitations st1))
  /\ (forall address password first last later,
        address <> "" -> password <> "" -> first <> "" -> last <> "" ->
        lower address = lower email ->
        (forall u, In u (users st) -> User.email u <> address) ->
        (exists u, In u (users st) /\ User.username u = address) ->
        later < FriendInvitation.expires_at i ->
        AcceptInvitationView_post (with_invitations st table') token
          (mkAcceptRequest (Some address) (Some password) (Some first) (Some last))
          later
        = (Error 500 internal_error, with_invitations st table')).
Proof.
  intros H. destruct (create_invitation_returns _ _ _ _ _ _ _ _ _ H)
    as (Hi & -> & _ & Hvalid & Hunique).
  split; [exact Hvalid |]. split; [now rewrite Hi |]. split; [now rewrite Hi |].
  assert (Hg : objects_get
                 (fun x => String.eqb (FriendInvitation.invitation_token x) token)
                 (invitations st ++ [i]) = Found i).
  { unfold objects_get. rewrite filter_app, filter_none.
    - cbn [app filter]. rewrite Hi at 1. cbn. now rewrite String.eqb_refl.
    - intros x Hx. apply String.eqb_neq. now apply Hunique. }
  assert (Hv : forall later, later < FriendInvitation.expires_at i ->
                             FriendInvitation.is_valid i later = true).
  { intros later Hlater. unfold FriendInvitation.is_valid. rewrite Hi at 1.
    cbn [FriendInvitation.status]. now apply Z.ltb_lt. }
  assert (Hmail : FriendInvitation.invited_email i = email) by now rewrite Hi.
  split.
  - intros address password first last later Ha Hp Hf Hl Hlow Hnew Hlater.
    unfold AcceptInvitationView_post.
    cbn [invitations users with_invitations ar_email ar_password ar_first_name
         ar_last_name get_default].
    rewrite Hg, (Hv later Hlater). cbn [negb].
    rewrite !truthy_some by assumption. cbn [andb negb].
    rewrite Hmail, Hlow, String.eqb_refl. cbn [negb].
    rewrite objects_get_none
      by (intros u Hu; apply String.eqb_neq; now apply Hnew).
    rewrite existsb_none
      by (intros u Hu; apply String.eqb_neq; now apply Hnew).
    eexists. split; [reflexivity |].
    cbn [users invitations with_users with_invitations]. split.
    + apply (update_row_has _ _ _
               (User.mk (fresh_id (map User.id (users st))) address address password
                  first last true false None true (Some (FriendInvitation.id i)) None));
        [| reflexivity].
      apply in_or_app. right. now left.
    + apply (update_row_has _ _ _ i); [| reflexivity].
      apply in_or_app. right. now left.
  - intros address password first last later Ha Hp Hf Hl Hlow Hnew (u & Hu & Hname)
      Hlater.
    unfold AcceptInvitationView_post.
    cbn [invitations users with_invitations ar_email ar_password ar_first_name
         ar_last_name get_default].
    rewrite Hg, (Hv later Hlater). cbn [negb].
    rewrite !truthy_some by assumption. cbn [andb negb].
    rewrite Hmail, Hlow, String.eqb_refl. cbn [negb].
    rewrite objects_get_none
      by (intros x Hx; apply String.eqb_neq; now apply Hnew).
    assert (Htaken : existsb (fun x => String.eqb (User.username x) address) (users st)
                     = true).
    { apply existsb_exists. exists u. split; [exact Hu |]. now apply String.eqb_eq. }
    rewrite Htaken. reflexivity.
Qed.

Lemma new_invitation_is_acceptable_witness :
  let st := with_users (after_booking (ymd 2024 6 13) "basic" "pi_123") [alice] in
  let i := FriendInvitation.mk 1 1 "friend@example.com" None friend_token 1
             INV_PENDING "" (at_time 2024 6 10 10 0 0) (at_time 2024 6 13 0 0 59)
             None None in
  FriendInvitation.create_invitation (invitations st) 1 "friend@example.com"
    alice_booking "" friend_token (at_time 2024 6 10 10 0 0) = Returns (i, [i])
  /\ exists st1,
       AcceptInvitationView_post (with_invitations st [i]) friend_token
         (mkAcceptRequest (Some "Friend@Example.com") (Some "hunter2") (Some "Fred")
            (Some "F"))
         (at_time 2024 6 12 23 0 0)
       = (Ok 2, st1)
       /\ In (User.mk 2 "Friend@Example.com" "Friend@Example.com" "hunter2" "Fred" "F"
                true false None true
                (Some 1) (Some (at_time 2024 6 12 23 0 0)))
             (users st1).
Proof.
  cbv zeta.
  set (st := with_users (after_booking (ymd 2024 6 13) "basic" "pi_123") [alice]).
  set (i := FriendInvitation.mk 1 1 "friend@example.com" None friend_token 1
              INV_PENDING "" (at_time 2024 6 10 10 0 0) (at_time 2024 6 13 0 0 59)
              None None).
  assert (H : FriendInvitation.create_invitation (invitations st) 1
                "friend@example.com" alice_booking "" friend_token
                (at_time 2024 6 10 10 0 0) = Returns (i, [i]))
    by (vm_compute; reflexivity).
  split; [exact H |].
  destruct (new_invitation_is_acceptable _ _ _ _ _ _ _ _ _ H)
    as (_ & _ & _ & Haccept & _).
  assert (Ha : "Friend@Example.com" <> "") by discriminate.
  assert (Hp : "hunter2" <> "") by discriminate.
  assert (Hf : "Fred" <> "") by discriminate.
  assert (Hl : "F" <> "") by discriminate.
  assert (Hlow : lower "Friend@Example.com" = lower "friend@example.com")
    by (vm_compute; reflexivity).
  assert (Hnew : forall u, In u (users st) ->
                           User.email u <> "Friend@Example.com"
                           /\ User.username u <> "Friend@Example.com")
    by (intros u [<- | []]; split; discriminate).
  assert (Hlater : at_time 2024 6 12 23 0 0 < FriendInvitation.expires_at i)
    by (vm_compute; reflexivity).
  destruct (Haccept _ _ _ _ _ Ha Hp Hf Hl Hlow Hnew Hlater) as (st1 & Hst1 & Huser & _).
  exists st1. split; [exact Hst1 |]. exact Huser.
Defined.

(** The address of an invitation as the friend types it, taken as
    username by a user who registered under another spelling of the
    address: the creation of the account fails, the view answers 500 and
    writes nothing. *)
Example acceptance_with_taken_username :
  let carol := User.mk 2 "Friend@example.com" "Friend@EXAMPLE.com" "secret" "Carol"
                 "C" true false None false None None in
  let st := with_users after_invitation [alice; carol] in
  AcceptInvitationView_post st friend_token
    (mkAcceptRequest (Some "Friend@EXAMPLE.com") (Some "hunter2") (Some "Fred")
       (Some "F"))
    (at_time 2024 6 12 23 0 0)
  = (Error 500 internal_error, st).
Proof. vm_compute. reflexivity. Qed.

(** ** Creation of invitations *)

Lemma existsb_map_same {A : Type} (p : A -> bool) (f : A -> A) (l : list A) :
  (forall x, p (f x) = p x) -> existsb p (map f l) = existsb p l.
Proof.
  intros H. induction l as [| x l IH]; [reflexivity |]. cbn [map existsb].
  now rewrite H, IH.
Qed.

Lemma FriendInvitation_delete_frame (st : State) (i : FriendInvitation.t)
    (email : string) :
  reservations (FriendInvitation_delete st i) = reservations st
  /\ existsb (fun u => String.eqb (User.email u) email)
             (users (FriendInvitation_delete st i))
     = existsb (fun u => String.eqb (User.email u) email) (users st)
  /\ (forall x, In x (invitations (FriendInvitation_delete st i)) ->
                In x (invitations st)
                /\ FriendInvitation.id x <> FriendInvitation.id i).
Proof.
  unfold FriendInvitation_delete.
  cbn [reservations users invitations with_users with_invitations].
  split; [reflexivity |]. split.
  - apply existsb_map_same. intros u.
    destruct (User.invitation_used u) as [k |]; [| reflexivity].
    destruct (k =? FriendInvitation.id i); reflexivity.
  - intros x Hx. apply filter_In in Hx. destruct Hx as [Hin Hne].
    split; [exact Hin |]. apply negb_true_iff in Hne. now apply Z.eqb_neq.
Qed.

(** What a successful call of [CreateFriendInvitationView.post] has done:
    it has sent an invitation that was stored and valid, with the message
    of the request put on it, or it has created one, after the removal of a
    stored one that was no longer valid. *)
Lemma CreateFriendInvitationView_post_inversion (st : State) (u : Z)
    (req : InvitationRequest) (token : string) (now : datetime)
    (i : FriendInvitation.t) (resend : bool) (st1 : State) :
  CreateFriendInvitationView_post st u req token now = (inr (i, resend), st1) ->
  exists email rid r,
    ir_invited_email req = Some email /\ email <> ""
    /\ ir_reservation_id req = Some rid /\ rid <> 0
    /\ existsb (fun x => String.eqb (User.email x) email) (users st) = false
    /\ objects_get (fun r => (Reservation.id r =? rid) && (Reservation.user r =? u))
                   (reservations st) = Found r
    /\ Reservation.status r = CONFIRMED
    /\ Reservation.paid_at r <> None
    /\ ((resend = true
         /\ exists existing,
              existing_invitation st u email r = Some existing
              /\ FriendInvitation.is_valid existing now = true
              /\ ((i = existing /\ st1 = st
                   /\ (get_default (ir_message req) "" = ""
                       \/ FriendInvitation.message existing
                          = get_default (ir_message req) ""))
                  \/ (i = with_message existing (get_default (ir_message req) "")
                      /\ st1 = with_invitations st
                                 (update_row FriendInvitation.id i (invitations st)))))
        \/ (resend = false
            /\ exists st0,
                 (st0 = st /\ existing_invitation st u email r = None
                  \/ exists existing,
                       existing_invitation st u email r = Some existing
                       /\ FriendInvitation.is_valid existing now = false
                       /\ st0 = FriendInvitation_delete st existing)
                 /\ FriendInvitation.create_invitation (invitations st0) u email r
                      (get_default (ir_message req) "") token now
                    = Returns (i, invitations st0 ++ [i])
                 /\ st1 = with_invitations st0 (invitations st0 ++ [i]))).
Proof.
  unfold CreateFriendInvitationView_post.
  destruct (ir_invited_email req) as [email |] eqn:Hemail; [| discriminate].
  destruct (truthy (Some email)) eqn:Htruthy; cbn [negb]; [| discriminate].
  destruct (ir_reservation_id req) as [rid |]; [| discriminate].
  destruct (rid =? 0) eqn:Hrid; [discriminate |]. apply Z.eqb_neq in Hrid.
  cbn [get_default].
  destruct (existsb _ (users st)) eqn:Hreg; [discriminate |].
  destruct (objects_get _ (reservations st)) as [r | |] eqn:Hg; try discriminate.
  destruct (ReservationStatus_eqb (Reservation.status r) CONFIRMED) eqn:Hst;
    cbn [negb orb]; [| discriminate].
  apply ReservationStatus_eqb_eq in Hst.
  destruct (Reservation.paid_at r) as [paid |] eqn:Hpaid; [| discriminate].
  intros H. exists email, rid, r.
  split; [reflexivity |].
  split; [cbn in Htruthy; apply negb_true_iff in Htruthy; now apply String.eqb_neq |].
  split; [reflexivity |]. split; [exact Hrid |]. split; [exact Hreg |].
  split; [exact Hg |]. split; [exact Hst |].
  split; [rewrite Hpaid; discriminate |].
  assert (Hcreate : forall st0,
            match FriendInvitation.create_invitation (invitations st0) u email r
                    (get_default (ir_message req) "") token now with
            | Returns (invitation, table) =>
                (inr (invitation, false), with_invitations st0 table)
            | Raise ValueError => (inl (400, too_late_to_invite), st0)
            | Raise _ => (inl (500, invitation_internal_error), st0)
            end = (inr (i, resend), st1) ->
            resend = false
            /\ FriendInvitation.create_invitation (invitations st0) u email r
                 (get_default (ir_message req) "") token now
               = Returns (i, invitations st0 ++ [i])
            /\ st1 = with_invitations st0 (invitations st0 ++ [i])).
  { intros st0.
    destruct (FriendInvitation.create_invitation (invitations st0) _ _ _ _ _ _)
      as [[inv table] | e] eqn:Hc; intros H0.
    - injection H0 as <- <- <-.
      destruct (create_invitation_returns _ _ _ _ _ _ _ _ _ Hc) as (_ & -> & _).
      tauto.
    - destruct e; discriminate. }
  destruct (existing_invitation st u email r) as [existing |] eqn:Hex.
  - destruct (FriendInvitation.is_valid existing now) eqn:Hv.
    + left.
      destruct (negb (String.eqb (get_default (ir_message req) "") "")
                && negb (String.eqb (FriendInvitation.message existing)
                                    (get_default (ir_message req) ""))) eqn:Hmsg.
      * injection H as <- <- <-. split; [reflexivity |].
        exists existing. split; [reflexivity |]. split; [exact Hv |].
        right. tauto.
      * injection H as <- <- <-. split; [reflexivity |].
        exists existing. split; [reflexivity |]. split; [exact Hv |].
        left. split; [reflexivity |]. split; [reflexivity |].
        apply andb_false_iff in Hmsg. destruct Hmsg as [Hm | Hm];
          apply negb_false_iff, String.eqb_eq in Hm; tauto.
    + right. destruct (Hcreate _ H) as (-> & Hc & ->).
      split; [reflexivity |].
      exists (FriendInvitation_delete st existing).
      split; [right; exists existing; tauto |]. tauto.
  - right. destruct (Hcreate _ H) as (-> & Hc & ->).
    split; [reflexivity |]. exists st. tauto.
Qed.

Lemma existing_invitation_found (st : State) (u : Z) (email : string)
    (r : Reservation.t) (e : FriendInvitation.t) :
  existing_invitation st u email r = Some e ->
  In e (invitations st) /\ FriendInvitation.inviter e = u
  /\ FriendInvitation.invited_email e = email
  /\ FriendInvitation.reservation e = Reservation.id r.
Proof.
  unfold existing_invitation. intros H. apply newest_by_in in H.
  apply filter_In in H. destruct H as [Hin Hp].
  apply andb_true_iff in Hp. destruct Hp as [Hp H3].
  apply andb_true_iff in Hp. destruct Hp as [H1 H2].
  apply Z.eqb_eq in H1, H3. apply String.eqb_eq in H2. tauto.
Qed.

(** X13.  Who can be invited, and to what.  When
    [CreateFriendInvitationView.post] answers with an invitation, the address
    invited belongs to no stored user, the reservation named is one of the
    requesting user, CONFIRMED and paid, and the invitation answered is
    stored for exactly that inviter, address and reservation and is valid at
    the time of the request.  An invitation that is not a resend carries the
    token drawn for the request and is created no later than 23:59:59 on the
    eve of the reservation date. *)
Theorem invitation_is_sent (st : State) (u : Z) (req : InvitationRequest)
    (token : string) (now : datetime) (i : FriendInvitation.t) (resend : bool)
    (st1 : State) :
  CreateFriendInvitationView_post st u req token now = (inr (i, resend), st1) ->
  exists email r,
    ir_invited_email req = Some email
    /\ (forall x, In x (users st) -> User.email x <> email)
    /\ In r (reservations st)
    /\ ir_reservation_id req = Some (Reservation.id r)
    /\ Reservation.user r = u
    /\ Reservation.status r = CONFIRMED
    /\ Reservation.paid_at r <> None
    /\ In i (invitations st1)
    /\ FriendInvitation.inviter i = u
    /\ FriendInvitation.invited_email i = email
    /\ FriendInvitation.reservation i = Reservation.id r
    /\ FriendInvitation.is_valid i now = true
    /\ (resend = false ->
        FriendInvitation.invitation_token i = token
        /\ FriendInvitation.created_at i = now
        /\ now <= combine (Reservation.reservation_date r - 1) 23 59 59)
    /\ reservations st1 = reservations st.
Proof.
  intros H. destruct (CreateFriendInvitationView_post_inversion _ _ _ _ _ _ _ _ H)
    as (email & rid & r & Hemail & _ & Hrid & _ & Hreg & Hg & Hst & Hpaid & Hcases).
  destruct (objects_get_found_in _ _ _ Hg) as [Hin Hp].
  apply andb_true_iff in Hp. destruct Hp as [Hid Hu]. apply Z.eqb_eq in Hid, Hu.
  exists email, r. split; [exact Hemail |].
  split.
  { intros x Hx. apply String.eqb_neq. exact (existsb_false _ _ Hreg x Hx). }
  split; [exact Hin |]. split; [now rewrite Hid |]. split; [exact Hu |].
  split; [exact Hst |]. split; [exact Hpaid |].
  destruct Hcases as [(-> & existing & Hex & Hv & Hcase) | (-> & st0 & Hst0 & Hc & ->)].
  - destruct (existing_invitation_found _ _ _ _ _ Hex) as (Hi & H1 & H2 & H3).
    destruct Hcase as [(-> & -> & _) | (-> & ->)].
    + repeat apply conj; try assumption; try reflexivity. discriminate.
    + cbn [invitations reservations with_invitations].
      repeat apply conj; try assumption; try reflexivity; try discriminate.
      apply (update_row_has _ _ _ existing); [exact Hi | reflexivity].
  - destruct (create_invitation_returns _ _ _ _ _ _ _ _ _ Hc)
      as (Hi & _ & Hlate & Hv & _).
    cbn [invitations reservations with_invitations].
    split; [apply in_or_app; right; now left |].
    split; [now rewrite Hi |]. split; [now rewrite Hi |]. split; [now rewrite Hi |].
    split; [exact Hv |].
    split; [intros _; rewrite Hi; cbn; tauto |].
    destruct Hst0 as [[-> _] | (existing & _ & _ & ->)]; [reflexivity |].
    apply (FriendInvitation_delete_frame st existing email).
Qed.

(** X14.  Repeating an invitation sends the same link.  After a request
    that [CreateFriendInvitationView.post] has answered with an invitation,
    the same request, made again before that invitation expires, is answered
    with that same invitation, marked as a resend, whatever token is drawn
    for it, and writes nothing. *)
Theorem invitation_request_repeated (st : State) (u : Z) (req : InvitationRequest)
    (token : string) (now : datetime) (i : FriendInvitation.t) (resend : bool)
    (st1 : State) :
  NoDup (map FriendInvitation.id (invitations st)) ->
  CreateFriendInvitationView_post st u req token now = (inr (i, resend), st1) ->
  forall token' later,
    later < FriendInvitation.expires_at i ->
    CreateFriendInvitationView_post st1 u req token' later = (inr (i, true), st1).
Proof.
  intros Hnd H token' later Hlater.
  destruct (CreateFriendInvitationView_post_inversion _ _ _ _ _ _ _ _ H)
    as (email & rid & r & Hemail & Hne & Hrid & Hrid0 & Hreg & Hg & Hst & Hpaid
        & Hcases).
  assert (Hstate : reservations st1 = reservations st
                   /\ existsb (fun x => String.eqb (User.email x) email) (users st1) = false
                   /\ existing_invitation st1 u email r = Some i
                   /\ FriendInvitation.status i = INV_PENDING
                   /\ (get_default (ir_message req) "" = ""
                       \/ FriendInvitation.message i = get_default (ir_message req) "")).
  { destruct Hcases as [(-> & existing & Hex & Hv & Hcase) | (-> & st0 & Hst0 & Hc & ->)].
    - apply invitation_is_valid_iff in Hv. destruct Hv as [Hpending _].
      destruct Hcase as [(-> & -> & Hmsg) | (-> & ->)].
      + tauto.
      + cbn [reservations users with_invitations].
        split; [reflexivity |]. split; [exact Hreg |]. split; [| tauto].
        destruct (existing_invitation_found _ _ _ _ _ Hex) as (Hi & _).
        unfold existing_invitation in *. cbn [invitations with_invitations].
        rewrite (newest_by_filter_update_row FriendInvitation.id
                   FriendInvitation.created_at _ _ existing);
          [| exact Hnd | exact Hi | reflexivity | reflexivity | reflexivity].
        rewrite Hex. cbn. now rewrite Z.eqb_refl.
    - destruct (create_invitation_returns _ _ _ _ _ _ _ _ _ Hc)
        as (Hi & _ & _ & _ & Hunique).
      assert (Hframe : reservations st0 = reservations st
                       /\ existsb (fun x => String.eqb (User.email x) email) (users st0)
                          = false).
      { destruct Hst0 as [[-> _] | (existing & _ & _ & ->)]; [tauto |].
        destruct (FriendInvitation_delete_frame st existing email) as (-> & -> & _).
        tauto. }
      cbn [reservations users with_invitations].
      split; [tauto |]. split; [tauto |]. split; [| rewrite Hi; cbn; tauto].
      unfold existing_invitation. cbn [invitations with_invitations].
      rewrite filter_app, filter_none.
      + cbn [app filter]. rewrite Hi at 1 2 3. cbn.
        now rewrite !Z.eqb_refl, String.eqb_refl.
      + intros x Hx. destruct (Hunique x Hx) as [_ Hnot].
        destruct (FriendInvitation.inviter x =? u) eqn:E1; [| reflexivity].
        destruct (String.eqb (FriendInvitation.invited_email x) email) eqn:E2;
          [| reflexivity].
        destruct (FriendInvitation.reservation x =? Reservation.id r) eqn:E3;
          [| reflexivity].
        apply Z.eqb_eq in E1, E3. apply String.eqb_eq in E2. exfalso. tauto. }
  destruct Hstate as (Hres & Hreg1 & Hex1 & Hpending & Hmsg).
  unfold CreateFriendInvitationView_post.
  rewrite Hemail, Hrid. rewrite (truthy_some email Hne). cbn [negb get_default].
  rewrite (proj2 (Z.eqb_neq _ _) Hrid0), Hreg1, Hres, Hg, Hst.
  cbn [ReservationStatus_eqb negb orb].
  destruct (Reservation.paid_at r); [| now elim Hpaid].
  rewrite Hex1.
  replace (FriendInvitation.is_valid i later) with true
    by (symmetry; apply invitation_is_valid_iff; tauto).
  destruct Hmsg as [Hmsg | Hmsg].
  - rewrite Hmsg. cbn. reflexivity.
  - rewrite Hmsg, String.eqb_refl. cbn [negb]. now rewrite andb_false_r.
Qed.

Lemma invitation_request_repeated_witness :
  let st := with_users (after_booking (ymd 2024 6 13) "basic" "pi_123") [alice] in
  let req := mkInvitationRequest (Some "friend@example.com") (Some 1) None in
  let i := FriendInvitation.mk 1 1 "friend@example.com" None friend_token 1
             INV_PENDING "" (at_time 2024 6 10 10 0 0) (at_time 2024 6 13 0 0 59)
             None None in
  CreateFriendInvitationView_post st 1 req friend_token (at_time 2024 6 10 10 0 0)
  = (inr (i, false), with_invitations st [i])
  /\ CreateFriendInvitationView_post (with_invitations st [i]) 1 req
       "ffffffffffffffffffffffffffffffff" (at_time 2024 6 11 10 0 0)
     = (inr (i, true), with_invitations st [i]).
Proof.
  cbv zeta.
  set (st := with_users (after_booking (ymd 2024 6 13) "basic" "pi_123") [alice]).
  set (req := mkInvitationRequest (Some "friend@example.com") (Some 1) None).
  set (i := FriendInvitation.mk 1 1 "friend@example.com" None friend_token 1
              INV_PENDING "" (at_time 2024 6 10 10 0 0) (at_time 2024 6 13 0 0 59)
              None None).
  assert (Hnd : NoDup (map FriendInvitation.id (invitations st))) by constructor.
  assert (H : CreateFriendInvitationView_post st 1 req friend_token
                (at_time 2024 6 10 10 0 0)
              = (inr (i, false), with_invitations st [i]))
    by (vm_compute; reflexivity).
  assert (Hlater : at_time 2024 6 11 10 0 0 < FriendInvitation.expires_at i)
    by (vm_compute; reflexivity).
  split; [exact H |].
  exact (invitation_request_repeated _ _ _ _ _ _ _ _ Hnd H _ _ Hlater).
Defined.

Lemma invitation_is_sent_witness :
  let st := with_users (after_booking (ymd 2024 6 13) "basic" "pi_123") [alice] in
  let req := mkInvitationRequest (Some "friend@example.com") (Some 1) None in
  let i := FriendInvitation.mk 1 1 "friend@example.com" None friend_token 1
             INV_PENDING "" (at_time 2024 6 10 10 0 0) (at_time 2024 6 13 0 0 59)
             None None in
  CreateFriendInvitationView_post st 1 req friend_token (at_time 2024 6 10 10 0 0)
  = (inr (i, false), with_invitations st [i])
  /\ FriendInvitation.is_valid i (at_time 2024 6 10 10 0 0) = true.
Proof.
  cbv zeta.
  set (st := with_users (after_booking (ymd 2024 6 13) "basic" "pi_123") [alice]).
  set (req := mkInvitationRequest (Some "friend@example.com") (Some 1) None).
  set (i := FriendInvitation.mk 1 1 "friend@example.com" None friend_token 1
              INV_PENDING "" (at_time 2024 6 10 10 0 0) (at_time 2024 6 13 0 0 59)
              None None).
  assert (H : CreateFriendInvitationView_post st 1 req friend_token
                (at_time 2024 6 10 10 0 0)
              = (inr (i, false), with_invitations st [i]))
    by (vm_compute; reflexivity).
  split; [exact H |].
  destruct (invitation_is_sent _ _ _ _ _ _ _ _ H) as (email & r & Hrest).
  apply Hrest.
Defined.

(** ** One group for a reservation *)

Lemma NoDup_append {A : Type} (l1 l2 : list A) :
  NoDup l1 -> NoDup l2 -> (forall x, In x l2 -> ~ In x l1) -> NoDup (l1 ++ l2).
Proof.
  intros H1 H2 Hdisjoint. induction H1 as [| a l1 Ha H1 IH]; [exact H2 |].
  cbn [app]. constructor.
  - intros Hin. apply in_app_or in Hin. destruct Hin as [Hin | Hin]; [now apply Ha |].
    apply (Hdisjoint a Hin). now left.
  - apply IH. intros x Hx Hin. apply (Hdisjoint x Hx). now right.
Qed.

Lemma NoDup_map_filter {A B : Type} (f : A -> B) (keep : A -> bool) (l : list A) :
  NoDup (map f l) -> NoDup (map f (filter keep l)).
Proof.
  induction l as [| x l IH]; intros H; [constructor |].
  cbn [map] in H. apply NoDup_cons_iff in H. destruct H as [Hx H].
  cbn [filter]. destruct (keep x); [| now apply IH].
  cbn [map]. constructor; [| now apply IH].
  intros Hin. apply Hx. apply in_map_iff in Hin. destruct Hin as (y & <- & Hy).
  apply in_map. apply filter_In in Hy. tauto.
Qed.

Lemma create_memberships_one_group (st : State) (group : Z) (now : datetime)
    (rows : list Reservation.t) :
  NoDup (map GroupMembership.reservation (memberships st)) ->
  NoDup (map GroupMembership.reservation
           (memberships (fst (create_memberships st group now rows)))).
Proof.
  intros Hnd. destruct (create_memberships st group now rows) as [st' finished] eqn:H.
  apply create_memberships_spec in H. cbn [fst].
  destruct H as (ms & -> & _ & _ & _ & _ & _ & _ & _ & _ & _ & Hms & Hdisjoint).
  rewrite map_app. now apply NoDup_append.
Qed.

Lemma CreateGroupView_post_one_group (st : State) (req : GroupRequest)
    (now : datetime) :
  NoDup (map GroupMembership.reservation (memberships st)) ->
  NoDup (map GroupMembership.reservation
           (memberships (snd (CreateGroupView_post st req now)))).
Proof.
  intros Hnd. unfold CreateGroupView_post.
  destruct (negb (truthy (gr_name req))); [exact Hnd |].
  destruct (negb (truthy (gr_meeting_point_name req))); [exact Hnd |].
  destruct (gr_selected_reservations req) as [| i ids]; [exact Hnd |].
  destruct (confirmed_among st (i :: ids)) as [| first rest]; [exact Hnd |].
  destruct (negb (forallb _ (first :: rest))); [exact Hnd |].
  assert (Hcase : forall t address,
            NoDup (map GroupMembership.reservation
                     (memberships
                        (snd (let '(group, st1) :=
                                EventGroup_objects_create st now
                                  (get_default (gr_name req) "")
                                  (Reservation.activity_name first)
                                  (Reservation.reservation_date first)
                                  (get_default (gr_meeting_point_name req) "")
                                  address t (Z.of_nat (List.length (i :: ids))) in
                              match create_memberships st1 (EventGroup.id group) now
                                      (first :: rest) with
                              | (st2, true) => (Ok group, st2)
                              | (st2, false) => (Error 500 internal_error, st2)
                              end))))).
  { intros t address. unfold EventGroup_objects_create. cbv zeta beta iota.
    match goal with
    | |- context [create_memberships ?s ?g now (first :: rest)] =>
        pose proof (create_memberships_one_group s g now (first :: rest) Hnd) as H;
        destruct (create_memberships s g now (first :: rest)) as [st2 finished]
    end.
    cbn [fst] in H. destruct finished; exact H. }
  destruct (gr_meeting_time req); destruct (gr_meeting_point_address req);
    try exact Hnd; apply Hcase.
Qed.

Lemma create_chunk_group_one_group (group_name : date -> string -> Z -> string)
    (now : datetime) (key : date * string) (acc : State * bool)
    (chunk : Z * list Reservation.t) :
  NoDup (map GroupMembership.reservation (memberships (fst acc))) ->
  NoDup (map GroupMembership.reservation
           (memberships (fst (create_chunk_group group_name now key acc chunk)))).
Proof.
  intros Hnd. unfold create_chunk_group. destruct acc as [st running].
  cbn [fst] in Hnd. destruct running; cbn [negb]; [| exact Hnd].
  unfold EventGroup_objects_create. cbv zeta beta iota.
  now apply create_memberships_one_group.
Qed.

Lemma create_groups_for_selected_one_group
    (group_name : date -> string -> Z -> string) (st : State) (queryset : list Z)
    (now : datetime) :
  NoDup (map GroupMembership.reservation (memberships st)) ->
  NoDup (map GroupMembership.reservation
           (memberships (create_groups_for_selected group_name st queryset now))).
Proof.
  intros Hnd. unfold create_groups_for_selected. cbv zeta.
  generalize (fold_left (fun g r => add_grouped r g)
                (filter (fun r => negb (has_group st r))
                   (default_ordering
                      (filter (fun r => existsb (Z.eqb (Reservation.id r)) queryset
                                        && ReservationStatus_eqb
                                             (Reservation.status r) CONFIRMED)
                              (reservations st))))
                []) as grouped.
  intros grouped.
  assert (Hchunks : forall key chunks acc,
            NoDup (map GroupMembership.reservation (memberships (fst acc))) ->
            NoDup (map GroupMembership.reservation
                     (memberships
                        (fst (fold_left (create_chunk_group group_name now key)
                                        chunks acc))))).
  { intros key chunks. induction chunks as [| chunk chunks IH]; intros acc Hacc;
      cbn [fold_left]; [exact Hacc |].
    apply IH. now apply create_chunk_group_one_group. }
  assert (H : forall acc,
            NoDup (map GroupMembership.reservation (memberships (fst acc))) ->
            NoDup (map GroupMembership.reservation
                     (memberships
                        (fst (fold_left
                                (fun acc entry =>
                                   fold_left
                                     (create_chunk_group group_name now (fst entry))
                                     (chunks_of_six (snd entry)) acc)
                                grouped acc))))).
  { induction grouped as [| entry grouped IH]; intros acc Hacc; cbn [fold_left].
    - exact Hacc.
    - apply IH. now apply Hchunks. }
  apply (H (st, true)). exact Hnd.
Qed.

(** X15.  A reservation is in one group at most.  In every state reached
    from the empty database by requests to the application (the views and the
    admin actions modelled here, and any other request, none of which writes
    a group or a membership), no two memberships name the same reservation:
    the creation of a group and the batch action stop at a reservation that
    already has a group. *)
Theorem reservation_in_one_group (st : State) :
  reachable st -> NoDup (map GroupMembership.reservation (memberships st)).
Proof.
  induction 1 as [| st st' _ IH Hstep]; [constructor |].
  destruct Hstep.
  - destruct (ReservationView_post_frame st u req now) as [_ ->]. exact IH.
  - destruct (ConfirmPaymentView_post_frame stripe st u req now) as [_ ->]. exact IH.
  - destruct (ReservationCancelView_post_frame st u rid now) as [_ ->]. exact IH.
  - destruct (UseTicketView_post_frame st u tid d now) as [_ ->]. exact IH.
  - destruct (AcceptInvitationView_post_frame st token req now) as [_ ->]. exact IH.
  - destruct (ProcessInvitedUserView_post_frame st u now) as [_ ->]. exact IH.
  - destruct (CreateReservationWithSubscriptionView_post_frame st u d now) as [_ ->].
    exact IH.
  - now apply CreateGroupView_post_one_group.
  - now apply create_groups_for_selected_one_group.
  - exact IH.
  - rewrite H0. now apply NoDup_map_filter.
Qed.

Lemma reservation_in_one_group_witness :
  reachable after_grouping
  /\ map GroupMembership.reservation (memberships after_grouping) = [1; 2]
  /\ NoDup (map GroupMembership.reservation (memberships after_grouping)).
Proof.
  assert (Hreach : reachable after_grouping).
  { refine (reachable_step _ _ _
              (step_create_group two_bookings (group_request [1; 2])
                 (at_time 2024 6 10 9 0 0))).
    refine (reachable_step _ _ _
              (step_reservation (after_booking (ymd 2024 6 13) "basic" "pi_123") 2
                 (mkReservationRequest (karaoke_data (ymd 2024 6 13)) (Some "pi_456"))
                 (at_time 2024 6 3 10 0 0))).
    refine (reachable_step _ _ _
              (step_reservation empty_state 1
                 (mkReservationRequest (booking_data (ymd 2024 6 13) "basic" 1500)
                    (Some "pi_123"))
                 (at_time 2024 6 3 9 0 0))).
    exact reachable_empty. }
  split; [exact Hreach |]. split; [vm_compute; reflexivity |].
  exact (reservation_in_one_group after_grouping Hreach).
Defined.

(** ** The batch action of the administration *)

Lemma firstn_add_skipn {A : Type} (a b : nat) (l : list A) :
  firstn (a + b) l = firstn a l ++ firstn b (skipn a l).
Proof.
  revert l. induction a as [| a IH]; intros l; [reflexivity |].
  destruct l as [| x l]; cbn [Nat.add firstn skipn app].
  - now rewrite firstn_nil.
  - now rewrite IH.
Qed.

Lemma concat_chunks {A : Type} (l : list A) (n : nat) :
  List.concat (map (fun k => firstn 6 (skipn (6 * k) l)) (seq 0 n)) = firstn (6 * n) l.
Proof.
  induction n as [| n IH]; [reflexivity |].
  rewrite seq_S, map_app, concat_app, IH. cbn [Nat.add map List.concat].
  rewrite app_nil_r. replace (6 * S n)%nat with (6 * n + 6)%nat by lia.
  symmetry. apply firstn_add_skipn.
Qed.

Lemma chunks_count (n : nat) :
  (n <= 6 * ((n + 5) / 6) /\ forall k, k < (n + 5) / 6 -> 6 * k < n)%nat.
Proof.
  pose proof (Nat.div_mod_eq (n + 5) 6) as Hdiv.
  pose proof (Nat.mod_upper_bound (n + 5) 6) as Hmod.
  split; [lia |]. intros k Hk. lia.
Qed.

(** X16.  The batch action cuts the reservations of one date and activity
    into consecutive groups of six: the chunks, taken in order, give back the
    list; they are numbered from 0; each holds at least one and at most six
    reservations, and all but the last hold six. *)
Theorem chunks_of_six_partition (rows : list Reservation.t) :
  List.concat (map snd (chunks_of_six rows)) = rows
  /\ map fst (chunks_of_six rows)
     = map Z.of_nat (seq 0 (List.length (chunks_of_six rows)))
  /\ (forall chunk, In chunk (chunks_of_six rows) ->
                    (1 <= List.length (snd chunk) <= 6)%nat)
  /\ (forall k chunk, nth_error (chunks_of_six rows) k = Some chunk ->
                      (S k < List.length (chunks_of_six rows))%nat ->
                      List.length (snd chunk) = 6%nat).
Proof.
  unfold chunks_of_six.
  destruct (chunks_count (List.length rows)) as [Hall Hsome].
  split; [| split; [| split]].
  - rewrite map_map. cbn [snd]. rewrite concat_chunks. now apply firstn_all2.
  - rewrite map_map. cbn [fst]. now rewrite length_map, length_seq.
  - intros chunk Hin. apply in_map_iff in Hin. destruct Hin as (k & <- & Hk).
    apply in_seq in Hk. cbn [snd]. rewrite length_firstn, length_skipn.
    specialize (Hsome k). lia.
  - intros k chunk Hk Hlast. rewrite length_map, length_seq in Hlast.
    rewrite nth_error_map in Hk.
    destruct (nth_error (seq 0 ((List.length rows + 5) / 6)) k) as [j |] eqn:Hj;
      [| discriminate].
    assert (Hchunk : chunk = (Z.of_nat j, firstn 6 (skipn (6 * j) rows)))
      by (cbn [option_map] in Hk; congruence).
    subst chunk. cbn [snd].
    assert (j = k).
    { apply nth_error_nth with (d := 0%nat) in Hj. rewrite seq_nth in Hj; lia. }
    subst j. rewrite length_firstn, length_skipn.
    specialize (Hsome (S k) Hlast). lia.
Qed.

Lemma skipn_in {A : Type} (n : nat) (l : list A) (x : A) :
  In x (skipn n l) -> In x l.
Proof.
  revert l. induction n as [| n IH]; intros [| y l]; cbn [skipn In]; try tauto.
  intros H. right. now apply IH.
Qed.

Lemma add_grouped_keys (P : Reservation.t -> Prop) (r : Reservation.t)
    (grouped : list ((date * string) * list Reservation.t)) :
  P r ->
  (forall e, In e grouped -> forall x, In x (snd e) ->
     P x /\ fst (fst e) = Reservation.reservation_date x
     /\ snd (fst e) = Reservation.activity_name x) ->
  forall e, In e (add_grouped r grouped) -> forall x, In x (snd e) ->
    P x /\ fst (fst e) = Reservation.reservation_date x
    /\ snd (fst e) = Reservation.activity_name x.
Proof.
  intros Hr. induction grouped as [| [key rows] rest IH]; intros Hinv e He x Hx.
  - destruct He as [<- | []]. destruct Hx as [<- | []]. cbn. tauto.
  - cbn [add_grouped] in He. destruct (same_key key r) eqn:Hkey.
    + destruct He as [<- | He].
      * cbn [fst snd] in *. apply in_app_or in Hx. destruct Hx as [Hx | [<- | []]].
        -- apply (Hinv (key, rows)); [now left | exact Hx].
        -- unfold same_key in Hkey. apply andb_true_iff in Hkey.
           destruct Hkey as [H1 H2]. apply Z.eqb_eq in H1. apply String.eqb_eq in H2.
           tauto.
      * apply (Hinv e); [now right | exact Hx].
    + destruct He as [<- | He].
      * apply (Hinv (key, rows)); [now left | exact Hx].
      * apply IH; try assumption. intros e' He'. apply Hinv. now right.
Qed.

Lemma fold_add_grouped_keys (P : Reservation.t -> Prop) (rows : list Reservation.t) :
  (forall r, In r rows -> P r) ->
  forall grouped,
    (forall e, In e grouped -> forall x, In x (snd e) ->
       P x /\ fst (fst e) = Reservation.reservation_date x
       /\ snd (fst e) = Reservation.activity_name x) ->
    forall e, In e (fold_left (fun g r => add_grouped r g) rows grouped) ->
    forall x, In x (snd e) ->
      P x /\ fst (fst e) = Reservation.reservation_date x
      /\ snd (fst e) = Reservation.activity_name x.
Proof.
  induction rows as [| r rows IH]; intros HP grouped Hinv; cbn [fold_left];
    [exact Hinv |].
  apply IH.
  - intros x Hx. apply HP. now right.
  - apply add_grouped_keys; [apply HP; now left | exact Hinv].
Qed.

(** X17.  The batch action makes groups of one date and one activity.
    Every membership that [create_groups_for_selected] writes joins a
    reservation that is stored, CONFIRMED, ticked in the list and had no
    group, to a group created by the action, confirmed, of capacity 6, whose
    date and activity are those of the reservation. *)
Theorem batch_groups_share_date_and_activity
    (group_name : date -> string -> Z -> string) (st : State) (queryset : list Z)
    (now : datetime) (m : GroupMembership.t) :
  In m (memberships (create_groups_for_selected group_name st queryset now)) ->
  In m (memberships st)
  \/ exists g r,
       In g (groups (create_groups_for_selected group_name st queryset now))
       /\ ~ In (EventGroup.id g) (map EventGroup.id (groups st))
       /\ EventGroup.id g = GroupMembership.group m
       /\ EventGroup.max_participants g = 6
       /\ EventGroup.is_confirmed g = true
       /\ In r (reservations st)
       /\ Reservation.id r = GroupMembership.reservation m
       /\ Reservation.status r = CONFIRMED
       /\ In (Reservation.id r) queryset
       /\ has_group st r = false
       /\ EventGroup.event_date g = Reservation.reservation_date r
       /\ EventGroup.activity_name g = Reservation.activity_name r.
Proof.
  set (P := fun r : Reservation.t =>
              In r (reservations st) /\ Reservation.status r = CONFIRMED
              /\ In (Reservation.id r) queryset /\ has_group st r = false).
  set (inv := fun s : State =>
                (forall g, In g (groups st) -> In g (groups s))
                /\ forall m, In m (memberships s) ->
                     In m (memberships st)
                     \/ exists g r,
                          In g (groups s)
                          /\ ~ In (EventGroup.id g) (map EventGroup.id (groups st))
                          /\ EventGroup.id g = GroupMembership.group m
                          /\ EventGroup.max_participants g = 6
                          /\ EventGroup.is_confirmed g = true
                          /\ P r
                          /\ Reservation.id r = GroupMembership.reservation m
                          /\ EventGroup.event_date g = Reservation.reservation_date r
                          /\ EventGroup.activity_name g = Reservation.activity_name r).
  assert (Hstep : forall key acc chunk,
            (forall x, In x (snd chunk) ->
               P x /\ fst key = Reservation.reservation_date x
               /\ snd key = Reservation.activity_name x) ->
            inv (fst acc) ->
            inv (fst (create_chunk_group group_name now key acc chunk))).
  { intros key [s running] chunk Hrows [Hgroups Hmem]. unfold create_chunk_group.
    cbn [fst] in *. destruct running; cbn [negb]; [| now split].
    unfold EventGroup_objects_create. cbv zeta beta iota.
    set (g := EventGroup.mk (fresh_id (map EventGroup.id (groups s))) _ _ _ _ _ _ _ _ _ _).
    destruct (create_memberships (with_groups s (groups s ++ [g])) (EventGroup.id g)
                now (snd chunk)) as [s' finished] eqn:Hcm.
    apply create_memberships_spec in Hcm.
    destruct Hcm as (ms & Hm & Hg & _ & _ & _ & _ & _ & Hall & Hmap & _).
    cbn [memberships groups with_groups fst] in *.
    rewrite Forall_forall in Hall. split.
    - intros g0 Hg0. rewrite Hg. apply in_or_app. left. now apply Hgroups.
    - intros m0 Hm0. rewrite Hm in Hm0. apply in_app_or in Hm0.
      destruct Hm0 as [Hold | Hnew].
      + destruct (Hmem m0 Hold) as [H | (g0 & r & Hg0 & Hrest)]; [now left |].
        right. exists g0, r. split; [| exact Hrest].
        rewrite Hg. apply in_or_app. now left.
      + right.
        assert (Hr : exists r, In r (snd chunk)
                               /\ Reservation.id r = GroupMembership.reservation m0).
        { assert (Hin : In (GroupMembership.reservation m0)
                           (map GroupMembership.reservation ms)) by now apply in_map.
          rewrite Hmap in Hin. apply in_map_iff in Hin.
          destruct Hin as (r & Hid & Hr). exists r. split; [| exact Hid].
          eapply firstn_in. exact Hr. }
        destruct Hr as (r & Hr & Hid).
        destruct (Hrows r Hr) as (HP & Hdate & Hact).
        exists g, r. split; [rewrite Hg; apply in_or_app; right; now left |].
        split.
        { intros Hin. apply (fresh_id_not_in (map EventGroup.id (groups s))).
          apply in_map_iff in Hin. destruct Hin as (g0 & Hid0 & Hg0).
          change (fresh_id (map EventGroup.id (groups s))) with (EventGroup.id g).
          rewrite <- Hid0. apply in_map. now apply Hgroups. }
        split; [symmetry; now apply Hall |].
        split; [reflexivity |]. split; [reflexivity |]. split; [exact HP |].
        split; [exact Hid |]. split; [exact Hdate | exact Hact]. }
  assert (Hchunks : forall key rows acc,
            (forall x, In x rows ->
               P x /\ fst key = Reservation.reservation_date x
               /\ snd key = Reservation.activity_name x) ->
            inv (fst acc) ->
            inv (fst (fold_left (create_chunk_group group_name now key)
                                (chunks_of_six rows) acc))).
  { intros key rows acc Hrows.
    assert (Hsub : forall chunk, In chunk (chunks_of_six rows) ->
                     forall x, In x (snd chunk) -> In x rows).
    { intros chunk Hc x Hx. unfold chunks_of_six in Hc. apply in_map_iff in Hc.
      destruct Hc as (k & <- & _). cbn [snd] in Hx. apply firstn_in in Hx.
      eapply skipn_in. exact Hx. }
    revert acc. induction (chunks_of_six rows) as [| chunk chunks IH]; intros acc Hacc;
      cbn [fold_left]; [exact Hacc |].
    apply IH.
    - intros c Hc. apply Hsub. now right.
    - apply Hstep; [| exact Hacc]. intros x Hx. apply Hrows.
      apply (Hsub chunk); [now left | exact Hx]. }
  intros Hm. unfold create_groups_for_selected in Hm. cbv zeta in Hm.
  set (candidates := filter (fun r => negb (has_group st r)) _) in Hm.
  assert (Hcand : forall r, In r candidates -> P r).
  { intros r Hr. apply filter_In in Hr. destruct Hr as [Hr Hng].
    apply (proj1 (default_ordering_in _ _)) in Hr.
    apply filter_In in Hr. destruct Hr as [Hr Hp].
    apply andb_true_iff in Hp. destruct Hp as [Hq Hst].
    apply ReservationStatus_eqb_eq in Hst. apply negb_true_iff in Hng.
    apply existsb_exists in Hq. destruct Hq as (i & Hi & Hq). apply Z.eqb_eq in Hq.
    unfold P. rewrite Hq. tauto. }
  pose proof (fold_add_grouped_keys P candidates Hcand [] (fun e (He : In e []) => match He with end))
    as Hgrouped.
  assert (Hfold : forall grouped acc,
            (forall e, In e grouped -> forall x, In x (snd e) ->
               P x /\ fst (fst e) = Reservation.reservation_date x
               /\ snd (fst e) = Reservation.activity_name x) ->
            inv (fst acc) ->
            inv (fst (fold_left
                        (fun acc entry =>
                           fold_left (create_chunk_group group_name now (fst entry))
                                     (chunks_of_six (snd entry)) acc)
                        grouped acc))).
  { induction grouped as [| entry grouped IH]; intros acc Hg Hacc; cbn [fold_left];
      [exact Hacc |].
    apply IH.
    - intros e He. apply Hg. now right.
    - apply Hchunks; [| exact Hacc]. apply (Hg entry). now left. }
  assert (Hinv : inv st) by (split; [tauto | intros m0 Hm0; now left]).
  destruct (Hfold _ (st, true) Hgrouped Hinv) as [_ Hres].
  destruct (Hres m Hm) as [H | (g & r & Hg & Hnew & Hid & Hmax & Hconf & HP & Hrid
                                 & Hdate & Hact)]; [now left |].
  right. exists g, r. unfold P in HP. tauto.
Qed.

Lemma batch_groups_share_date_and_activity_witness :
  let st' := create_groups_for_selected (fun _ activity _ => activity) two_bookings
               [1; 2] (at_time 2024 6 10 9 0 0) in
  map Reservation.activity_name (reservations two_bookings) = ["Bowling"; "Karaoke"]
  /\ map EventGroup.activity_name (groups st') = ["Bowling"; "Karaoke"]
  /\ map GroupMembership.group (memberships st') = [1; 2]
  /\ forall m, In m (memberships st') ->
       exists g r,
         In g (groups st') /\ EventGroup.id g = GroupMembership.group m
         /\ In r (reservations two_bookings)
         /\ Reservation.id r = GroupMembership.reservation m
         /\ EventGroup.activity_name g = Reservation.activity_name r.
Proof.
  cbv zeta.
  split; [vm_compute; reflexivity |]. split; [vm_compute; reflexivity |].
  split; [vm_compute; reflexivity |].
  intros m Hm.
  destruct (batch_groups_share_date_and_activity _ _ _ _ m Hm)
    as [Hold | (g & r & Hg & _ & Hid & _ & _ & Hr & Hrid & _ & _ & _ & _ & Hact)].
  - vm_compute in Hold. destruct Hold.
  - exists g, r. tauto.
Defined.

(** ** Verification of the e-mail address *)

Lemma CodeType_eqb_eq (a b : CodeType) : CodeType_eqb a b = true <-> a = b.
Proof. destruct a, b; cbn; split; congruence. Qed.

(** What [create_verification_code] does to the table of codes. *)
Lemma create_verification_code_spec (table : list VerificationCode.t) (u : Z)
    (type : CodeType) (code : string) (duration_minutes : Z) (now : datetime)
    (c : VerificationCode.t) (table' : list VerificationCode.t) :
  VerificationCode.create_verification_code table u type code duration_minutes now
    = (c, table') ->
  In c table'
  /\ VerificationCode.user c = u
  /\ VerificationCode.code_type c = type
  /\ VerificationCode.code c = code
  /\ (forall later,
        VerificationCode.is_valid c later = true
        <-> later <= plus_minutes now duration_minutes)
  /\ (forall c', In c' table' ->
                 VerificationCode.user c' = u ->
                 VerificationCode.code_type c' = type ->
                 VerificationCode.is_used c' = false ->
                 c' = c)
  /\ map VerificationCode.id table' = map VerificationCode.id table ++ [VerificationCode.id c]
  /\ ~ In (VerificationCode.id c) (map VerificationCode.id table)
  /\ (forall c0, In c0 table ->
                 VerificationCode.user c0 <> u \/ VerificationCode.code_type c0 <> type
                 \/ VerificationCode.is_used c0 = true ->
                 In c0 table')
  /\ (forall c', In c' table' -> c' <> c ->
                 exists c0, In c0 table
                            /\ VerificationCode.id c' = VerificationCode.id c0
                            /\ VerificationCode.user c' = VerificationCode.user c0
                            /\ VerificationCode.code c' = VerificationCode.code c0
                            /\ VerificationCode.code_type c' = VerificationCode.code_type c0
                            /\ VerificationCode.expires_at c' = VerificationCode.expires_at c0
                            /\ VerificationCode.used_at c' = VerificationCode.used_at c0
                            /\ (VerificationCode.is_used c0 = true ->
                                VerificationCode.is_used c' = true)).
Proof.
  unfold VerificationCode.create_verification_code. cbv zeta. intros [= <- <-].
  set (c := VerificationCode.mk _ u code type now _ None false).
  set (f := fun c0 : VerificationCode.t =>
              if (VerificationCode.user c0 =? u)
                 && CodeType_eqb (VerificationCode.code_type c0) type
                 && negb (VerificationCode.is_used c0)
              then VerificationCode.with_used c0 (VerificationCode.used_at c0) true
              else c0).
  assert (Hf : forall c0,
            VerificationCode.id (f c0) = VerificationCode.id c0
            /\ VerificationCode.user (f c0) = VerificationCode.user c0
            /\ VerificationCode.code (f c0) = VerificationCode.code c0
            /\ VerificationCode.code_type (f c0) = VerificationCode.code_type c0
            /\ VerificationCode.expires_at (f c0) = VerificationCode.expires_at c0
            /\ VerificationCode.used_at (f c0) = VerificationCode.used_at c0
            /\ (VerificationCode.is_used c0 = true ->
                VerificationCode.is_used (f c0) = true)).
  { intros c0. unfold f. destruct (_ && _ && _); cbn; tauto. }
  split; [apply in_or_app; right; now left |].
  split; [reflexivity |]. split; [reflexivity |]. split; [reflexivity |].
  split.
  { intros later. unfold VerificationCode.is_valid, VerificationCode.is_expired.
    cbn. rewrite Z.gtb_ltb. destruct (_ <? later) eqn:E; cbn.
    - apply Z.ltb_lt in E. split; [discriminate | lia].
    - apply Z.ltb_ge in E. tauto. }
  split.
  { intros c' Hin Hu Ht Hunused. apply in_app_or in Hin.
    destruct Hin as [Hin | [<- | []]]; [| reflexivity].
    exfalso. apply in_map_iff in Hin. destruct Hin as (c0 & <- & _).
    unfold f in Hu, Ht, Hunused.
    destruct (_ && _ && _) eqn:E; [cbn in Hunused; discriminate |].
    rewrite Hu, Ht, Hunused, Z.eqb_refl in E.
    rewrite (proj2 (CodeType_eqb_eq type type) eq_refl) in E. discriminate. }
  split.
  { rewrite map_app, map_map. cbn [map]. f_equal. apply map_ext. apply Hf. }
  split; [apply fresh_id_not_in |].
  split.
  { intros c0 Hin Hor. apply in_or_app. left. apply in_map_iff. exists c0.
    split; [| exact Hin]. unfold f.
    destruct (VerificationCode.user c0 =? u) eqn:E1; [| reflexivity].
    destruct (CodeType_eqb (VerificationCode.code_type c0) type) eqn:E2;
      [| reflexivity].
    destruct (VerificationCode.is_used c0) eqn:E3; [reflexivity |].
    apply Z.eqb_eq in E1. apply CodeType_eqb_eq in E2.
    destruct Hor as [H | [H | H]]; [now elim H | now elim H | discriminate]. }
  intros c' Hin Hne. apply in_app_or in Hin.
  destruct Hin as [Hin | [<- | []]]; [| now elim Hne].
  apply in_map_iff in Hin. destruct Hin as (c0 & <- & Hc0).
  exists c0. split; [exact Hc0 |]. apply Hf.
Qed.

(** X18.  A new verification code replaces the former ones.  After
    [create_verification_code] the new code is the only unused code of the
    user for that purpose: the former unused ones are marked as used, without
    a date of use; the codes of other users, of other purposes and the codes
    already used are left as they are.  The new code is valid from its
    creation until [duration_minutes] later, that instant included. *)
Theorem verification_code_created (table : list VerificationCode.t) (u : Z)
    (type : CodeType) (code : string) (duration_minutes : Z) (now : datetime)
    (c : VerificationCode.t) (table' : list VerificationCode.t) :
  VerificationCode.create_verification_code table u type code duration_minutes now
    = (c, table') ->
  In c table'
  /\ VerificationCode.user c = u
  /\ VerificationCode.code_type c = type
  /\ VerificationCode.code c = code
  /\ (forall later,
        VerificationCode.is_valid c later = true
        <-> later <= plus_minutes now duration_minutes)
  /\ (forall c', In c' table' ->
                 VerificationCode.user c' = u ->
                 VerificationCode.code_type c' = type ->
                 VerificationCode.is_used c' = false ->
                 c' = c)
  /\ (forall c0, In c0 table ->
                 VerificationCode.user c0 <> u \/ VerificationCode.code_type c0 <> type
                 \/ VerificationCode.is_used c0 = true ->
                 In c0 table')
  /\ (forall c0, In c0 table ->
                 VerificationCode.user c0 = u ->
                 VerificationCode.code_type c0 = type ->
                 VerificationCode.is_used c0 = false ->
                 In (VerificationCode.with_used c0 (VerificationCode.used_at c0) true)
                    table').
Proof.
  intros H.
  destruct (create_verification_code_spec _ _ _ _ _ _ _ _ H)
    as (H1 & H2 & H3 & H4 & H5 & H6 & _ & _ & H9 & _).
  do 6 (split; [assumption |]). split; [exact H9 |].
  intros c0 Hin Hu Ht Hunused.
  unfold VerificationCode.create_verification_code in H. cbv zeta in H.
  injection H as _ <-. apply in_or_app. left. apply in_map_iff. exists c0.
  split; [| exact Hin].
  rewrite Hu, Ht, Hunused, Z.eqb_refl.
  now rewrite (proj2 (CodeType_eqb_eq type type) eq_refl).
Qed.

Lemma verification_code_created_witness :
  let old := VerificationCode.mk 1 2 "111111" EMAIL_VERIFICATION
               (at_time 2024 6 1 9 0 0) (at_time 2024 6 1 9 10 0) None false in
  let c := VerificationCode.mk 2 2 "222222" EMAIL_VERIFICATION
             (at_time 2024 6 1 9 5 0) (at_time 2024 6 1 9 15 0) None false in
  VerificationCode.create_verification_code [old] 2 EMAIL_VERIFICATION "222222" 10
    (at_time 2024 6 1 9 5 0)
  = (c, [VerificationCode.with_used old None true; c])
  /\ VerificationCode.is_valid c (at_time 2024 6 1 9 15 0) = true.
Proof.
  cbv zeta.
  assert (H : VerificationCode.create_verification_code
                [VerificationCode.mk 1 2 "111111" EMAIL_VERIFICATION
                   (at_time 2024 6 1 9 0 0) (at_time 2024 6 1 9 10 0) None false]
                2 EMAIL_VERIFICATION "222222" 10 (at_time 2024 6 1 9 5 0)
              = (VerificationCode.mk 2 2 "222222" EMAIL_VERIFICATION
                   (at_time 2024 6 1 9 5 0) (at_time 2024 6 1 9 15 0) None false,
                 [VerificationCode.with_used
                    (VerificationCode.mk 1 2 "111111" EMAIL_VERIFICATION
                       (at_time 2024 6 1 9 0 0) (at_time 2024 6 1 9 10 0) None false)
                    None true;
                  VerificationCode.mk 2 2 "222222" EMAIL_VERIFICATION
                    (at_time 2024 6 1 9 5 0) (at_time 2024 6 1 9 15 0) None false]))
    by (vm_compute; reflexivity).
  split; [exact H |].
  destruct (verification_code_created _ _ _ _ _ _ _ _ H) as (_ & _ & _ & _ & Hvalid & _).
  apply Hvalid. vm_compute. discriminate.
Defined.

(** What a successful call of [ResendVerificationView.post] that sends a
    code has done. *)
Lemma ResendVerificationView_post_inversion (st : State)
    (codes : list VerificationCode.t) (email : option string) (code : string)
    (now : datetime) (c : VerificationCode.t) (st1 : State)
    (codes1 : list VerificationCode.t) :
  ResendVerificationView_post st codes email code now
  = (inr (code_sent c), (st1, codes1)) ->
  exists address user,
    email = Some address
    /\ String.eqb address "" = false
    /\ objects_get (fun u => String.eqb (User.email u) address) (users st) = Found user
    /\ User.email_verified user = false
    /\ VerificationCode.create_verification_code codes (User.id user)
         EMAIL_VERIFICATION code 10 now = (c, codes1)
    /\ st1 = st.
Proof.
  unfold ResendVerificationView_post.
  destruct (truthy email) eqn:Htruthy; cbn [negb]; [| discriminate].
  destruct email as [address |]; [| discriminate]. cbn [get_default].
  destruct (objects_get _ (users st)) as [user | |] eqn:Hg; try discriminate.
  destruct (User.email_verified user) eqn:Hv; [discriminate |].
  destruct (VerificationCode.create_verification_code _ _ _ _ _ _) as [c0 table]
    eqn:Hc.
  intros [= <- <- <-]. exists address, user.
  cbn in Htruthy. apply negb_true_iff in Htruthy. tauto.
Qed.

(** X19.  Only the last code sent verifies the address.  After
    [ResendVerificationView.post] has sent a code to an unverified user, a
    request of [VerifyEmailView.post] for that address with a code of six
    characters succeeds exactly when it carries the code just sent and is made
    no later than ten minutes after the sending; every code sent before is
    refused. *)
Theorem only_the_last_code_verifies (st : State) (codes : list VerificationCode.t)
    (email : option string) (code : string) (now : datetime)
    (c : VerificationCode.t) (st1 : State) (codes1 : list VerificationCode.t) :
  ResendVerificationView_post st codes email code now
  = (inr (code_sent c), (st1, codes1)) ->
  st1 = st
  /\ VerificationCode.code c = code
  /\ forall submitted later,
       String.length submitted = 6%nat ->
       ((exists uid result,
           VerifyEmailView_post st1 codes1 (mkVerificationRequest email (Some submitted))
             later = (inr uid, result))
        <-> submitted = code /\ later <= plus_minutes now 10).
Proof.
  intros H. destruct (ResendVerificationView_post_inversion _ _ _ _ _ _ _ _ H)
    as (address & user & -> & Hblank & Hg & _ & Hc & ->).
  destruct (create_verification_code_spec _ _ _ _ _ _ _ _ Hc)
    as (Hin & Hu & Ht & Hcode & Hvalid & Honly & _).
  split; [reflexivity |]. split; [exact Hcode |].
  intros submitted later Hlen.
  assert (Hfilter : filter (unused_code_of (User.id user) submitted) codes1
                    = if String.eqb code submitted then [c] else []).
  { unfold VerificationCode.create_verification_code in Hc. cbv zeta in Hc.
    injection Hc as Hc0 Hc1.
    assert (Hunused : VerificationCode.is_used c = false) by now rewrite <- Hc0.
    rewrite <- Hc1, Hc0, filter_app. rewrite filter_none.
    - cbn [app filter]. unfold unused_code_of.
      rewrite Hu, Ht, Hcode, Hunused, Z.eqb_refl. cbn.
      now destruct (String.eqb code submitted).
    - intros x Hx. destruct (unused_code_of (User.id user) submitted x) eqn:E;
        [| reflexivity].
      exfalso. unfold unused_code_of in E.
      apply andb_true_iff in E. destruct E as [E E4].
      apply andb_true_iff in E. destruct E as [E E3].
      apply andb_true_iff in E. destruct E as [E1 _].
      apply Z.eqb_eq in E1. apply CodeType_eqb_eq in E3. apply negb_true_iff in E4.
      assert (Hx' : In x codes1) by (rewrite <- Hc1; apply in_or_app; now left).
      pose proof (Honly x Hx' E1 E3 E4) as ->.
      apply in_map_iff in Hx. destruct Hx as (c0 & Hc0' & Hin0).
      apply (fresh_id_not_in (map VerificationCode.id codes)).
      replace (fresh_id (map VerificationCode.id codes)) with (VerificationCode.id c)
        by now rewrite <- Hc0.
      rewrite <- Hc0'.
      replace (VerificationCode.id
                 (if (VerificationCode.user c0 =? User.id user)
                     && CodeType_eqb (VerificationCode.code_type c0) EMAIL_VERIFICATION
                     && negb (VerificationCode.is_used c0)
                  then VerificationCode.with_used c0 (VerificationCode.used_at c0) true
                  else c0))
        with (VerificationCode.id c0) by (now destruct (_ && _ && _)).
      now apply in_map. }
  unfold VerifyEmailView_post, EmailVerificationSerializer_validate.
  cbn [vr_email vr_code]. rewrite Hlen, Hblank. cbn [Nat.eqb negb orb].
  rewrite Hg, Hfilter.
  destruct (String.eqb code submitted) eqn:E.
  - apply String.eqb_eq in E. cbn [newest_by].
    specialize (Hvalid later). unfold VerificationCode.is_valid in Hvalid.
    replace (VerificationCode.is_used c) with false in Hvalid
      by (unfold VerificationCode.create_verification_code in Hc; cbv zeta in Hc;
          now injection Hc as <- _).
    cbn [negb andb] in Hvalid.
    destruct (VerificationCode.is_expired c later).
    + split.
      * intros (uid & result & Habs). discriminate.
      * intros [_ Hle]. apply Hvalid in Hle. discriminate.
    + split.
      * intros _. split; [now symmetry | now apply Hvalid].
      * intros _. now eexists; eexists.
  - apply String.eqb_neq in E. cbn [newest_by]. split.
    + intros (uid & result & Habs). discriminate.
    + intros [-> _]. now elim E.
Qed.

Lemma only_the_last_code_verifies_witness :
  let st := with_users empty_state [alice; bob] in
  ResendVerificationView_post st [] (Some "bob@example.com") "222222"
    (at_time 2024 6 1 9 5 0)
  = (inr (code_sent bob_code), (st, [bob_code]))
  /\ exists uid result,
       VerifyEmailView_post st [bob_code]
         (mkVerificationRequest (Some "bob@example.com") (Some "222222"))
         (at_time 2024 6 1 9 15 0)
       = (inr uid, result).
Proof.
  cbv zeta.
  assert (H : ResendVerificationView_post (with_users empty_state [alice; bob]) []
                (Some "bob@example.com") "222222" (at_time 2024 6 1 9 5 0)
              = (inr (code_sent bob_code),
                 (with_users empty_state [alice; bob], [bob_code])))
    by (vm_compute; reflexivity).
  split; [exact H |].
  destruct (only_the_last_code_verifies _ _ _ _ _ _ _ _ H) as (_ & _ & Hiff).
  apply (Hiff "222222" (at_time 2024 6 1 9 15 0) eq_refl).
  split; [reflexivity | vm_compute; discriminate].
Defined.

(** What a successful call of [VerifyEmailView.post] has done. *)
Lemma VerifyEmailView_post_inversion (st : State) (codes : list VerificationCode.t)
    (req : VerificationRequest) (now : datetime) (uid : Z) (st1 : State)
    (codes1 : list VerificationCode.t) :
  VerifyEmailView_post st codes req now = (inr uid, (st1, codes1)) ->
  exists email code user c,
    vr_email req = Some email /\ vr_code req = Some code
    /\ String.eqb email "" = false
    /\ objects_get (fun u => String.eqb (User.email u) email) (users st) = Found user
    /\ User.id user = uid
    /\ In c codes
    /\ unused_code_of uid code c = true
    /\ VerificationCode.is_expired c now = false
    /\ st1 = User_save st (with_email_verified user now)
    /\ codes1 = update_row VerificationCode.id (VerificationCode.mark_as_used c now)
                  codes.
Proof.
  unfold VerifyEmailView_post, EmailVerificationSerializer_validate.
  destruct (vr_email req) as [email |]; [| discriminate].
  destruct (vr_code req) as [code |]; [| discriminate].
  destruct (String.eqb email "") eqn:Hblank; [discriminate |].
  destruct (negb _); [discriminate |]. cbn [orb].
  destruct (objects_get _ (users st)) as [user | |] eqn:Hg; try discriminate.
  destruct (newest_by _ _) as [c |] eqn:Hc; [| discriminate].
  destruct (VerificationCode.is_expired c now) eqn:He; [discriminate |].
  intros [= <- <- <-]. exists email, code, user, c.
  apply newest_by_in in Hc. apply filter_In in Hc. tauto.
Qed.

(** X20.  An address is verified once.  In a table of codes where a user
    has at most one unused code for the verification of the address (the
    state that [create_verification_code] leaves), when
    [VerifyEmailView.post] succeeds the user of the address is stored as
    verified and as logged in at the time of the request, the code is marked
    as used at that time, every further request of verification for that
    address is refused with status 400, whatever code it carries, and
    [ResendVerificationView.post] sends no new code for it. *)
Theorem email_verified_once (st : State) (codes : list VerificationCode.t)
    (req : VerificationRequest) (now : datetime) (uid : Z) (st1 : State)
    (codes1 : list VerificationCode.t) :
  NoDup (map User.id (users st)) ->
  (forall c1 c2, In c1 codes -> In c2 codes ->
     VerificationCode.user c1 = VerificationCode.user c2 ->
     VerificationCode.code_type c1 = EMAIL_VERIFICATION ->
     VerificationCode.code_type c2 = EMAIL_VERIFICATION ->
     VerificationCode.is_used c1 = false -> VerificationCode.is_used c2 = false ->
     VerificationCode.id c1 = VerificationCode.id c2) ->
  VerifyEmailView_post st codes req now = (inr uid, (st1, codes1)) ->
  exists email,
    vr_email req = Some email
    /\ (exists u, In u (users st1) /\ User.id u = uid /\ User.email u = email
                  /\ User.email_verified u = true
                  /\ User.last_login_at u = Some now)
    /\ (forall c, In c codes1 -> VerificationCode.user c = uid ->
                  VerificationCode.code_type c = EMAIL_VERIFICATION ->
                  VerificationCode.is_used c = true)
    /\ (forall submitted later,
          exists reason,
            VerifyEmailView_post st1 codes1 (mkVerificationRequest (Some email) submitted)
              later = (inl (400, reason), (st1, codes1)))
    /\ (forall code' later,
          ResendVerificationView_post st1 codes1 (Some email) code' later
          = (inr already_verified, (st1, codes1))).
Proof.
  intros Hnd Hone H.
  destruct (VerifyEmailView_post_inversion _ _ _ _ _ _ _ H)
    as (email & code & user & c & Hemail & _ & Hne & Hg & Hid & Hc & Hunused & _
        & -> & ->).
  exists email. split; [exact Hemail |].
  destruct (objects_get_found_in _ _ _ Hg) as [Hin Hmail].
  unfold unused_code_of in Hunused.
  apply andb_true_iff in Hunused. destruct Hunused as [Hunused Hc4].
  apply andb_true_iff in Hunused. destruct Hunused as [Hunused Hc3].
  apply andb_true_iff in Hunused. destruct Hunused as [Hc1 _].
  apply Z.eqb_eq in Hc1. apply CodeType_eqb_eq in Hc3. apply negb_true_iff in Hc4.
  assert (Hg1 : objects_get (fun u => String.eqb (User.email u) email)
                  (users (User_save st (with_email_verified user now)))
                = Found (with_email_verified user now)).
  { unfold objects_get, User_save. cbn [users with_users].
    rewrite (filter_update_row_found _ _ _ user);
      [reflexivity | exact Hnd | now apply objects_get_found | reflexivity | exact Hmail]. }
  assert (Hused : forall x,
            In x (update_row VerificationCode.id (VerificationCode.mark_as_used c now)
                    codes) ->
            VerificationCode.user x = uid ->
            VerificationCode.code_type x = EMAIL_VERIFICATION ->
            VerificationCode.is_used x = true).
  { intros x Hx Hxu Hxt. apply update_row_in in Hx.
    destruct Hx as [[-> _] | [Hx Hother]]; [reflexivity |].
    destruct (VerificationCode.is_used x) eqn:E; [reflexivity |].
    exfalso. apply Hother. cbn. apply Hone; try assumption. congruence. }
  split.
  { exists (with_email_verified user now). split.
    - unfold User_save. cbn [users with_users].
      apply (update_row_has _ _ _ user); [exact Hin | reflexivity].
    - apply String.eqb_eq in Hmail. cbn. tauto. }
  split; [exact Hused |].
  split.
  { intros submitted later.
    unfold VerifyEmailView_post, EmailVerificationSerializer_validate.
    cbn [vr_email vr_code].
    destruct submitted as [submitted |]; [| now eexists].
    rewrite Hne. cbn [orb].
    destruct (negb _); [now eexists |].
    rewrite Hg1. rewrite filter_none; [now eexists |].
    intros x Hx. unfold unused_code_of.
    destruct (VerificationCode.user x =? User.id (with_email_verified user now)) eqn:E1;
      [| reflexivity].
    destruct (CodeType_eqb (VerificationCode.code_type x) EMAIL_VERIFICATION) eqn:E3;
      [| now rewrite andb_false_r].
    apply Z.eqb_eq in E1. apply CodeType_eqb_eq in E3. cbn in E1.
    rewrite (Hused x Hx); [now rewrite andb_false_r | congruence | exact E3]. }
  intros code' later. unfold ResendVerificationView_post.
  cbn [truthy get_default].
  rewrite Hne. cbn [negb]. rewrite Hg1. reflexivity.
Qed.

Lemma email_verified_once_witness :
  let st := with_users empty_state [alice; bob] in
  let req := mkVerificationRequest (Some "bob@example.com") (Some "222222") in
  let now := at_time 2024 6 1 9 10 0 in
  let st1 := User_save st (with_email_verified bob now) in
  let codes1 := [VerificationCode.mark_as_used bob_code now] in
  VerifyEmailView_post st [bob_code] req now = (inr 2, (st1, codes1))
  /\ map User.email_verified (users st1) = [true; true]
  /\ (exists reason,
        VerifyEmailView_post st1 codes1 req (at_time 2024 6 1 9 11 0)
        = (inl (400, reason), (st1, codes1)))
  /\ ResendVerificationView_post st1 codes1 (Some "bob@example.com") "333333"
       (at_time 2024 6 1 9 12 0)
     = (inr already_verified, (st1, codes1)).
Proof.
  cbv zeta.
  set (st := with_users empty_state [alice; bob]).
  set (now := at_time 2024 6 1 9 10 0).
  assert (Hnd : NoDup (map User.id (users st))).
  { vm_compute. repeat constructor; [intros [H | []]; discriminate | intros []]. }
  assert (Hone : forall c1 c2, In c1 [bob_code] -> In c2 [bob_code] ->
            VerificationCode.user c1 = VerificationCode.user c2 ->
            VerificationCode.code_type c1 = EMAIL_VERIFICATION ->
            VerificationCode.code_type c2 = EMAIL_VERIFICATION ->
            VerificationCode.is_used c1 = false -> VerificationCode.is_used c2 = false ->
            VerificationCode.id c1 = VerificationCode.id c2).
  { intros c1 c2 [<- | []] [<- | []]. reflexivity. }
  assert (H : VerifyEmailView_post st [bob_code]
                (mkVerificationRequest (Some "bob@example.com") (Some "222222")) now
              = (inr 2, (User_save st (with_email_verified bob now),
                         [VerificationCode.mark_as_used bob_code now])))
    by (vm_compute; reflexivity).
  destruct (email_verified_once _ _ _ _ _ _ _ Hnd Hone H)
    as (email & Hemail & _ & _ & Hverify & Hresend).
  injection Hemail as <-.
  split; [exact H |]. split; [vm_compute; reflexivity |].
  split; [apply Hverify | apply Hresend].
Defined.

(** ** Personality test and onboarding *)

(** X21.  The types computed from the scores of the personality test.
    [calculate_personality_types] gives one of the sixteen MBTI types and one
    of the four DISC letters that the columns admit.  Each letter of the MBTI
    type is the first of its pair exactly when the score is at least 50, that
    is, at least the score 100 - s that the view stores for the other letter.
    The DISC letter is one of greatest score; among equal scores the first of
    D, I, S, C wins. *)
Theorem personality_types (d : PersonalityScores) :
  let mbti := fst (calculate_personality_types d) in
  let disc := snd (calculate_personality_types d) in
  In mbti PERSONALITY_TYPE_CHOICES
  /\ In disc DISC_TYPE_CHOICES
  /\ (String.substring 0 1 mbti = "E" <-> extraversion_score d >= 100 - extraversion_score d)
  /\ (String.substring 1 1 mbti = "N" <-> intuition_score d >= 100 - intuition_score d)
  /\ (String.substring 2 1 mbti = "T" <-> thinking_score d >= 100 - thinking_score d)
  /\ (String.substring 3 1 mbti = "J" <-> judging_score d >= 100 - judging_score d)
  /\ (disc = "D" <-> dominance_score d >= influence_score d
                     /\ dominance_score d >= steadiness_score d
                     /\ dominance_score d >= conscientiousness_score d)
  /\ (disc = "I" <-> influence_score d > dominance_score d
                     /\ influence_score d >= steadiness_score d
                     /\ influence_score d >= conscientiousness_score d)
  /\ (disc = "S" <-> steadiness_score d > dominance_score d
                     /\ steadiness_score d > influence_score d
                     /\ steadiness_score d >= conscientiousness_score d)
  /\ (disc = "C" <-> conscientiousness_score d > dominance_score d
                     /\ conscientiousness_score d > influence_score d
                     /\ conscientiousness_score d > steadiness_score d).
Proof.
  cbv zeta. unfold calculate_personality_types. cbn [fst snd max_by_value].
  split.
  { destruct (extraversion_score d >=? 50), (intuition_score d >=? 50),
      (thinking_score d >=? 50), (judging_score d >=? 50); cbn; tauto. }
  assert (Hge : forall x, (x >=? 50) = true <-> x >= 100 - x).
  { intros x. rewrite Z.geb_le. lia. }
  split.
  { destruct (influence_score d >? dominance_score d);
      destruct (steadiness_score d >? _); destruct (conscientiousness_score d >? _);
      cbn; tauto. }
  do 4 (split;
        [rewrite <- Hge;
         destruct (extraversion_score d >=? 50), (intuition_score d >=? 50),
           (thinking_score d >=? 50), (judging_score d >=? 50); cbn;
         split; congruence |]).
  cbn [snd fst].
  destruct (influence_score d >? dominance_score d) eqn:E1;
    [apply Z.gtb_lt in E1 | rewrite Z.gtb_ltb in E1; apply Z.ltb_ge in E1];
    cbn [snd fst];
    (destruct (steadiness_score d >? _) eqn:E2;
     [apply Z.gtb_lt in E2 | rewrite Z.gtb_ltb in E2; apply Z.ltb_ge in E2]);
    cbn [snd fst];
    (destruct (conscientiousness_score d >? _) eqn:E3;
     [apply Z.gtb_lt in E3 | rewrite Z.gtb_ltb in E3; apply Z.ltb_ge in E3]);
    cbn [snd fst];
    repeat split; intros; try discriminate; try reflexivity; lia.
Qed.

Lemma step_done_iff (step : string) (steps : list string) :
  existsb (String.eqb step) steps = true <-> In step steps.
Proof.
  rewrite existsb_exists. split.
  - intros (x & Hx & E). apply String.eqb_eq in E. now subst x.
  - intros H. exists step. split; [exact H | apply String.eqb_refl].
Qed.

Lemma mark_step_completed_steps (p : OnboardingProgress.t) (step : string) :
  OnboardingProgress.user (OnboardingProgress.mark_step_completed p step)
  = OnboardingProgress.user p
  /\ OnboardingProgress.current_step (OnboardingProgress.mark_step_completed p step)
     = OnboardingProgress.current_step p
  /\ OnboardingProgress.completed_at (OnboardingProgress.mark_step_completed p step)
     = OnboardingProgress.completed_at p
  /\ (forall s, In s (OnboardingProgress.completed_steps
                        (OnboardingProgress.mark_step_completed p step))
                <-> s = step \/ In s (OnboardingProgress.completed_steps p))
  /\ (NoDup (OnboardingProgress.completed_steps p) ->
      NoDup (OnboardingProgress.completed_steps
               (OnboardingProgress.mark_step_completed p step))).
Proof.
  unfold OnboardingProgress.mark_step_completed.
  destruct (existsb (String.eqb step) (OnboardingProgress.completed_steps p)) eqn:E.
  - apply step_done_iff in E. repeat apply conj; try reflexivity; try tauto.
    intros s. split; [tauto |]. intros [-> | H]; assumption.
  - cbn. repeat apply conj; try reflexivity.
    + intros s. rewrite in_app_iff. cbn. intuition congruence.
    + intros Hnd. apply NoDup_append; [exact Hnd | repeat constructor; intros [] |].
      intros x [<- | []] Hin. apply step_done_iff in Hin. congruence.
Qed.

(** X22.  Completing the onboarding.  [complete_onboarding] stores the step
    COMPLETED and the time of the call, adds PASSION_SELECTION to the
    completed steps without repeating a step, and makes
    [get_completion_status] report the onboarding as completed.  The next
    step that the same report names is computed from the completed steps
    alone: it is COMPLETED exactly when PERSONAL_INFO and PERSONALITY_TEST
    had been completed, and it is PERSONAL_INFO whenever that step had not
    been completed, although the onboarding is reported as completed. *)
Theorem onboarding_completion (p : OnboardingProgress.t) (now : datetime)
    (has_personality_results has_interests : bool) :
  let q := OnboardingProgress.complete_onboarding p now in
  let status :=
    OnboardingProgress.get_completion_status q has_personality_results has_interests in
  OnboardingProgress.is_completed status = true
  /\ OnboardingProgress.current_step q = "COMPLETED"
  /\ OnboardingProgress.completed_at q = Some now
  /\ OnboardingProgress.user q = OnboardingProgress.user p
  /\ (forall s, In s (OnboardingProgress.completed_steps q)
                <-> s = "PASSION_SELECTION" \/ In s (OnboardingProgress.completed_steps p))
  /\ (NoDup (OnboardingProgress.completed_steps p) ->
      NoDup (OnboardingProgress.completed_steps q))
  /\ (OnboardingProgress.next_step status = "COMPLETED"
      <-> In "PERSONAL_INFO" (OnboardingProgress.completed_steps p)
          /\ In "PERSONALITY_TEST" (OnboardingProgress.completed_steps p))
  /\ (~ In "PERSONAL_INFO" (OnboardingProgress.completed_steps p) ->
      OnboardingProgress.next_step status = "PERSONAL_INFO").
Proof.
  cbv zeta. unfold OnboardingProgress.complete_onboarding.
  set (p0 := OnboardingProgress.mk (OnboardingProgress.user p) "COMPLETED"
               (OnboardingProgress.completed_steps p) (Some now)).
  destruct (mark_step_completed_steps p0 "PASSION_SELECTION")
    as (Hu & Hstep & Hat & Hsteps & Hnd).
  set (q := OnboardingProgress.mark_step_completed p0 "PASSION_SELECTION") in *.
  cbn [OnboardingProgress.user OnboardingProgress.current_step
       OnboardingProgress.completed_at OnboardingProgress.completed_steps p0]
    in Hu, Hstep, Hat, Hsteps, Hnd.
  unfold OnboardingProgress.get_completion_status.
  cbn [OnboardingProgress.is_completed OnboardingProgress.next_step].
  split; [rewrite Hstep; reflexivity |].
  split; [exact Hstep |]. split; [exact Hat |]. split; [exact Hu |].
  split; [exact Hsteps |]. split; [exact Hnd |].
  assert (Hdone : forall s, existsb (String.eqb s) (OnboardingProgress.completed_steps q)
                            = true
                            <-> s = "PASSION_SELECTION"
                                \/ In s (OnboardingProgress.completed_steps p)).
  { intros s. rewrite step_done_iff. apply Hsteps. }
  unfold OnboardingProgress._get_next_step.
  destruct (existsb (String.eqb "PERSONAL_INFO") (OnboardingProgress.completed_steps q))
    eqn:E1.
  - apply Hdone in E1. destruct E1 as [E1 | E1]; [discriminate |]. cbn [negb].
    destruct (existsb (String.eqb "PERSONALITY_TEST")
                (OnboardingProgress.completed_steps q)) eqn:E2.
    + apply Hdone in E2. destruct E2 as [E2 | E2]; [discriminate |]. cbn [negb].
      rewrite (proj2 (Hdone "PASSION_SELECTION")) by now left. cbn [negb].
      split; [tauto |]. intros H. now elim H.
    + cbn [negb]. split.
      * split; [discriminate |]. intros [_ H].
        assert (Habs : existsb (String.eqb "PERSONALITY_TEST")
                         (OnboardingProgress.completed_steps q) = true)
          by (apply Hdone; now right).
        rewrite E2 in Habs. discriminate.
      * intros H. now elim H.
  - cbn [negb]. split.
    + split; [discriminate |]. intros [H _].
      assert (Habs : existsb (String.eqb "PERSONAL_INFO")
                       (OnboardingProgress.completed_steps q) = true)
        by (apply Hdone; now right).
      rewrite E1 in Habs. discriminate.
    + reflexivity.
Qed.

(** What [get_or_create] gives for the onboarding of a user. *)
Lemma OnboardingProgress_get_or_create_spec (table : list OnboardingProgress.t)
    (u : Z) :
  let '(p, table') := OnboardingProgress_get_or_create table u in
  OnboardingProgress.user p = u
  /\ In p table'
  /\ (table' = table \/ table' = table ++ [p])
  /\ (forall x, In x table -> In x table').
Proof.
  unfold OnboardingProgress_get_or_create.
  destruct (find _ table) as [p |] eqn:E.
  - apply find_some in E. destruct E as [Hin Hu]. apply Z.eqb_eq in Hu. tauto.
  - cbn. repeat apply conj; try reflexivity.
    + apply in_or_app. right. now left.
    + now right.
    + intros x Hx. apply in_or_app. now left.
Qed.

Lemma UserInterests_get_or_create_spec (table : list UserInterests.t) (u : Z) :
  let '(i, table') := UserInterests_get_or_create table u in
  UserInterests.user i = u
  /\ In i table'
  /\ (forall x, In x table -> In x table').
Proof.
  unfold UserInterests_get_or_create.
  destruct (find _ table) as [i |] eqn:E.
  - apply find_some in E. destruct E as [Hin Hu]. apply Z.eqb_eq in Hu. tauto.
  - cbn. repeat apply conj; try reflexivity.
    + apply in_or_app. right. now left.
    + intros x Hx. apply in_or_app. now left.
Qed.

(** X23.  The choice of interests ends the onboarding.
    [UserInterestsView.post] refuses more than three interests, with status
    400 and without writing.  When it succeeds, at most three interests, each
    with the keys id, name and color, replace the interests of the user; the
    onboarding of the user is stored at the step COMPLETED with
    PASSION_SELECTION among the completed steps, so that
    [get_completion_status] reports it as completed; the rows of the other
    users are kept.  A request without interests succeeds in the same way
    and stores none. *)
Theorem interests_end_onboarding (ob : Onboarding) (u : Z)
    (selected : option (list UserInterests.interest)) :
  ((3 < List.length (get_default selected []))%nat ->
   UserInterestsView_post ob u selected = (inl (400, too_many_interests), ob))
  /\ (forall stored count ob1,
        UserInterestsView_post ob u selected = (inr (stored, count), ob1) ->
        stored = get_default selected []
        /\ count = Z.of_nat (List.length stored)
        /\ 0 <= count <= 3
        /\ (forall i key, In i stored -> In key ["id"; "name"; "color"] ->
                          has_key key i = true)
        /\ (exists row, In row (interests ob1) /\ UserInterests.user row = u)
        /\ (forall row, In row (interests ob1) -> UserInterests.user row = u ->
                        UserInterests.selected_interests row = stored)
        /\ (exists p, In p (progress ob1) /\ OnboardingProgress.user p = u)
        /\ (forall p, In p (progress ob1) -> OnboardingProgress.user p = u ->
                      OnboardingProgress.current_step p = "COMPLETED"
                      /\ In "PASSION_SELECTION" (OnboardingProgress.completed_steps p)
                      /\ forall a b,
                           OnboardingProgress.is_completed
                             (OnboardingProgress.get_completion_status p a b) = true)
        /\ (forall row, In row (interests ob) -> UserInterests.user row <> u ->
                        In row (interests ob1))
        /\ (forall p, In p (progress ob) -> OnboardingProgress.user p <> u ->
                      In p (progress ob1)))
  /\ (selected = None \/ selected = Some [] ->
      exists ob1, UserInterestsView_post ob u selected = (inr ([], 0), ob1)).
Proof.
  split; [| split].
  - intros Hmany. unfold UserInterestsView_post. cbv zeta.
    now rewrite (proj2 (Nat.ltb_lt _ _) Hmany).
  - intros stored count ob1. unfold UserInterestsView_post. cbv zeta.
    destruct (3 <? List.length (get_default selected []))%nat eqn:Hlen;
      [discriminate |].
    apply Nat.ltb_ge in Hlen.
    destruct (forallb _ (get_default selected [])) eqn:Hkeys; cbn [negb];
      [| discriminate].
    pose proof (UserInterests_get_or_create_spec (interests ob) u) as Hi.
    destruct (UserInterests_get_or_create (interests ob) u) as [i table].
    destruct Hi as (Hiu & Hiin & Hikeep).
    pose proof (OnboardingProgress_get_or_create_spec (progress ob) u) as Hp.
    destruct (OnboardingProgress_get_or_create (progress ob) u) as [p steps].
    destruct Hp as (Hpu & Hpin & _ & Hpkeep).
    destruct (mark_step_completed_steps p "PASSION_SELECTION")
      as (Hmu & _ & _ & Hmsteps & _).
    intros [= <- <- <-].
    cbn [UserInterests.selected_interests UserInterests.add_interests
         UserInterests.interests_count interests progress].
    split; [reflexivity |]. split; [reflexivity |].
    split; [split; [apply Nat2Z.is_nonneg | apply (Nat2Z.inj_le _ 3), Hlen] |].
    split.
    { intros x key Hx Hkey. rewrite forallb_forall in Hkeys.
      specialize (Hkeys x Hx). rewrite forallb_forall in Hkeys. now apply Hkeys. }
    split.
    { eexists. split.
      - apply in_map_iff. exists i. split; [| exact Hiin].
        rewrite Hiu, Z.eqb_refl. reflexivity.
      - cbn. exact Hiu. }
    split.
    { intros row Hrow Hu. apply in_map_iff in Hrow. destruct Hrow as (x & <- & _).
      destruct (UserInterests.user x =? u) eqn:E; [reflexivity |].
      apply Z.eqb_neq in E. contradiction. }
    split.
    { eexists. split.
      - apply in_map_iff. exists p. split; [| exact Hpin].
        rewrite Hpu, Z.eqb_refl. reflexivity.
      - cbn. congruence. }
    split.
    { intros q Hq Hu. apply in_map_iff in Hq. destruct Hq as (x & <- & _).
      destruct (OnboardingProgress.user x =? u) eqn:E.
      - cbn. split; [reflexivity |]. split; [apply Hmsteps; now left |].
        intros a b. reflexivity.
      - apply Z.eqb_neq in E. contradiction. }
    split.
    { intros row Hrow Hne. apply in_map_iff. exists row.
      rewrite (proj2 (Z.eqb_neq _ _) Hne). split; [reflexivity | now apply Hikeep]. }
    intros q Hq Hne. apply in_map_iff. exists q.
    rewrite (proj2 (Z.eqb_neq _ _) Hne). split; [reflexivity | now apply Hpkeep].
  - intros Hnone. unfold UserInterestsView_post. cbv zeta.
    assert (E : get_default selected [] = []) by (destruct Hnone as [-> | ->]; reflexivity).
    rewrite E. cbn [List.length Nat.ltb Nat.leb forallb negb].
    destruct (UserInterests_get_or_create (interests ob) u) as [i table].
    destruct (OnboardingProgress_get_or_create (progress ob) u) as [p steps].
    eexists. reflexivity.
Qed.

Lemma interests_end_onboarding_witness :
  let ob := mkOnboarding [] [] in
  UserInterestsView_post ob 2
    (Some [[("id", "7"); ("name", "Jazz"); ("color", "blue")]])
  = (inr ([[("id", "7"); ("name", "Jazz"); ("color", "blue")]], 1),
     mkOnboarding
       [OnboardingProgress.mk 2 "COMPLETED" ["PASSION_SELECTION"] None]
       [UserInterests.mk 2 [[("id", "7"); ("name", "Jazz"); ("color", "blue")]]])
  /\ UserInterestsView_post ob 2 (Some [[]; []; []; []])
     = (inl (400, too_many_interests), ob)
  /\ OnboardingProgress.is_completed
       (OnboardingProgress.get_completion_status
          (OnboardingProgress.mk 2 "COMPLETED" ["PASSION_SELECTION"] None) false true)
     = true.
Proof.
  cbv zeta.
  assert (H : UserInterestsView_post (mkOnboarding [] []) 2
                (Some [[("id", "7"); ("name", "Jazz"); ("color", "blue")]])
              = (inr ([[("id", "7"); ("name", "Jazz"); ("color", "blue")]], 1),
                 mkOnboarding
                   [OnboardingProgress.mk 2 "COMPLETED" ["PASSION_SELECTION"] None]
                   [UserInterests.mk 2
                      [[("id", "7"); ("name", "Jazz"); ("color", "blue")]]]))
    by (vm_compute; reflexivity).
  destruct (interests_end_onboarding (mkOnboarding [] []) 2
              (Some [[("id", "7"); ("name", "Jazz"); ("color", "blue")]]))
    as (_ & Hok & _).
  destruct (Hok _ _ _ H) as (_ & _ & _ & _ & _ & _ & _ & Hdone & _).
  destruct (interests_end_onboarding (mkOnboarding [] []) 2 (Some [[]; []; []; []]))
    as (Hmany & _ & _).
  split; [exact H |]. split; [apply Hmany; cbn; lia |].
  apply (Hdone (OnboardingProgress.mk 2 "COMPLETED" ["PASSION_SELECTION"] None));
    [now left | reflexivity].
Defined.

(** X24.  Completed steps are only added.  [OnboardingProgressView.post]
    answers with the completed steps the user had, in their order, to which
    the step of [completed_step] and, when [complete_onboarding] is asked
    for, PASSION_SELECTION are added; no step is removed and none is
    repeated.  The step it answers is COMPLETED when [complete_onboarding]
    is asked for, otherwise the step of [current_step] as sent, whatever
    steps are completed, otherwise the step stored.  The row of the user
    holds what the answer carries, and the interests are not written. *)
Theorem progress_steps_only_grow (ob : Onboarding) (u : Z) (data : ProgressRequest)
    (now : datetime) :
  let before := fst (OnboardingProgress_get_or_create (progress ob) u) in
  let answer := fst (OnboardingProgressView_post ob u data now) in
  let ob1 := snd (OnboardingProgressView_post ob u data now) in
  (forall s, In s (snd answer)
             <-> In s (OnboardingProgress.completed_steps before)
                 \/ pr_completed_step data = Some s
                 \/ (pr_complete_onboarding data = true /\ s = "PASSION_SELECTION"))
  /\ (exists added, snd answer = OnboardingProgress.completed_steps before ++ added)
  /\ (NoDup (OnboardingProgress.completed_steps before) -> NoDup (snd answer))
  /\ fst answer
     = (if pr_complete_onboarding data then "COMPLETED"
        else match pr_current_step data with
             | Some step => step
             | None => OnboardingProgress.current_step before
             end)
  /\ (exists p, In p (progress ob1) /\ OnboardingProgress.user p = u)
  /\ (forall p, In p (progress ob1) -> OnboardingProgress.user p = u ->
                OnboardingProgress.current_step p = fst answer
                /\ OnboardingProgress.completed_steps p = snd answer)
  /\ (forall p, In p (progress ob) -> OnboardingProgress.user p <> u ->
                In p (progress ob1))
  /\ interests ob1 = interests ob.
Proof.
  cbv zeta. unfold OnboardingProgressView_post.
  pose proof (OnboardingProgress_get_or_create_spec (progress ob) u) as Hp.
  destruct (OnboardingProgress_get_or_create (progress ob) u) as [p0 table].
  destruct Hp as (Hu0 & Hin0 & _ & Hkeep). cbn [fst snd].
  set (p1 := match pr_completed_step data with
             | Some step => OnboardingProgress.mark_step_completed p0 step
             | None => p0
             end).
  assert (H1 : OnboardingProgress.user p1 = u
               /\ OnboardingProgress.current_step p1 = OnboardingProgress.current_step p0
               /\ (forall s, In s (OnboardingProgress.completed_steps p1)
                             <-> In s (OnboardingProgress.completed_steps p0)
                                 \/ pr_completed_step data = Some s)
               /\ (exists added, OnboardingProgress.completed_steps p1
                                 = OnboardingProgress.completed_steps p0 ++ added)
               /\ (NoDup (OnboardingProgress.completed_steps p0) ->
                   NoDup (OnboardingProgress.completed_steps p1))).
  { subst p1. destruct (pr_completed_step data) as [step |].
    - destruct (mark_step_completed_steps p0 step) as (Hu & Hc & _ & Hs & Hnd).
      split; [congruence |]. split; [exact Hc |].
      split; [intros s; rewrite Hs; intuition congruence |].
      split; [| exact Hnd].
      unfold OnboardingProgress.mark_step_completed.
      destruct (existsb _ _); [exists []; now rewrite app_nil_r | now exists [step]].
    - split; [exact Hu0 |]. split; [reflexivity |].
      split; [intros s; intuition discriminate |].
      split; [exists []; now rewrite app_nil_r | tauto]. }
  destruct H1 as (Hu1 & Hc1 & Hs1 & (added1 & Ha1) & Hnd1).
  set (p2 := match pr_current_step data with
             | Some step =>
                 OnboardingProgress.mk (OnboardingProgress.user p1) step
                   (OnboardingProgress.completed_steps p1)
                   (OnboardingProgress.completed_at p1)
             | None => p1
             end).
  assert (H2 : OnboardingProgress.user p2 = u
               /\ OnboardingProgress.completed_steps p2
                  = OnboardingProgress.completed_steps p1
               /\ OnboardingProgress.current_step p2
                  = match pr_current_step data with
                    | Some step => step
                    | None => OnboardingProgress.current_step p0
                    end).
  { subst p2. destruct (pr_current_step data); cbn; auto. }
  destruct H2 as (Hu2 & Hs2 & Hc2).
  set (p3 := if pr_complete_onboarding data
             then OnboardingProgress.complete_onboarding p2 now else p2).
  assert (H3 : OnboardingProgress.user p3 = u
               /\ (forall s, In s (OnboardingProgress.completed_steps p3)
                             <-> In s (OnboardingProgress.completed_steps p1)
                                 \/ (pr_complete_onboarding data = true
                                     /\ s = "PASSION_SELECTION"))
               /\ (exists added, OnboardingProgress.completed_steps p3
                                 = OnboardingProgress.completed_steps p1 ++ added)
               /\ (NoDup (OnboardingProgress.completed_steps p1) ->
                   NoDup (OnboardingProgress.completed_steps p3))
               /\ OnboardingProgress.current_step p3
                  = (if pr_complete_onboarding data then "COMPLETED"
                     else OnboardingProgress.current_step p2)).
  { subst p3. destruct (pr_complete_onboarding data).
    - unfold OnboardingProgress.complete_onboarding.
      set (q := OnboardingProgress.mk (OnboardingProgress.user p2) "COMPLETED"
                  (OnboardingProgress.completed_steps p2) (Some now)).
      destruct (mark_step_completed_steps q "PASSION_SELECTION")
        as (Hu & Hc & _ & Hs & Hnd).
      cbn [q OnboardingProgress.user OnboardingProgress.current_step
           OnboardingProgress.completed_steps] in Hu, Hc, Hs, Hnd.
      rewrite Hs2 in Hs, Hnd.
      split; [congruence |].
      split; [intros s; rewrite Hs; intuition congruence |].
      split; [| split; [exact Hnd | exact Hc]].
      unfold OnboardingProgress.mark_step_completed.
      destruct (existsb _ _); cbn [q OnboardingProgress.completed_steps];
        rewrite Hs2; [exists []; now rewrite app_nil_r | now eexists].
    - split; [exact Hu2 |]. rewrite Hs2.
      split; [intros s; intuition discriminate |].
      split; [exists []; now rewrite app_nil_r |]. split; [tauto | reflexivity]. }
  destruct H3 as (Hu3 & Hs3 & (added3 & Ha3) & Hnd3 & Hc3).
  cbn [progress interests].
  split; [intros s; rewrite Hs3, Hs1; tauto |].
  split; [exists (added1 ++ added3); now rewrite Ha3, Ha1, app_assoc |].
  split; [tauto |].
  split; [rewrite Hc3, Hc2; reflexivity |].
  split.
  { exists p3. split; [| exact Hu3]. apply in_map_iff. exists p0.
    now rewrite Hu0, Z.eqb_refl. }
  split.
  { intros p Hp Hu. apply in_map_iff in Hp. destruct Hp as (x & <- & _).
    destruct (OnboardingProgress.user x =? u) eqn:E; [split; reflexivity |].
    apply Z.eqb_neq in E. contradiction. }
  split; [| reflexivity].
  intros p Hp Hne. apply in_map_iff. exists p.
  rewrite (proj2 (Z.eqb_neq _ _) Hne). split; [reflexivity | now apply Hkeep].
Qed.
